(** * ToneBridge auto-transform service: rule evaluation and resolution

    A shallow embedding of [services/auto-transform/app/main.py]:
    the trigger evaluators of [RuleEngine], the rule resolver
    [RuleEngine.evaluate_rules], and the request handlers
    [evaluate_message], [auto_transform] and [update_config] over an
    explicit state made of the Redis cache and the relational store.

    Conventions of the embedding.
    - Python values whose shape is not fixed by a type annotation
      ([Dict[str, Any]] payloads, JSON bodies) are values of [pyval].
    - A Python [float] is the rational it denotes; only finite values
      are represented.  Comparisons are exact, as Python's are between
      a float and an int; the conversion of an int to a float and the
      subtraction of floats, which rounds, belong to the [interpreter].
    - A Python [str] is a [string] of 8-bit character codes (Latin-1);
      [str.lower] lowers the letters of that range.
    - A raised exception is the [Raise] outcome of the [result] monad;
      [try/except] is a match on the outcome.
    - A statement sent to the store as SQL text is read by what the
      text says: an [UPDATE ... WHERE p] maps over the rows that satisfy
      [p], an [INSERT] adds a row.  A statement built with
      [select(..).where(..)] is handed a Python bool, because the source
      compares a column name, which is a [str], with a value before
      [where] sees it; what the library and the store answer to such a
      statement is the [store_api].  The cache may be unreachable.
    - One request sees one instant: [NOW()] of the store, the clock of
      the cache and [datetime.now()] do not move while it runs. *)

From Stdlib Require Import ZArith QArith Qminmax Qabs Lia Bool Ascii String List.
From Stdlib Require Import Sorting.Permutation Sorting.Sorted.
From stdpp Require Import base option gmap strings fin_maps.

Import ListNotations.
Local Open Scope Z_scope.
Local Open Scope string_scope.

(** ** Python values and exceptions *)

Local Set Warnings "-register-all".

Inductive pyval : Type :=
| VNone
| VBool (b : bool)
| VInt (z : Z)
| VFloat (q : Q)
| VStr (s : string)
| VList (l : list pyval)
| VDict (d : list (string * pyval)).

(** A dict is kept as its items in insertion order; keys are distinct and
    a lookup takes the first binding. *)
Definition pydict := list (string * pyval).

Inductive exn_class :=
| TypeError | AttributeError | ValueError | KeyError | ZeroDivisionError
| ReError | PlainException | HTTPStatusError | TransportError | JSONDecodeError
| ConnectionError | OverflowError | RecursionError | IntegrityError.

Record exn := Exn { exn_cls : exn_class; exn_msg : string }.

(** [str(e)] *)
Definition str_of_exn (e : exn) : string := exn_msg e.

Inductive result (A : Type) : Type :=
| Ok (a : A)
| Raise (e : exn).
Arguments Ok {A} a.
Arguments Raise {A} e.

Definition rbind {A B} (c : result A) (k : A -> result B) : result B :=
  match c with
  | Ok a => k a
  | Raise e => Raise e
  end.

Declare Scope py_scope.
Delimit Scope py_scope with py.
Notation "'do' x <- c ; k" := (rbind c (fun x => k))
  (at level 10, x name, c at level 100, k at level 200) : py_scope.
Local Open Scope py_scope.

(** ** Strings *)

(** [str.lower] on one character: A-Z and the accented capitals
    U+00C0..U+00DE (without the multiplication sign U+00D7). *)
Definition lower_char (c : ascii) : ascii :=
  let n := nat_of_ascii c in
  if ((65 <=? n) && (n <=? 90))%nat
     || ((192 <=? n) && (n <=? 222) && negb (n =? 215))%nat
  then ascii_of_nat (n + 32)
  else c.

Fixpoint str_lower (s : string) : string :=
  match s with
  | EmptyString => EmptyString
  | String c s' => String (lower_char c) (str_lower s')
  end.

Fixpoint startswith (p s : string) : bool :=
  match p, s with
  | EmptyString, _ => true
  | String _ _, EmptyString => false
  | String a p', String b s' => Ascii.eqb a b && startswith p' s'
  end.

(** [sub in s] on strings *)
Fixpoint str_contains (sub s : string) : bool :=
  startswith sub s ||
  match s with
  | EmptyString => false
  | String _ s' => str_contains sub s'
  end.

(** [sep.join(l)] *)
Fixpoint join (sep : string) (l : list string) : string :=
  match l with
  | [] => EmptyString
  | [x] => x
  | x :: rest => x ++ sep ++ join sep rest
  end.

(** The characters of a string, each as a one-character string. *)
Fixpoint chars (s : string) : list string :=
  match s with
  | EmptyString => []
  | String c s' => String c EmptyString :: chars s'
  end.

(** ** Dynamic operations *)

(** [d.get(k)] and [d.get(k, default)] *)
Fixpoint dict_lookup (k : string) (d : pydict) : option pyval :=
  match d with
  | [] => None
  | (k', v) :: d' => if String.eqb k k' then Some v else dict_lookup k d'
  end.

Definition dict_get (d : pydict) (k : string) : pyval :=
  match dict_lookup k d with Some v => v | None => VNone end.

Definition dict_get_default (d : pydict) (k : string) (dflt : pyval) : pyval :=
  match dict_lookup k d with Some v => v | None => dflt end.

(** Truth value of an object, as [if v:] tests it. *)
Definition truthy (v : pyval) : bool :=
  match v with
  | VNone => false
  | VBool b => b
  | VInt z => negb (z =? 0)%Z
  | VFloat q => negb (Qeq_bool q 0)
  | VStr s => negb (String.eqb s EmptyString)
  | VList l => match l with [] => false | _ => true end
  | VDict d => match d with [] => false | _ => true end
  end.

(** [iter(v)] run to the end: the elements a [for] or a comprehension
    visits.  Numbers, booleans and [None] are not iterable. *)
Definition py_iter (v : pyval) : result (list pyval) :=
  match v with
  | VList l => Ok l
  | VStr s => Ok (map VStr (chars s))
  | VDict d => Ok (map (fun kv => VStr (fst kv)) d)
  | _ => Raise (Exn TypeError "object is not iterable")
  end.

(** [a / b] on two [int]s. *)
Definition py_div (a b : Z) : result Q :=
  if (b =? 0)%Z then Raise (Exn ZeroDivisionError "division by zero")
  else Ok (Qred (inject_Z a / inject_Z b)).

(** [min(a, b)]: the first argument unless the second is smaller. *)
Definition py_min (a b : Q) : Q :=
  if Qlt_le_dec b a then b else a.

(** ** Data model *)

Record MessageContext := {
  message : string;
  user_id : string;
  tenant_id : string;
  platform : string;
  channel_id : option string;
  recipient_ids : list string;
  metadata : pydict
}.

(** The dict every evaluator returns:
    [{'matches': .., 'confidence': .., 'reason': ..}] *)
Record TriggerMatch := {
  matches : bool;
  confidence : Q;
  reason : string
}.

Definition no_match (why : string) : TriggerMatch :=
  {| matches := false; confidence := 0; reason := why |}.

(** ** Keyword evaluator *)

(** [kw.lower()]: only [str] has the method. *)
Definition lower_of (kw : pyval) : result string :=
  match kw with
  | VStr s => Ok (str_lower s)
  | _ => Raise (Exn AttributeError "object has no attribute 'lower'")
  end.

(** [[kw for kw in keywords if kw.lower() in message_lower]]; the
    survivors are all [str], so they are returned as strings. *)
Fixpoint found_in (message_lower : string) (keywords : list pyval)
  : result (list string) :=
  match keywords with
  | [] => Ok []
  | kw :: rest =>
      do l <- lower_of kw ;
      do found <- found_in message_lower rest ;
      Ok (if str_contains l message_lower
          then match kw with VStr s => s :: found | _ => found end
          else found)
  end.

Definition _check_keywords (message : string) (keywords : pyval)
  : result TriggerMatch :=
  let message_lower := str_lower message in
  do kws <- py_iter keywords ;
  do found_keywords <- found_in message_lower kws ;
  match found_keywords with
  | _ :: _ =>
      do q <- py_div (Z.of_nat (List.length found_keywords))
                  (Z.of_nat (List.length kws)) ;
      Ok {| matches := true;
            confidence := py_min 1 q;
            reason := "Contains keywords: " ++ join ", " found_keywords |}
  | [] => Ok (no_match "No keywords found")
  end.

(** ** The other evaluators

    What the interpreter and the libraries supply is a parameter of the
    section: TextBlob's polarity, the regular-expression engine,
    [time.fromisoformat] and the two formatters used in reason texts. *)

(** [datetime.time]: a naive time has no UTC offset. *)
Record pytime := {
  hour : Z;
  minute : Z;
  second : Z;
  microsecond : Z;
  utcoffset : option Z
}.

Definition naive_time (h m s : Z) : pytime :=
  {| hour := h; minute := m; second := s; microsecond := 0; utcoffset := None |}.

(** Order of naive times: the tuples (hour, minute, second, microsecond). *)
Definition time_ltb (a b : pytime) : bool :=
  ((hour a <? hour b) ||
   ((hour a =? hour b) &&
    ((minute a <? minute b) ||
     ((minute a =? minute b) &&
      ((second a <? second b) ||
       ((second a =? second b) && (microsecond a <? microsecond b)))))))%Z.

(** [a < b] and [a > b] on times whose left operand is naive: an aware
    right operand cannot be compared with it. *)
Definition py_time_lt (a b : pytime) : result bool :=
  match utcoffset b with
  | None => Ok (time_ltb a b)
  | Some _ => Raise (Exn TypeError "can't compare offset-naive and offset-aware times")
  end.

Definition py_time_gt (a b : pytime) : result bool :=
  match utcoffset b with
  | None => Ok (time_ltb b a)
  | Some _ => Raise (Exn TypeError "can't compare offset-naive and offset-aware times")
  end.

Definition two_digits (n : Z) : string :=
  String (ascii_of_nat (48 + Z.to_nat (n / 10)))
    (String (ascii_of_nat (48 + Z.to_nat (n mod 10))) EmptyString).

(** [now.strftime('%H:%M')] *)
Definition strftime_HM (t : pytime) : string :=
  two_digits (hour t) ++ ":" ++ two_digits (minute t).

(** The value a comparison of a float with [v] reads: Python compares a
    float with an int, of any size, by their exact values; anything
    that is not a number is a [TypeError]. *)
Definition as_number (v : pyval) : result Q :=
  match v with
  | VInt z => Ok (inject_Z z)
  | VFloat q => Ok q
  | VBool b => Ok (if b then 1%Q else 0%Q)
  | _ => Raise (Exn TypeError "unsupported operand type(s)")
  end.

(** [v == s] for a string literal [s] *)
Definition eq_str (v : pyval) (s : string) : bool :=
  match v with
  | VStr s' => String.eqb s' s
  | _ => false
  end.

Definition hashable (v : pyval) : bool :=
  match v with
  | VList _ | VDict _ => false
  | _ => true
  end.

(** [set(v)]: the elements, which must be hashable. *)
Definition py_set (v : pyval) : result (list pyval) :=
  do items <- py_iter v ;
  if forallb hashable items then Ok items
  else Raise (Exn TypeError "unhashable type").

(** [', '.join(v)]: every element must be a [str]. *)
Fixpoint all_strs (l : list pyval) : result (list string) :=
  match l with
  | [] => Ok []
  | VStr s :: rest => do ss <- all_strs rest ; Ok (s :: ss)
  | _ :: _ => Raise (Exn TypeError "sequence item: expected str instance")
  end.

Definition py_join (sep : string) (v : pyval) : result string :=
  do items <- py_iter v ;
  do ss <- all_strs items ;
  Ok (join sep ss).

(** [s in v] for a string [s] *)
Definition py_contains (s : string) (v : pyval) : result bool :=
  match v with
  | VList l => Ok (existsb (fun x => eq_str x s) l)
  | VStr t => Ok (str_contains s t)
  | VDict d => Ok (existsb (fun kv => String.eqb (fst kv) s) d)
  | _ => Raise (Exn TypeError "argument is not iterable")
  end.

(** What the interpreter decides and the source does not:
    - [float_of_int z], the float an int becomes when it meets a float
      in arithmetic, rounded, or the [OverflowError] of an int beyond
      the range of a float;
    - [float_sub a b], the float [a - b] rounds to;
    - [set_iter l], the order in which a set holding the distinct
      strings [l] is iterated, which follows the string hashes of the
      process. *)
Record interpreter := {
  float_of_int : Z -> result Q;
  float_sub : Q -> Q -> Q;
  set_iter : list string -> list string
}.

(** The float written [0.1]. *)
Definition float_tenth : Q := 3602879701896397 # 36028797018963968.

Section Evaluators.

(** [TextBlob(message).sentiment.polarity] *)
Variable polarity_of : string -> result Q.
(** [re.compile(p, re.IGNORECASE).search(message)] as a truth value, or
    the exception either call ends with: of class [ReError] for
    [re.error], of another class for what [re.compile] raises besides
    (an [OverflowError] on a repetition count too large, a
    [RecursionError] on a pattern nested too deep). *)
Variable re_search : string -> string -> result bool.
(** [time.fromisoformat]; a [ValueError] on a string it cannot parse. *)
Variable fromisoformat : string -> result pytime.
(** [f"{polarity:.2f}"] and [f"{threshold}"] *)
Variable fmt_2f : Q -> string.
Variable py_str : pyval -> string.
Variable py : interpreter.

(** [polarity - threshold]: the threshold becomes a float first. *)
Definition py_sub (polarity : Q) (threshold : pyval) : result Q :=
  match threshold with
  | VFloat q => Ok (float_sub py polarity q)
  | VInt z => do f <- float_of_int py z ; Ok (float_sub py polarity f)
  | VBool b => Ok (float_sub py polarity (if b then 1%Q else 0%Q))
  | _ => Raise (Exn TypeError "unsupported operand type(s) for -")
  end.

(** The body of the [try] of [_check_sentiment]; [None] when it falls
    through to the final return.  [abs] of a float is exact, and so is
    its half unless that half is subnormal; the half is kept exact
    throughout. *)
Definition sentiment_try (message : string) (config : pydict)
  : result (option TriggerMatch) :=
  do polarity <- polarity_of message ;
  let threshold := dict_get_default config "threshold" (VInt 0) in
  let operator := dict_get_default config "operator" (VStr "less_than") in
  do matched <-
    (if eq_str operator "less_than" then
       do t <- as_number threshold ;
       if Qlt_le_dec polarity t then Ok true else Ok false
     else if eq_str operator "greater_than" then
       do t <- as_number threshold ;
       if Qlt_le_dec t polarity then Ok true else Ok false
     else if eq_str operator "equals" then
       do d <- py_sub polarity threshold ;
       if Qlt_le_dec (Qabs d) float_tenth then Ok true else Ok false
     else Ok false) ;
  if (matched : bool) then
    do d <- py_sub polarity threshold ;
    let confidence := (Qabs d / 2)%Q in
    Ok (Some {| matches := true;
                confidence := py_min 1 confidence;
                reason := "Sentiment polarity " ++ fmt_2f polarity ++ " " ++
                          py_str operator ++ " " ++ py_str threshold |})
  else Ok None.

Definition _check_sentiment (message : string) (config : pydict)
  : result TriggerMatch :=
  match sentiment_try message config with
  | Ok (Some r) => Ok r
  | Ok None => Ok (no_match "Sentiment check failed")
  | Raise _ => Ok (no_match "Sentiment check failed")
  end.

(** The intersection [set(recipient_ids) & set(target_ids)]: the
    distinct recipients that are among the targets.  Whether it is
    empty does not depend on any order; the order in which [join]
    visits it is [set_iter]'s. *)
Definition _check_recipients (recipient_ids : list string) (config : pydict)
  : result TriggerMatch :=
  let target_roles := dict_get_default config "roles" (VList []) in
  let target_ids := dict_get_default config "ids" (VList []) in
  do by_id <-
    (if truthy target_ids then
       do targets <- py_set target_ids ;
       let matching_ids :=
         List.filter (fun r => existsb (fun t => eq_str t r) targets)
                (nodup string_dec recipient_ids) in
       match matching_ids with
       | _ :: _ =>
           Ok (Some {| matches := true;
                       confidence := 9 # 10;
                       reason := "Recipient match: " ++
                                 join ", " (set_iter py matching_ids) |})
       | [] => Ok None
       end
     else Ok None) ;
  match by_id with
  | Some r => Ok r
  | None =>
      if truthy target_roles then
        do roles <- py_join ", " target_roles ;
        Ok {| matches := true;
              confidence := 8 # 10;
              reason := "Recipient role match: " ++ roles |}
      else Ok (no_match "No recipient match")
  end.

Definition _check_channel (channel_id : option string) (config : pydict)
  : result TriggerMatch :=
  match channel_id with
  | None => Ok (no_match "No channel specified")
  | Some cid =>
      if String.eqb cid EmptyString then Ok (no_match "No channel specified")
      else
        let channel_type := dict_get config "type" in
        let channel_ids := dict_get_default config "ids" (VList []) in
        do listed <-
          (if truthy channel_ids then py_contains cid channel_ids
           else Ok false) ;
        if (listed : bool) then
          Ok {| matches := true;
                confidence := 1;
                reason := "Channel match: " ++ cid |}
        else if truthy channel_type
                && eq_str channel_type "support"
                && str_contains "support" (str_lower cid) then
          Ok {| matches := true;
                confidence := 8 # 10;
                reason := "Channel type match: " ++ "support" |}
        else Ok (no_match "No channel match")
  end.

(** [time.fromisoformat(v)]: the argument must be a [str]. *)
Definition parse_time (v : pyval) : result pytime :=
  match v with
  | VStr s => fromisoformat s
  | _ => Raise (Exn TypeError "fromisoformat: argument must be str")
  end.

(** [now] is [datetime.now()], of which only the time of day is read. *)
Definition _check_time (now : pytime) (config : pydict)
  : result TriggerMatch :=
  let current_time := now in
  let after_str := dict_get config "after" in
  let before_str := dict_get config "before" in
  do too_early <-
    (if truthy after_str then
       do after_time <- parse_time after_str ;
       py_time_lt current_time after_time
     else Ok false) ;
  if (too_early : bool) then Ok (no_match "Before time window")
  else
    do too_late <-
      (if truthy before_str then
         do before_time <- parse_time before_str ;
         py_time_gt current_time before_time
       else Ok false) ;
    if (too_late : bool) then Ok (no_match "After time window")
    else
      Ok {| matches := true;
            confidence := 9 # 10;
            reason := "Within time window: " ++ strftime_HM now |}.

(** The loop of [_check_patterns]: a pattern that raises [re.error] is
    skipped; any other exception leaves the loop, since the handler
    names [re.error] only; so does the [TypeError] of [re.compile] on a
    pattern that is not a [str]. *)
Fixpoint patterns_loop (message : string) (patterns : list pyval)
  : result TriggerMatch :=
  match patterns with
  | [] => Ok (no_match "No pattern match")
  | VStr pattern_str :: rest =>
      match re_search pattern_str message with
      | Ok true =>
          Ok {| matches := true;
                confidence := 9 # 10;
                reason := "Pattern match: " ++ pattern_str |}
      | Ok false => patterns_loop message rest
      | Raise e =>
          match exn_cls e with
          | ReError => patterns_loop message rest
          | _ => Raise e
          end
      end
  | _ :: _ =>
      Raise (Exn TypeError "first argument must be string or compiled pattern")
  end.

Definition _check_patterns (message : string) (patterns : pyval)
  : result TriggerMatch :=
  do ps <- py_iter patterns ;
  patterns_loop message ps.

Definition _evaluate_trigger (now : pytime) (context : MessageContext)
           (trigger_type : string) (trigger_value : pydict)
  : result TriggerMatch :=
  if String.eqb trigger_type "keyword" then
    _check_keywords (message context)
                    (dict_get_default trigger_value "keywords" (VList []))
  else if String.eqb trigger_type "sentiment" then
    _check_sentiment (message context) trigger_value
  else if String.eqb trigger_type "recipient" then
    _check_recipients (recipient_ids context) trigger_value
  else if String.eqb trigger_type "channel" then
    _check_channel (channel_id context) trigger_value
  else if String.eqb trigger_type "time" then
    _check_time now trigger_value
  else if String.eqb trigger_type "pattern" then
    _check_patterns (message context)
                    (dict_get_default trigger_value "patterns" (VList []))
  else Ok (no_match "Unknown trigger type").

End Evaluators.

(** ** Rules and the resolver *)

(** A rule as [evaluate_rules] reads it: a row of [auto_transform_rules],
    or the same row back from the JSON of the cache. *)
Module Rule.
Record t := {
  id : string;
  config_id : Z;
  rule_name : string;
  enabled : bool;
  priority : Z;
  trigger_type : string;
  trigger_value : pydict;
  transformation_type : string;
  transformation_intensity : Z;
  transformation_options : pydict;
  platforms : list string;
  channels : list string;
  user_roles : list string
}.
End Rule.

(** An entry of the list [matches]:
    [{'rule': rule, 'confidence': .., 'reason': ..}] *)
Record Match := {
  m_rule : Rule.t;
  m_confidence : Q;
  m_reason : string
}.

Record TransformationResult := {
  should_transform : bool;
  rule_id : option string;
  res_rule_name : option string;
  res_transformation_type : string;
  res_transformation_intensity : Z;
  res_transformation_options : pydict;
  res_confidence : Q;
  res_reason : option string
}.

(** [s in l] for a list of strings *)
Definition str_in (s : string) (l : list string) : bool :=
  existsb (String.eqb s) l.

(** [rule['platforms'] and context.platform not in rule['platforms']] *)
Definition platform_excluded (context : MessageContext) (rule : Rule.t) : bool :=
  match Rule.platforms rule with
  | [] => false
  | ps => negb (str_in (platform context) ps)
  end.

(** [rule['channels'] and context.channel_id not in rule['channels']];
    a context without channel is in no list. *)
Definition channel_excluded (context : MessageContext) (rule : Rule.t) : bool :=
  match Rule.channels rule with
  | [] => false
  | cs => match channel_id context with
          | Some c => negb (str_in c cs)
          | None => true
          end
  end.

(** The sort key [(x['rule']['priority'], x['confidence'])] and the
    order of tuples on it. *)
Definition sort_key (m : Match) : Z * Q := (Rule.priority (m_rule m), m_confidence m).

Definition Qltb (a b : Q) : bool := negb (Qle_bool b a).

Definition key_ltb (a b : Z * Q) : bool :=
  if (fst a =? fst b)%Z then Qltb (snd a) (snd b) else (fst a <? fst b)%Z.

(** A stable sort into descending order of [ltb], entries that [ltb]
    does not separate keeping their relative order.  The result of a
    stable sort does not depend on the algorithm; it is written here as
    an insertion sort. *)
Section StableSort.
Context {A : Type} (ltb : A -> A -> bool).

Fixpoint insert_desc (m : A) (l : list A) : list A :=
  match l with
  | [] => [m]
  | x :: xs =>
      if ltb m x then x :: insert_desc m xs
      else m :: x :: xs
  end.

Fixpoint stable_sort_desc (l : list A) : list A :=
  match l with
  | [] => []
  | m :: rest => insert_desc m (stable_sort_desc rest)
  end.
End StableSort.

Definition match_ltb (a b : Match) : bool := key_ltb (sort_key a) (sort_key b).

(** [matches.sort(key=lambda x: (x['rule']['priority'], x['confidence']),
    reverse=True)] *)
Definition sort_desc (ms : list Match) : list Match :=
  stable_sort_desc match_ltb ms.

Definition result_of_match (best_match : Match) : TransformationResult :=
  {| should_transform := true;
     rule_id := Some (Rule.id (m_rule best_match));
     res_rule_name := Some (Rule.rule_name (m_rule best_match));
     res_transformation_type := Rule.transformation_type (m_rule best_match);
     res_transformation_intensity := Rule.transformation_intensity (m_rule best_match);
     res_transformation_options := Rule.transformation_options (m_rule best_match);
     res_confidence := m_confidence best_match;
     res_reason := Some (m_reason best_match) |}.

Section Resolver.

Variable polarity_of : string -> result Q.
Variable re_search : string -> string -> result bool.
Variable fromisoformat : string -> result pytime.
Variable fmt_2f : Q -> string.
Variable py_str : pyval -> string.
Variable py : interpreter.

Definition eval_trigger :=
  _evaluate_trigger polarity_of re_search fromisoformat fmt_2f py_str py.

(** The loop of [evaluate_rules] that fills [matches].  The first
    component counts the calls of [_evaluate_trigger] (it is not a value
    of the program); an evaluator that raises ends the loop. *)
Fixpoint collect_matches (now : pytime) (context : MessageContext)
         (rules : list Rule.t) : nat * result (list Match) :=
  match rules with
  | [] => (0%nat, Ok [])
  | rule :: rest =>
      if negb (Rule.enabled rule) then collect_matches now context rest
      else if platform_excluded context rule then collect_matches now context rest
      else if channel_excluded context rule then collect_matches now context rest
      else
        match eval_trigger now context (Rule.trigger_type rule)
                           (Rule.trigger_value rule) with
        | Raise e => (1%nat, Raise e)
        | Ok match_result =>
            let '(n, r) := collect_matches now context rest in
            (S n,
             do ms <- r ;
             Ok (if matches match_result
                 then {| m_rule := rule;
                         m_confidence := confidence match_result;
                         m_reason := reason match_result |} :: ms
                 else ms))
        end
  end.

Definition evaluate_rules (now : pytime) (context : MessageContext)
           (rules : list Rule.t) : nat * result (option TransformationResult) :=
  let '(n, r) := collect_matches now context rules in
  (n,
   do ms <- r ;
   match sort_desc ms with
   | [] => Ok None
   | best_match :: _ => Ok (Some (result_of_match best_match))
   end).

End Resolver.

(** ** The persistent store and the cache *)

(** A row of [auto_transform_configs]. *)
Module Config.
Record t := {
  id : Z;
  tenant_id : string;
  enabled : bool;
  default_transformation_type : string;
  default_intensity : Z;
  min_message_length : Z;
  max_processing_delay_ms : Z;
  require_confirmation : bool;
  show_preview : bool;
  preserve_original : bool
}.
End Config.

(** The request body of [update_config]. *)
Record AutoTransformConfig := {
  atc_tenant_id : string;
  atc_enabled : bool;
  atc_default_transformation_type : string;
  atc_default_intensity : Z;
  atc_min_message_length : Z;
  atc_max_processing_delay_ms : Z;
  atc_require_confirmation : bool;
  atc_show_preview : bool;
  atc_preserve_original : bool
}.

Inductive Status := Triggered | Transformed | Failed.

Definition status_eqb (a b : Status) : bool :=
  match a, b with
  | Triggered, Triggered | Transformed, Transformed | Failed, Failed => true
  | _, _ => false
  end.

(** A row of [auto_transform_logs]. *)
Module Log.
Record t := {
  tenant_id : string;
  rule_id : option string;
  user_id : string;
  original_message : string;
  transformed_message : option pyval;
  platform : string;
  channel_id : option string;
  status : Status;
  error_message : option string;
  triggered_at : Z;
  processed_at : option Z
}.
End Log.

(** The store: configurations by tenant (the column is unique), the
    rule rows, the log rows in insertion order. *)
Record DB := {
  configs : gmap string Config.t;
  rules : list Rule.t;
  logs : list Log.t;
  next_config_id : Z
}.

(** The statements the handlers build with [select(..).where(..)].  The
    source writes each condition as the comparison of a column name, a
    [str], with a value, so that [where] receives the Python bool of
    that comparison and the statement names no value to look up.  What
    the library makes of such a statement and what the store answers
    to it are not fixed by the source: each answer is a function of
    the bools and of the store, and may be an exception.
    - [first_config b]:
      [select('*').select_from('auto_transform_configs').where(b)]
      and [.first()] of its rows;
    - [first_config_id b]: the same statement with [select('id')];
    - [all_rules b1 b2]:
      [select('*').select_from('auto_transform_rules')
      .where(and_(b1, b2)).order_by('priority DESC')] and [.fetchall()]
      of its rows. *)
Record store_api := {
  first_config : bool -> DB -> result (option Config.t);
  first_config_id : bool -> DB -> result (option Z);
  all_rules : bool -> bool -> DB -> result (list Rule.t)
}.

(** What a cache key holds: the JSON text of a config row or of a list
    of rule rows, kept as the value [json.loads] gives back. *)
Inductive cached :=
| CachedConfig (c : Config.t)
| CachedRules (l : list Rule.t).

Record entry := { value : cached; expires_at : Z }.

Record Redis := {
  available : bool;
  store : gmap string entry
}.

(** The clock of one request: [wall] in microseconds stands for [NOW()]
    of the store and for the clock of the cache; [time_of_day] is
    [datetime.now().time()]. *)
Record Instant := { wall : Z; time_of_day : pytime }.

Definition seconds (n : Z) : Z := n * 1000000.

Definition unreachable : exn := Exn ConnectionError "Error connecting to redis".

(** [redis_client.get(key)]: an expired key is absent. *)
Definition redis_get (r : Redis) (now : Z) (key : string) : result (option cached) :=
  if available r then
    Ok (match store r !! key with
        | Some e => if (now <? expires_at e)%Z then Some (value e) else None
        | None => None
        end)
  else Raise unreachable.

(** [redis_client.setex(key, ttl, value)] *)
Definition redis_setex (r : Redis) (now : Z) (key : string) (ttl : Z) (v : cached)
  : result Redis :=
  if available r then
    Ok {| available := true;
          store := <[key := {| value := v; expires_at := now + seconds ttl |}]> (store r) |}
  else Raise unreachable.

(** [redis_client.delete(key)] *)
Definition redis_delete (r : Redis) (key : string) : result Redis :=
  if available r then
    Ok {| available := true; store := delete key (store r) |}
  else Raise unreachable.

(** A call of [track_metrics] handed to [background_tasks]. *)
Record MetricsTask := {
  mt_tenant_id : string;
  mt_rule_id : option string;
  mt_status : string
}.

(** The state a request runs in.  [trigger_evals] counts the calls of
    [_evaluate_trigger] made so far; it observes the program and is not
    part of it. *)
Record State := {
  redis : Redis;
  db : DB;
  background : list MetricsTask;
  trigger_evals : nat
}.

Definition set_redis (s : State) (r : Redis) : State :=
  {| redis := r; db := db s; background := background s;
     trigger_evals := trigger_evals s |}.

Definition set_db (s : State) (d : DB) : State :=
  {| redis := redis s; db := d; background := background s;
     trigger_evals := trigger_evals s |}.

(** Handlers thread the state and may raise; what was written before an
    exception stays written. *)
Definition M (A : Type) : Type := State -> result A * State.

Definition mret {A} (a : A) : M A := fun s => (Ok a, s).

Definition mraise {A} (e : exn) : M A := fun s => (Raise e, s).

Definition mbind {A B} (c : M A) (k : A -> M B) : M B :=
  fun s =>
    match c s with
    | (Ok a, s') => k a s'
    | (Raise e, s') => (Raise e, s')
    end.

Notation "'act' x <- c ; k" := (mbind c (fun x => k))
  (at level 10, x name, c at level 100, k at level 200) : py_scope.

Definition cache_get (now : Z) (key : string) : M (option cached) :=
  fun s => (redis_get (redis s) now key, s).

Definition cache_setex (now : Z) (key : string) (ttl : Z) (v : cached) : M unit :=
  fun s =>
    match redis_setex (redis s) now key ttl v with
    | Ok r => (Ok tt, set_redis s r)
    | Raise e => (Raise e, s)
    end.

Definition cache_delete (key : string) : M unit :=
  fun s =>
    match redis_delete (redis s) key with
    | Ok r => (Ok tt, set_redis s r)
    | Raise e => (Raise e, s)
    end.

(** The outcome of a handler: its JSON body, or the [HTTPException]. *)
Inductive http (A : Type) : Type :=
| Return (a : A)
| HTTPException (status_code : Z) (detail : string).
Arguments Return {A} a.
Arguments HTTPException {A} status_code detail.

(** [except Exception as e: raise HTTPException(status_code=500, detail=str(e))] *)
Definition to_http {A} (o : result A * State) : http A * State :=
  match o with
  | (Ok a, s) => (Return a, s)
  | (Raise e, s) => (HTTPException 500 (str_of_exn e), s)
  end.

Definition config_key (tenant : string) : string := "auto_transform:config:" ++ tenant.
Definition rules_key (tenant : string) : string := "auto_transform:rules:" ++ tenant.

(** [len(s)] *)
Definition len (s : string) : Z := Z.of_nat (String.length s).

(** ** Request handlers *)

Inductive EvalResponse :=
| Decline (why : string)            (* [{"should_transform": False, "reason": why}] *)
| Proceed (r : TransformationResult) (* [result.dict()] *).

Record TransformResponse := {
  success : bool;
  original : string;
  transformed : pyval;
  rule_applied : option string;
  tr_confidence : Q
}.

(** What the call of the transform service comes back with: an exception
    of the client (timeout, transport error), or a response with its
    status code and what [response.json()] makes of its body. *)
Inductive Upstream :=
| ClientError (e : exn)
| Response (status_code : Z) (json : result pyval).

Record LLMRequest := {
  text : string;
  llm_transformation_type : string;
  intensity : Z;
  options : pydict
}.

(** [response.raise_for_status()] of httpx: only a 2xx status passes. *)
Definition raise_for_status (status_code : Z) : result unit :=
  if ((200 <=? status_code) && (status_code <? 300))%Z then Ok tt
  else Raise (Exn HTTPStatusError "error response from the transform service").

(** [v.get(k)]: a method of dicts. *)
Definition py_get (v : pyval) (k : string) : result pyval :=
  match v with
  | VDict d => Ok (dict_get d k)
  | _ => Raise (Exn AttributeError "object has no attribute 'get'")
  end.

(** [v[k]] for a string [k]; the text of a [KeyError] is the [repr] of
    the key, which for the keys used here is the key between quotes. *)
Definition py_getitem (v : pyval) (k : string) : result pyval :=
  match v with
  | VDict d =>
      match dict_lookup k d with
      | Some x => Ok x
      | None => Raise (Exn KeyError ("'" ++ k ++ "'"))
      end
  | _ => Raise (Exn TypeError "object is not subscriptable with a str")
  end.

(** The [WHERE] clause of both updates of [auto_transform]. *)
Definition correlated (now : Z) (context : MessageContext) (row : Log.t) : bool :=
  String.eqb (Log.tenant_id row) (tenant_id context)
  && String.eqb (Log.user_id row) (user_id context)
  && status_eqb (Log.status row) Triggered
  && (now - seconds 60 <? Log.triggered_at row)%Z.

Definition mark_transformed (now : Z) (transformed_text : pyval) (row : Log.t) : Log.t :=
  {| Log.tenant_id := Log.tenant_id row;
     Log.rule_id := Log.rule_id row;
     Log.user_id := Log.user_id row;
     Log.original_message := Log.original_message row;
     Log.transformed_message := Some transformed_text;
     Log.platform := Log.platform row;
     Log.channel_id := Log.channel_id row;
     Log.status := Transformed;
     Log.error_message := Log.error_message row;
     Log.triggered_at := Log.triggered_at row;
     Log.processed_at := Some now |}.

Definition mark_failed (now : Z) (error : string) (row : Log.t) : Log.t :=
  {| Log.tenant_id := Log.tenant_id row;
     Log.rule_id := Log.rule_id row;
     Log.user_id := Log.user_id row;
     Log.original_message := Log.original_message row;
     Log.transformed_message := Log.transformed_message row;
     Log.platform := Log.platform row;
     Log.channel_id := Log.channel_id row;
     Log.status := Failed;
     Log.error_message := Some error;
     Log.triggered_at := Log.triggered_at row;
     Log.processed_at := Some now |}.

(** [UPDATE auto_transform_logs SET .. WHERE ..] followed by the commit. *)
Definition update_logs (p : Log.t -> bool) (f : Log.t -> Log.t) : M unit :=
  fun s =>
    (Ok tt,
     set_db s {| configs := configs (db s);
                 rules := rules (db s);
                 logs := map (fun row => if p row then f row else row) (logs (db s));
                 next_config_id := next_config_id (db s) |}).

(** [INSERT INTO auto_transform_logs ..] followed by the commit. *)
Definition insert_log (row : Log.t) : M unit :=
  fun s =>
    (Ok tt,
     set_db s {| configs := configs (db s);
                 rules := rules (db s);
                 logs := logs (db s) ++ [row];
                 next_config_id := next_config_id (db s) |}).

Definition add_task (t : MetricsTask) : M unit :=
  fun s =>
    (Ok tt,
     {| redis := redis s; db := db s; background := background s ++ [t];
        trigger_evals := trigger_evals s |}).

(** One statement of the [store_api] run against the store. *)
Definition query {A} (q : DB -> result A) : M A :=
  fun s => (q (db s), s).

Section Handlers.

Variable polarity_of : string -> result Q.
Variable re_search : string -> string -> result bool.
Variable fromisoformat : string -> result pytime.
Variable fmt_2f : Q -> string.
Variable py_str : pyval -> string.
Variable py : interpreter.
Variable sql : store_api.
(** The transform service, as seen through [client.post]. *)
Variable llm_service : LLMRequest -> Upstream.

(** [evaluate_message], the block that yields [config]: the cached
    value, or the row the store answers with, which is cached for 300
    seconds when it is enabled.  The condition of the statement is the
    bool ['tenant_id' == context.tenant_id].  [None] stands for the
    early return "Auto-transform disabled". *)
Definition load_config (now : Instant) (context : MessageContext)
  : M (option Config.t) :=
  let cache_key := config_key (tenant_id context) in
  act cached_config <- cache_get (wall now) cache_key ;
  match cached_config with
  | Some (CachedConfig config) => mret (Some config)
  | Some (CachedRules _) =>
      mraise (Exn TypeError "list indices must be integers or slices, not str")
  | None =>
      act result <-
        query (first_config sql (String.eqb "tenant_id" (tenant_id context))) ;
      match result with
      | None => mret None
      | Some row =>
          if negb (Config.enabled row) then mret None
          else
            act _u <- cache_setex (wall now) cache_key 300 (CachedConfig row) ;
            mret (Some row)
      end
  end.

(** [evaluate_message], the block that yields [rules].  The two
    conditions of the statement are ['config_id' == config['id']] and
    ['enabled' == True]: a [str] compared with an id and with a bool,
    both [False]. *)
Definition load_rules (now : Instant) (context : MessageContext)
           (config : Config.t) : M (list Rule.t) :=
  let rules_cache_key := rules_key (tenant_id context) in
  act cached_rules <- cache_get (wall now) rules_cache_key ;
  match cached_rules with
  | Some (CachedRules rs) => mret rs
  | Some (CachedConfig _) =>
      mraise (Exn TypeError "string indices must be integers")
  | None =>
      act rs <- query (all_rules sql false false) ;
      act _u <- cache_setex (wall now) rules_cache_key 300 (CachedRules rs) ;
      mret rs
  end.

(** The call of [RuleEngine.evaluate_rules] from a handler: its calls
    of [_evaluate_trigger] are added to the count. *)
Definition run_rules (now : Instant) (context : MessageContext)
           (rs : list Rule.t) : M (option TransformationResult) :=
  fun s =>
    let '(n, r) := evaluate_rules polarity_of re_search fromisoformat fmt_2f py_str py
                     (time_of_day now) context rs in
    (r, {| redis := redis s; db := db s; background := background s;
           trigger_evals := (trigger_evals s + n)%nat |}).

Definition triggered_row (now : Instant) (context : MessageContext)
           (r : TransformationResult) : Log.t :=
  {| Log.tenant_id := tenant_id context;
     Log.rule_id := rule_id r;
     Log.user_id := user_id context;
     Log.original_message := message context;
     Log.transformed_message := None;
     Log.platform := platform context;
     Log.channel_id := channel_id context;
     Log.status := Triggered;
     Log.error_message := None;
     Log.triggered_at := wall now;
     Log.processed_at := None |}.

Definition evaluate_body (now : Instant) (context : MessageContext)
  : M EvalResponse :=
  act loaded <- load_config now context ;
  match loaded with
  | None => mret (Decline "Auto-transform disabled")
  | Some config =>
      if (len (message context) <? Config.min_message_length config)%Z
      then mret (Decline "Message too short")
      else
        act rs <- load_rules now context config ;
        match rs with
        | [] => mret (Decline "No active rules")
        | _ :: _ =>
            act result <- run_rules now context rs ;
            match result with
            | Some r =>
                act _u <- insert_log (triggered_row now context r) ;
                mret (Proceed r)
            | None => mret (Decline "No matching rules")
            end
        end
  end.

Definition evaluate_message (now : Instant) (context : MessageContext)
           (s : State) : http EvalResponse * State :=
  to_http (evaluate_body now context s).

(** The [try] block of [auto_transform] up to [transformed_text]. *)
Definition call_transform (context : MessageContext)
           (transformation : TransformationResult) : result pyval :=
  let request :=
    {| text := message context;
       llm_transformation_type := res_transformation_type transformation;
       intensity := res_transformation_intensity transformation;
       options := res_transformation_options transformation |} in
  do transform_result <-
    match llm_service request with
    | ClientError e => Raise e
    | Response status_code json =>
        do _u <- raise_for_status status_code ;
        json
    end ;
  do ok <- py_get transform_result "success" ;
  if negb (truthy ok) then Raise (Exn PlainException "Transformation failed")
  else
    do data <- py_getitem transform_result "data" ;
    py_getitem data "transformed_text".

Definition auto_transform (now : Instant) (context : MessageContext)
           (transformation : TransformationResult) (s : State)
  : http TransformResponse * State :=
  match call_transform context transformation with
  | Ok transformed_text =>
      to_http
        ((act _u <- update_logs (correlated (wall now) context)
                                (mark_transformed (wall now) transformed_text) ;
          act _v <- add_task {| mt_tenant_id := tenant_id context;
                                mt_rule_id := rule_id transformation;
                                mt_status := "success" |} ;
          mret {| success := true;
                  original := message context;
                  transformed := transformed_text;
                  rule_applied := res_rule_name transformation;
                  tr_confidence := res_confidence transformation |}) s)
  | Raise e =>
      to_http
        ((act _u <- update_logs (correlated (wall now) context)
                                (mark_failed (wall now) (str_of_exn e)) ;
          mraise e) s)
  end.

(** The row [update_config] writes: the fields of the body under the
    tenant of the path. *)
Definition config_row (id : Z) (tenant : string) (config : AutoTransformConfig)
  : Config.t :=
  {| Config.id := id;
     Config.tenant_id := tenant;
     Config.enabled := atc_enabled config;
     Config.default_transformation_type := atc_default_transformation_type config;
     Config.default_intensity := atc_default_intensity config;
     Config.min_message_length := atc_min_message_length config;
     Config.max_processing_delay_ms := atc_max_processing_delay_ms config;
     Config.require_confirmation := atc_require_confirmation config;
     Config.show_preview := atc_show_preview config;
     Config.preserve_original := atc_preserve_original config |}.

(** [UPDATE auto_transform_configs SET .. WHERE tenant_id = :tenant_id]:
    the row of the tenant, if there is one, takes the fields of the
    body and keeps its id. *)
Definition update_config_row (tenant : string) (config : AutoTransformConfig) : M unit :=
  fun s =>
    let d := db s in
    (Ok tt,
     set_db s {| configs := match configs d !! tenant with
                            | Some row =>
                                <[tenant := config_row (Config.id row) tenant config]>
                                  (configs d)
                            | None => configs d
                            end;
                 rules := rules d;
                 logs := logs d;
                 next_config_id := next_config_id d |}).

(** [INSERT INTO auto_transform_configs (tenant_id, ..) VALUES ..]: a new
    row under a fresh id.  The column [tenant_id] is unique, so the
    store refuses a second row for a tenant. *)
Definition insert_config_row (tenant : string) (config : AutoTransformConfig) : M unit :=
  fun s =>
    let d := db s in
    match configs d !! tenant with
    | Some _ =>
        (Raise (Exn IntegrityError "duplicate key value violates unique constraint"), s)
    | None =>
        (Ok tt,
         set_db s {| configs := <[tenant := config_row (next_config_id d) tenant config]>
                                  (configs d);
                     rules := rules d;
                     logs := logs d;
                     next_config_id := next_config_id d + 1 |})
    end.

(** The statements of [update_config] up to the commit.  [existing] is
    what the store answers to the statement whose condition is the bool
    ['tenant_id' == tenant_id].  An exception leaves nothing written:
    no statement before it has changed the store. *)
Definition write_config (tenant : string) (config : AutoTransformConfig) : M unit :=
  act existing <- query (first_config_id sql (String.eqb "tenant_id" tenant)) ;
  match existing with
  | Some _ => update_config_row tenant config
  | None => insert_config_row tenant config
  end.

Definition update_config (tenant : string) (config : AutoTransformConfig)
           (s : State) : http string * State :=
  to_http
    ((act _u <- write_config tenant config ;
      act _v <- cache_delete (config_key tenant) ;
      mret "Configuration updated") s).

End Handlers.

(** ** Specification-side definitions

    What the statements below compare the code with. *)

(** A keyword occurs in a message when, both lowered, the message has the
    keyword as a contiguous part. *)
Definition ci_occurs (kw message : string) : Prop :=
  exists pre post, str_lower message = pre ++ str_lower kw ++ post.

Definition ci_occursb (kw message : string) : bool :=
  str_contains (str_lower kw) (str_lower message).

(** The keywords of the list that occur in the message, in list order. *)
Definition matched_keywords (message : string) (kws : list string) : list string :=
  List.filter (fun kw => ci_occursb kw message) kws.


(** [a <= b] on naive times *)
Definition time_leb (a b : pytime) : bool := negb (time_ltb b a).

(** Microseconds since midnight. *)
Definition micros (t : pytime) : Z :=
  ((hour t * 60 + minute t) * 60 + second t) * 1000000 + microsecond t.

Definition valid_time (t : pytime) : Prop :=
  (0 <= hour t < 24 /\ 0 <= minute t < 60 /\ 0 <= second t < 60
   /\ 0 <= microsecond t < 1000000)%Z.

(** How a time rule states one bound: unset (absent, [None] or empty), or
    a string that [fromisoformat] reads as a naive time. *)
Inductive time_bound (fromisoformat : string -> result pytime)
  : pyval -> option pytime -> Prop :=
| bound_unset (v : pyval) :
    truthy v = false -> time_bound fromisoformat v None
| bound_set (s : string) (t : pytime) :
    s <> EmptyString -> fromisoformat s = Ok t -> utcoffset t = None ->
    time_bound fromisoformat (VStr s) (Some t).

(** The closed window: an unset bound does not restrict. *)
Definition in_window (after before : option pytime) (now : pytime) : bool :=
  match after with Some a => time_leb a now | None => true end
  && match before with Some b => time_leb now b | None => true end.

(** The window as the specification words it, half-open: [after]
    included, [before] excluded. *)
Definition in_half_open_window (after before : option pytime) (now : pytime) : bool :=
  match after with Some a => time_leb a now | None => true end
  && match before with Some b => time_ltb now b | None => true end.

(** The order the resolver ranks by: priority first, confidence among
    equal priorities. *)
Definition ranks_above (a b : Match) : Prop :=
  (Rule.priority (m_rule b) < Rule.priority (m_rule a))%Z
  \/ (Rule.priority (m_rule a) = Rule.priority (m_rule b)
      /\ m_confidence b <= m_confidence a)%Q.

(** A rule the resolver evaluates for a context: enabled, and let
    through by its platform and channel lists. *)
Definition eligible (context : MessageContext) (rule : Rule.t) : bool :=
  Rule.enabled rule && negb (platform_excluded context rule)
  && negb (channel_excluded context rule).

(** What a key of the cache holds at an instant. *)
Definition cached_at (r : Redis) (now : Z) (key : string) : option cached :=
  match store r !! key with
  | Some e => if (now <? expires_at e)%Z then Some (value e) else None
  | None => None
  end.


(** The configuration an evaluation works with: the cached one while it
    lives; else what the store answers to the statement of
    [evaluate_message], if that is a row and the row is enabled. *)
Definition config_in_effect (sql : store_api) (now : Instant)
           (context : MessageContext) (s : State) : result (option Config.t) :=
  match cached_at (redis s) (wall now) (config_key (tenant_id context)) with
  | Some (CachedConfig c) => Ok (Some c)
  | Some (CachedRules _) => Ok None
  | None =>
      match first_config sql (String.eqb "tenant_id" (tenant_id context)) (db s) with
      | Ok (Some row) => Ok (if Config.enabled row then Some row else None)
      | Ok None => Ok None
      | Raise e => Raise e
      end
  end.


(** The request [auto_transform] sends for a context and a decision. *)
Definition request_of (context : MessageContext) (transformation : TransformationResult)
  : LLMRequest :=
  {| text := message context;
     llm_transformation_type := res_transformation_type transformation;
     intensity := res_transformation_intensity transformation;
     options := res_transformation_options transformation |}.

(** The failures of the transform service, each with the exception the
    handler ends up with: the client raised (timeout, transport error);
    the status is not 2xx; the body is not JSON; the body carries no
    true [success]. *)
Inductive upstream_failure : Upstream -> exn -> Prop :=
| failure_client (e : exn) :
    upstream_failure (ClientError e) e
| failure_status (status_code : Z) (json : result pyval) :
    ~ (200 <= status_code < 300)%Z ->
    upstream_failure (Response status_code json)
                     (Exn HTTPStatusError "error response from the transform service")
| failure_body (status_code : Z) (e : exn) :
    (200 <= status_code < 300)%Z ->
    upstream_failure (Response status_code (Raise e)) e
| failure_no_success (status_code : Z) (body : pydict) :
    (200 <= status_code < 300)%Z ->
    truthy (dict_get body "success") = false ->
    upstream_failure (Response status_code (Ok (VDict body)))
                     (Exn PlainException "Transformation failed").

(** The two updates of [auto_transform] as maps over the log. *)
Definition logs_marked (now : Z) (context : MessageContext) (f : Log.t -> Log.t)
           (ls : list Log.t) : list Log.t :=
  map (fun row => if correlated now context row then f row else row) ls.

(** ** Stand-ins for the libraries, used in the examples

    [time.fromisoformat] on the form [HH:MM], which the SDK documents
    for time rules; every other string is reported as unparsable. *)
Definition digit_of (c : ascii) : option Z :=
  let n := nat_of_ascii c in
  if ((48 <=? n) && (n <=? 57))%nat then Some (Z.of_nat (n - 48)) else None.

Definition fromisoformat_hhmm (s : string) : result pytime :=
  match s with
  | String h1 (String h2 (String sep (String m1 (String m2 EmptyString)))) =>
      match digit_of h1, digit_of h2, digit_of m1, digit_of m2 with
      | Some a, Some b, Some c, Some d =>
          if (Ascii.eqb sep ":" && (10 * a + b <? 24)%Z && (10 * c + d <? 60)%Z)
          then Ok (naive_time (10 * a + b) (10 * c + d) 0)
          else Raise (Exn ValueError "Invalid isoformat string")
      | _, _, _, _ => Raise (Exn ValueError "Invalid isoformat string")
      end
  | _ => Raise (Exn ValueError "Invalid isoformat string")
  end.

(** A sentiment analyser that finds every text neutral, a pattern engine
    that compiles no pattern, and formatters that print nothing. *)
Definition neutral_polarity (_ : string) : result Q := Ok 0%Q.
Definition no_regex (_ _ : string) : result bool :=
  Raise (Exn ReError "nothing to repeat").
Definition fmt_blank (_ : Q) : string := EmptyString.
Definition str_blank (_ : pyval) : string := EmptyString.

(** An interpreter for the examples: ints up to 2^53 are floats as they
    are and larger ones are refused, the subtraction does not round,
    and a set is iterated in the order its elements were given. *)
Definition plain_python : interpreter :=
  {| float_of_int := fun z =>
       if (Z.abs z <=? 2 ^ 53)%Z then Ok (inject_Z z)
       else Raise (Exn OverflowError "int too large to convert to float");
     float_sub := fun a b => Qred (a - b);
     set_iter := fun l => l |}.

(** A store for the examples that takes the constant conditions at
    their word: [False] selects no row and [True] every row, the first
    configuration being the first of the table as the store enumerates
    it and the rules coming by descending priority. *)
Definition constant_where : store_api :=
  {| first_config := fun b d =>
       Ok (if b then snd <$> head (map_to_list (configs d)) else None);
     first_config_id := fun b d =>
       Ok (if b then (fun kv => Config.id (snd kv)) <$> head (map_to_list (configs d))
           else None);
     all_rules := fun b1 b2 d =>
       Ok (if b1 && b2
           then stable_sort_desc (fun a b => (Rule.priority a <? Rule.priority b)%Z)
                                 (rules d)
           else []) |}.

(** ** Sample data for the examples *)

Definition sample_context : MessageContext :=
  {| message := "This is absolutely unacceptable, fix it now!!!";
     user_id := "U1";
     tenant_id := "T1";
     platform := "slack";
     channel_id := Some "C1";
     recipient_ids := [];
     metadata := [] |}.

Definition sample_rule (id : string) (prio : Z) (ttype : string) (tvalue : pydict)
  : Rule.t :=
  {| Rule.id := id;
     Rule.config_id := 1;
     Rule.rule_name := id;
     Rule.enabled := true;
     Rule.priority := prio;
     Rule.trigger_type := ttype;
     Rule.trigger_value := tvalue;
     Rule.transformation_type := "tone";
     Rule.transformation_intensity := 2;
     Rule.transformation_options := [];
     Rule.platforms := [];
     Rule.channels := [];
     Rule.user_roles := [] |}.

Definition keyword_rule (id : string) (prio : Z) (kws : list string) : Rule.t :=
  sample_rule id prio "keyword" [("keywords", VList (map VStr kws))].

Definition noon : pytime := naive_time 12 0 0.

Definition at_noon : Instant := {| wall := seconds 1000; time_of_day := noon |}.

Definition sample_config (enabled : bool) (min_len : Z) : Config.t :=
  {| Config.id := 1;
     Config.tenant_id := "T1";
     Config.enabled := enabled;
     Config.default_transformation_type := "soften";
     Config.default_intensity := 2;
     Config.min_message_length := min_len;
     Config.max_processing_delay_ms := 500;
     Config.require_confirmation := true;
     Config.show_preview := true;
     Config.preserve_original := true |}.

(** A state with an empty cache, one configuration for tenant T1 and the
    given rules and log rows. *)
Definition sample_state (up : bool) (config : Config.t) (rs : list Rule.t)
           (ls : list Log.t) : State :=
  {| redis := {| available := up; store := ∅ |};
     db := {| configs := {[ "T1" := config ]};
              rules := rs;
              logs := ls;
              next_config_id := 2 |};
     background := [];
     trigger_evals := 0 |}.

(** A log row of tenant T1 and user U1, triggered at the given instant. *)
Definition sample_log (status : Status) (at_ : Z) : Log.t :=
  {| Log.tenant_id := "T1";
     Log.rule_id := Some "polite";
     Log.user_id := "U1";
     Log.original_message := "This is absolutely unacceptable, fix it now!!!";
     Log.transformed_message := None;
     Log.platform := "slack";
     Log.channel_id := Some "C1";
     Log.status := status;
     Log.error_message := None;
     Log.triggered_at := at_;
     Log.processed_at := None |}.

Definition sample_decision : TransformationResult :=
  result_of_match
    {| m_rule := keyword_rule "polite" 5 ["unacceptable"; "now"];
       m_confidence := 1;
       m_reason := "Contains keywords: unacceptable, now" |}.

(** A transform service that answers, one that times out, one that
    answers with a server error. *)
Definition llm_ok (_ : LLMRequest) : Upstream :=
  Response 200
    (Ok (VDict [("success", VBool true);
                ("data", VDict [("transformed_text", VStr "Could you please fix it soon?");
                                ("suggestions", VList [])])])).

Definition llm_timeout (_ : LLMRequest) : Upstream :=
  ClientError (Exn TransportError "timed out").

Definition llm_server_error (_ : LLMRequest) : Upstream :=
  Response 500 (Ok (VDict [("success", VBool false)])).

(** The body of a configuration update that disables the tenant. *)
Definition sample_update (enabled : bool) (min_len : Z) : AutoTransformConfig :=
  {| atc_tenant_id := "T1";
     atc_enabled := enabled;
     atc_default_transformation_type := "soften";
     atc_default_intensity := 2;
     atc_min_message_length := min_len;
     atc_max_processing_delay_ms := 500;
     atc_require_confirmation := true;
     atc_show_preview := true;
     atc_preserve_original := true |}.

(** A state whose cache holds, until the given instant, a configuration
    and a rule list for T1 that the store does not have. *)
Definition hot_state (config : Config.t) (rs : list Rule.t) (until : Z) : State :=
  {| redis := {| available := true;
                 store := {[ config_key "T1" :=
                               {| value := CachedConfig config; expires_at := until |};
                             rules_key "T1" :=
                               {| value := CachedRules rs; expires_at := until |} ]} |};
     db := {| configs := ∅; rules := []; logs := []; next_config_id := 1 |};
     background := [];
     trigger_evals := 0 |}.

(** The same state while the cache cannot, or can again, be reached. *)
Definition cache_down (s : State) : State :=
  set_redis s {| available := false; store := store (redis s) |}.

Definition cache_up (s : State) : State :=
  set_redis s {| available := true; store := store (redis s) |}.

(** A time rule whose [after] bound is not a time. *)
Definition bad_time_rule : Rule.t :=
  sample_rule "office-hours" 9 "time" [("after", VStr "soon")].

(** * Metrics and the client

    [track_metrics] of the service, and the validation and the rule
    builders of the Python client that calls it. *)

(** ** Metrics *)

(** The hashes of the cache that hold counters, kept apart from its
    string keys. *)
Record Counters := {
  counters_up : bool;
  hashes : gmap string (gmap string Z)
}.

(** The counter of a field of a hash; a missing hash or field counts 0. *)
Definition hget (c : Counters) (key field : string) : Z :=
  match hashes c !! key with
  | Some h => match h !! field with Some n => n | None => 0 end
  | None => 0
  end.

(** [redis_client.hincrby(key, field, amount)] *)
Definition hincrby (c : Counters) (key field : string) (amount : Z) : result Counters :=
  if counters_up c then
    Ok {| counters_up := true;
          hashes := <[key := <[field := hget c key field + amount]>
                               (match hashes c !! key with Some h => h | None => ∅ end)]>
                      (hashes c) |}
  else Raise unreachable.

Definition metrics_key (tenant today : string) : string :=
  "auto_transform:metrics:" ++ tenant ++ ":" ++ today.
Definition rule_usage_key (tenant today : string) : string :=
  "auto_transform:rule_usage:" ++ tenant ++ ":" ++ today.

(** [track_metrics]; [today] is [datetime.now().strftime('%Y-%m-%d')].
    An exception of the cache is logged and goes no further. *)
Definition track_metrics (today : string) (tenant : string) (rule : option string)
           (status : string) (c : Counters) : Counters :=
  match hincrby c (metrics_key tenant today) status 1 with
  | Raise _ => c
  | Ok c1 =>
      match rule with
      | Some rule_id =>
          if negb (String.eqb rule_id EmptyString) then
            match hincrby c1 (rule_usage_key tenant today) rule_id 1 with
            | Raise _ => c1
            | Ok c2 => c2
            end
          else c1
      | None => c1
      end
  end.

(** ** The client *)

(** [_validate_message_context] and [_validate_rule] of the client:
    [None] when the dict passes, else the message of the
    [ValidationError]. *)
Definition _validate_message_context (context : pydict) : option string :=
  if negb (truthy (dict_get context "message")) then Some "Message is required"
  else if negb (truthy (dict_get context "user_id")) then Some "User ID is required"
  else if negb (truthy (dict_get context "tenant_id")) then Some "Tenant ID is required"
  else if negb (truthy (dict_get context "platform")) then Some "Platform is required"
  else None.

Definition _validate_rule (rule : pydict) : option string :=
  if negb (truthy (dict_get rule "rule_name")) then Some "Rule name is required"
  else if negb (truthy (dict_get rule "trigger_type")) then Some "Trigger type is required"
  else if negb (truthy (dict_get rule "trigger_value")) then Some "Trigger value is required"
  else if negb (truthy (dict_get rule "transformation_type"))
       then Some "Transformation type is required"
  else None.

(** The dicts [create_keyword_rule], [create_sentiment_rule] and
    [create_time_rule] build before they call [create_rule];
    [transformation_type] is the string of the enum value. *)
Definition client_rule (name : string) (trigger_type : string) (trigger_value : pydict)
           (transformation_type : string) : pydict :=
  [("rule_name", VStr name);
   ("enabled", VBool true);
   ("priority", VInt 0);
   ("trigger_type", VStr trigger_type);
   ("trigger_value", VDict trigger_value);
   ("transformation_type", VStr transformation_type);
   ("transformation_intensity", VInt 2)].

Definition create_keyword_rule (name : string) (keywords : list string)
           (transformation_type : string) : pydict :=
  client_rule name "keyword" [("keywords", VList (map VStr keywords))]
              transformation_type.

Definition create_sentiment_rule (name : string) (threshold : Q) (operator : string)
           (transformation_type : string) : pydict :=
  client_rule name "sentiment"
              [("threshold", VFloat threshold); ("operator", VStr operator)]
              transformation_type.

Definition create_time_rule (name : string) (after before : string)
           (transformation_type : string) : pydict :=
  client_rule name "time" [("after", VStr after); ("before", VStr before)]
              transformation_type.


(** ** Further sample data *)

(** A sentiment analyser that finds every text at polarity -0.4. *)
Definition gloomy_polarity (_ : string) : result Q := Ok (-2 # 5)%Q.

(** A sentiment analyser that fails on every text. *)
Definition broken_polarity (_ : string) : result Q :=
  Raise (Exn PlainException "corpus missing").

(** A pattern engine for the examples: a pattern finds what
    [str_contains] finds of its lowered text, a pattern that starts
    with an opening bracket is a [re.error], and one that starts with
    an opening brace overflows the compiler. *)
Definition literal_regex (pattern message : string) : result bool :=
  match pattern with
  | String "[" _ => Raise (Exn ReError "unterminated character set")
  | String "{" _ => Raise (Exn OverflowError "the repetition number is too large")
  | _ => Ok (str_contains (str_lower pattern) (str_lower message))
  end.

(** A result is well scored when a non-match carries confidence 0 and a
    match a confidence between 0 and 1. *)
Definition well_scored (r : TriggerMatch) : Prop :=
  (matches r = false /\ confidence r = 0%Q)
  \/ (matches r = true /\ (0 <= confidence r)%Q /\ (confidence r <= 1)%Q).

(** The rule of an earlier example restricted to one platform. *)
Definition teams_only_rule : Rule.t :=
  {| Rule.id := "teams-only";
     Rule.config_id := 1;
     Rule.rule_name := "teams-only";
     Rule.enabled := true;
     Rule.priority := 7;
     Rule.trigger_type := "time";
     Rule.trigger_value := [("after", VStr "soon")];
     Rule.transformation_type := "tone";
     Rule.transformation_intensity := 2;
     Rule.transformation_options := [];
     Rule.platforms := ["teams"];
     Rule.channels := [];
     Rule.user_roles := [] |}.

(** [a] ranks strictly below [b]. *)
Definition ranks_below (a b : Match) : Prop :=
  (Rule.priority (m_rule a) < Rule.priority (m_rule b))%Z
  \/ (Rule.priority (m_rule a) = Rule.priority (m_rule b)
      /\ m_confidence a < m_confidence b)%Q.

(** A rule that is switched off. *)
Definition disabled_rule : Rule.t :=
  {| Rule.id := "off";
     Rule.config_id := 1;
     Rule.rule_name := "off";
     Rule.enabled := false;
     Rule.priority := 99;
     Rule.trigger_type := "keyword";
     Rule.trigger_value := [("keywords", VList [VInt 5])];
     Rule.transformation_type := "tone";
     Rule.transformation_intensity := 2;
     Rule.transformation_options := [];
     Rule.platforms := [];
     Rule.channels := [];
     Rule.user_roles := [] |}.

(** The task [auto_transform] hands to the background on success. *)
Definition success_task (context : MessageContext) (transformation : TransformationResult)
  : MetricsTask :=
  {| mt_tenant_id := tenant_id context;
     mt_rule_id := rule_id transformation;
     mt_status := "success" |}.

(** Half a minute after [at_noon]. *)
Definition half_a_minute_later : Instant :=
  {| wall := seconds 1030; time_of_day := noon |}.

(** Counters that can be reached and hold nothing yet. *)
Definition no_counts : Counters := {| counters_up := true; hashes := ∅ |}.

(** A pattern the loop of [_check_patterns] passes over: it finds
    nothing in the message, or it raises [re.error]. *)
Definition passed_over (re_search : string -> string -> result bool)
           (message pattern : string) : Prop :=
  re_search pattern message = Ok false \/
  exists e, re_search pattern message = Raise e /\ exn_cls e = ReError.
(** * Properties *)

(** ** Strings *)

Lemma startswith_spec (p s : string) :
  startswith p s = true <-> exists post, s = p ++ post.
Proof.
  revert s. induction p as [|a p IH]; intros s; simpl.
  - split; [intros _; exists s; reflexivity | reflexivity].
  - destruct s as [|b s].
    + split; [discriminate | intros [post H]; discriminate].
    + rewrite andb_true_iff, Ascii.eqb_eq, IH. split.
      * intros [-> [post ->]]. exists post. reflexivity.
      * intros [post H]. injection H as -> ->. split; [reflexivity | eauto].
Qed.

(** [sub in s] holds exactly when [s] has [sub] as a contiguous part. *)
Lemma str_contains_spec (sub s : string) :
  str_contains sub s = true <-> exists pre post, s = pre ++ sub ++ post.
Proof.
  induction s as [|c s IH].
  - simpl. rewrite orb_false_r, startswith_spec. split.
    + intros [post H]. exists EmptyString, post. exact H.
    + intros [pre [post H]]. destruct pre; simpl in H; [eauto | discriminate].
  - cbn [str_contains]. rewrite orb_true_iff, startswith_spec, IH. split.
    + intros [[post H] | [pre [post H]]].
      * exists EmptyString, post. exact H.
      * exists (String c pre), post. simpl. rewrite H. reflexivity.
    + intros [pre [post H]]. destruct pre as [|c' pre]; simpl in H.
      * left. eauto.
      * right. injection H as _ H. eauto.
Qed.

Lemma lower_char_idem (c : ascii) : lower_char (lower_char c) = lower_char c.
Proof.
  destruct c as [[] [] [] [] [] [] [] []]; reflexivity.
Qed.

Lemma str_lower_idem (s : string) : str_lower (str_lower s) = str_lower s.
Proof.
  induction s as [|c s IH]; simpl; [reflexivity|].
  rewrite lower_char_idem, IH. reflexivity.
Qed.

(** ** The keyword evaluator *)

Lemma ci_occursb_spec (kw message : string) :
  ci_occursb kw message = true <-> ci_occurs kw message.
Proof. apply str_contains_spec. Qed.

Lemma found_in_strs (message_lower : string) (kws : list string) :
  found_in message_lower (map VStr kws)
  = Ok (List.filter (fun kw => str_contains (str_lower kw) message_lower) kws).
Proof.
  induction kws as [|kw kws IH]; simpl; [reflexivity|].
  rewrite IH. simpl. destruct (str_contains _ _); reflexivity.
Qed.

Lemma found_in_length (message_lower : string) (kws : list pyval) (found : list string) :
  found_in message_lower kws = Ok found ->
  (List.length found <= List.length kws)%nat.
Proof.
  revert found. induction kws as [|kw kws IH]; simpl; intros found H.
  - injection H as <-. simpl. lia.
  - destruct (lower_of kw) as [l|e]; simpl in H; [|discriminate].
    destruct (found_in message_lower kws) as [fs|e]; simpl in H; [|discriminate].
    specialize (IH fs eq_refl). injection H as <-.
    destruct (str_contains l message_lower); [destruct kw|]; simpl; lia.
Qed.

Lemma py_min_Qmin (a b : Q) : py_min a b == Qmin a b.
Proof.
  unfold py_min. destruct (Qlt_le_dec b a) as [H|H].
  - symmetry. apply Q.min_r. apply Qlt_le_weak. exact H.
  - symmetry. apply Q.min_l. exact H.
Qed.

Lemma py_div_value (a b : Z) :
  b <> 0%Z -> exists q, py_div a b = Ok q /\ q == inject_Z a / inject_Z b.
Proof.
  intros Hb. unfold py_div. destruct (Z.eqb_spec b 0) as [->|_]; [contradiction|].
  eexists. split; [reflexivity | apply Qred_correct].
Qed.

(** On a list of strings the evaluator returns, and what it returns is
    read off the list of matched keywords. *)
Lemma check_keywords_strs (message : string) (kws : list string) :
  exists r,
    _check_keywords message (VList (map VStr kws)) = Ok r /\
    matches r = negb (Nat.eqb (List.length (matched_keywords message kws)) 0) /\
    (matches r = true ->
     confidence r == Qmin 1 (inject_Z (Z.of_nat (List.length (matched_keywords message kws)))
                             / inject_Z (Z.of_nat (List.length kws))) /\
     reason r = "Contains keywords: " ++ join ", " (matched_keywords message kws)) /\
    (matches r = false -> r = no_match "No keywords found").
Proof.
  unfold _check_keywords. cbn [py_iter rbind].
  rewrite found_in_strs. cbn [rbind]. rewrite length_map.
  change (List.filter _ kws) with (matched_keywords message kws).
  assert (Hle : (List.length (matched_keywords message kws) <= List.length kws)%nat).
  { unfold matched_keywords. apply filter_length_le. }
  destruct (matched_keywords message kws) as [|k found] eqn:Hf.
  - eexists. split; [reflexivity|]. simpl. repeat split; try discriminate.
  - destruct (py_div_value (Z.of_nat (List.length (k :: found)))
                           (Z.of_nat (List.length kws))) as [q [Hq Hv]].
    { simpl in Hle. lia. }
    rewrite Hq. cbn [rbind]. eexists. split; [reflexivity|].
    cbn [matches confidence reason]. repeat split; try discriminate.
    rewrite py_min_Qmin. rewrite Hv. reflexivity.
Qed.

(** C5: on a non-empty list of keywords the keyword evaluator matches
    exactly when some keyword occurs in the message by case-insensitive
    substring search, that is when the count of such keywords is above
    zero; on a match the confidence is the matched count over the total
    capped at 1, so 2 of 4 give 0.5, and the reason lists the matched
    keywords. *)
Theorem check_keywords_confidence (message : string) (kws : list string) :
  kws <> [] ->
  exists r,
    _check_keywords message (VList (map VStr kws)) = Ok r /\
    (forall kw, In kw (matched_keywords message kws) <-> In kw kws /\ ci_occurs kw message) /\
    (matches r = true <-> (0 < List.length (matched_keywords message kws))%nat) /\
    (matches r = true <-> exists kw, In kw kws /\ ci_occurs kw message) /\
    (matches r = true ->
     confidence r == Qmin 1 (inject_Z (Z.of_nat (List.length (matched_keywords message kws)))
                             / inject_Z (Z.of_nat (List.length kws))) /\
     reason r = "Contains keywords: " ++ join ", " (matched_keywords message kws)) /\
    (List.length (matched_keywords message kws) = 2%nat -> List.length kws = 4%nat ->
     matches r = true /\ confidence r == 1 # 2).
Proof.
  intros _.
  destruct (check_keywords_strs message kws) as (r & Hr & Hm & Hc & _).
  assert (Hin : forall kw, In kw (matched_keywords message kws)
                           <-> In kw kws /\ ci_occurs kw message).
  { intros kw. unfold matched_keywords. rewrite filter_In, ci_occursb_spec. reflexivity. }
  assert (Hpos : matches r = true <-> (0 < List.length (matched_keywords message kws))%nat).
  { rewrite Hm. destruct (List.length (matched_keywords message kws)); simpl; split;
      intros; try lia; try discriminate; reflexivity. }
  exists r. split; [exact Hr|]. split; [exact Hin|]. split; [exact Hpos|].
  split; [|split; [exact Hc|]].
  - rewrite Hpos. split.
    + intros Hlen. destruct (matched_keywords message kws) as [|kw l] eqn:E;
        [simpl in Hlen; lia|].
      exists kw. apply Hin. left. reflexivity.
    + intros [kw Hkw]. apply Hin in Hkw.
      destruct (matched_keywords message kws); [destruct Hkw | simpl; lia].
  - intros H2 H4.
    assert (Ht : matches r = true) by (apply Hpos; lia).
    split; [exact Ht|]. destruct (Hc Ht) as [Hconf _].
    rewrite Hconf, H2, H4. reflexivity.
Qed.

Lemma check_keywords_confidence_witness :
  exists r,
    _check_keywords "Fix it NOW, this is unacceptable"
      (VList (map VStr ["unacceptable"; "now"; "please"; "thanks"])) = Ok r /\
    matches r = true /\ confidence r == 1 # 2 /\
    reason r = "Contains keywords: unacceptable, now".
Proof.
  destruct (check_keywords_confidence "Fix it NOW, this is unacceptable"
              ["unacceptable"; "now"; "please"; "thanks"])
    as (r & Hr & _ & _ & _ & Hc & H24).
  - discriminate.
  - exists r. split; [exact Hr|].
    destruct (H24 eq_refl eq_refl) as [Ht Hq].
    split; [exact Ht|]. split; [exact Hq|].
    destruct (Hc Ht) as [_ Hreason]. exact Hreason.
Defined.

(** C10: on an empty keyword list the keyword evaluator returns
    matches=false, confidence 0.0 and the reason "No keywords found";
    the division by the number of keywords happens only after a keyword
    was found, so on no input at all does the evaluator end in a
    division by zero. *)
Theorem check_keywords_empty_list (message : string) :
  _check_keywords message (VList [])
  = Ok {| matches := false; confidence := 0; reason := "No keywords found" |}
  /\ forall keywords : pyval,
      match _check_keywords message keywords with
      | Ok _ => True
      | Raise e => exn_cls e <> ZeroDivisionError
      end.
Proof.
  split; [reflexivity|].
  intros keywords. unfold _check_keywords.
  destruct (py_iter keywords) as [kws|e] eqn:Hiter.
  2:{ destruct keywords; simpl in Hiter; try discriminate;
      injection Hiter as <-; simpl; discriminate. }
  cbn [rbind].
  destruct (found_in (str_lower message) kws) as [found|e] eqn:Hfound.
  2:{ cbn [rbind]. clear Hiter. revert e Hfound.
      induction kws as [|kw kws IH]; simpl; intros e H; [discriminate|].
      destruct (lower_of kw) as [l|e'] eqn:Hl; simpl in H.
      - destruct (found_in (str_lower message) kws) as [fs|e'']; simpl in H;
          [discriminate|]. injection H as <-. apply IH. reflexivity.
      - injection H as <-. destruct kw; simpl in Hl; try discriminate;
          injection Hl as <-; simpl; discriminate. }
  cbn [rbind]. destruct found as [|k found]; [exact I|].
  apply found_in_length in Hfound.
  destruct (py_div_value (Z.of_nat (List.length (k :: found)))
                         (Z.of_nat (List.length kws))) as [q [Hq _]].
  { simpl in Hfound. lia. }
  rewrite Hq. exact I.
Qed.

(** ** The time evaluator *)

Lemma time_ltb_irrefl (t : pytime) : time_ltb t t = false.
Proof.
  unfold time_ltb.
  rewrite !Z.ltb_irrefl, !Z.eqb_refl. reflexivity.
Qed.

Lemma time_leb_refl (t : pytime) : time_leb t t = true.
Proof. unfold time_leb. rewrite time_ltb_irrefl. reflexivity. Qed.

(** On valid times the order of the tuples is the order of the instants. *)
Lemma time_ltb_micros (a b : pytime) :
  valid_time a -> valid_time b ->
  time_ltb a b = (micros a <? micros b)%Z.
Proof.
  unfold valid_time, time_ltb, micros. intros Ha Hb.
  destruct (Z.ltb_spec (hour a) (hour b)); simpl.
  { symmetry. apply Z.ltb_lt. lia. }
  destruct (Z.eqb_spec (hour a) (hour b)); simpl.
  2:{ symmetry. apply Z.ltb_ge. lia. }
  destruct (Z.ltb_spec (minute a) (minute b)); simpl.
  { symmetry. apply Z.ltb_lt. lia. }
  destruct (Z.eqb_spec (minute a) (minute b)); simpl.
  2:{ symmetry. apply Z.ltb_ge. lia. }
  destruct (Z.ltb_spec (second a) (second b)); simpl.
  { symmetry. apply Z.ltb_lt. lia. }
  destruct (Z.eqb_spec (second a) (second b)); simpl.
  2:{ symmetry. apply Z.ltb_ge. lia. }
  destruct (Z.ltb_spec (microsecond a) (microsecond b));
    symmetry; [apply Z.ltb_lt | apply Z.ltb_ge]; lia.
Qed.

Lemma time_leb_micros (a b : pytime) :
  valid_time a -> valid_time b ->
  time_leb a b = (micros a <=? micros b)%Z.
Proof.
  intros Ha Hb. unfold time_leb. rewrite time_ltb_micros by assumption.
  rewrite Z.leb_antisym. reflexivity.
Qed.

(** One bound check of [_check_time], for a bound in either state. *)
Lemma after_check (fromisoformat : string -> result pytime)
      (now : pytime) (v : pyval) (bound : option pytime) :
  time_bound fromisoformat v bound ->
  (if truthy v
   then do after_time <- parse_time fromisoformat v ; py_time_lt now after_time
   else Ok false)
  = Ok (negb match bound with Some a => time_leb a now | None => true end).
Proof.
  intros [v' Hv | s t Hs Hp Hn].
  - rewrite Hv. reflexivity.
  - simpl. destruct (String.eqb_spec s EmptyString); [contradiction|]. simpl.
    rewrite Hp. simpl. unfold py_time_lt. rewrite Hn.
    unfold time_leb. rewrite negb_involutive. reflexivity.
Qed.

Lemma before_check (fromisoformat : string -> result pytime)
      (now : pytime) (v : pyval) (bound : option pytime) :
  time_bound fromisoformat v bound ->
  (if truthy v
   then do before_time <- parse_time fromisoformat v ; py_time_gt now before_time
   else Ok false)
  = Ok (negb match bound with Some b => time_leb now b | None => true end).
Proof.
  intros [v' Hv | s t Hs Hp Hn].
  - rewrite Hv. reflexivity.
  - simpl. destruct (String.eqb_spec s EmptyString); [contradiction|]. simpl.
    rewrite Hp. simpl. unfold py_time_gt. rewrite Hn.
    unfold time_leb. rewrite negb_involutive. reflexivity.
Qed.

(** C7, as the code has it: with bounds that are unset or parse to naive
    times, the time evaluator matches exactly when the current time of
    day lies in the closed window from [after] to [before]; it matches
    at a time equal to either bound, an unset bound never restricts, and
    the confidence of a match is 0.9. *)
Theorem check_time_closed_window
        (fromisoformat : string -> result pytime)
        (now : pytime) (config : pydict) (after before : option pytime) :
  time_bound fromisoformat (dict_get config "after") after ->
  time_bound fromisoformat (dict_get config "before") before ->
  exists r,
    _check_time fromisoformat now config = Ok r /\
    matches r = in_window after before now /\
    (matches r = true -> confidence r == 9 # 10) /\
    (after = None -> before = None -> matches r = true) /\
    (after = Some now -> before = None -> matches r = true) /\
    (after = None -> before = Some now -> matches r = true).
Proof.
  intros Ha Hb.
  assert (Hr : exists r, _check_time fromisoformat now config = Ok r /\
                         matches r = in_window after before now /\
                         (matches r = true -> confidence r == 9 # 10)).
  { unfold _check_time.
    rewrite (after_check fromisoformat now _ after Ha). cbn [rbind].
    unfold in_window.
    destruct (match after with Some a => time_leb a now | None => true end); simpl.
    2:{ eexists. split; [reflexivity|]. split; [reflexivity | discriminate]. }
    rewrite (before_check fromisoformat now _ before Hb). cbn [rbind].
    destruct (match before with Some b => time_leb now b | None => true end); simpl.
    - eexists. split; [reflexivity|]. split; reflexivity.
    - eexists. split; [reflexivity|]. split; [reflexivity | discriminate]. }
  destruct Hr as (r & Hr & Hm & Hc).
  exists r. split; [exact Hr|]. split; [exact Hm|]. split; [exact Hc|].
  rewrite Hm. unfold in_window.
  repeat split; intros -> ->; rewrite ?time_leb_refl; reflexivity.
Qed.

Lemma check_time_closed_window_witness :
  exists r,
    _check_time fromisoformat_hhmm (naive_time 9 0 0)
                [("after", VStr "09:00"); ("before", VStr "17:30")] = Ok r /\
    matches r = true /\ confidence r == 9 # 10.
Proof.
  destruct (check_time_closed_window fromisoformat_hhmm (naive_time 9 0 0)
              [("after", VStr "09:00"); ("before", VStr "17:30")]
              (Some (naive_time 9 0 0)) (Some (naive_time 17 30 0)))
    as (r & Hr & Hm & Hc & _).
  - apply bound_set; [discriminate | reflexivity | reflexivity].
  - apply bound_set; [discriminate | reflexivity | reflexivity].
  - exists r. split; [exact Hr|].
    assert (Ht : matches r = true) by (rewrite Hm; reflexivity).
    split; [exact Ht | exact (Hc Ht)].
Defined.

(** C7, the claim as written fails: at a time of day equal to the
    [before] bound the evaluator matches. *)
Lemma check_time_matches_at_before_bound :
  fromisoformat_hhmm "17:00" = Ok (naive_time 17 0 0) /\
  in_half_open_window None (Some (naive_time 17 0 0)) (naive_time 17 0 0) = false /\
  _check_time fromisoformat_hhmm (naive_time 17 0 0) [("before", VStr "17:00")]
  = Ok {| matches := true; confidence := 9 # 10;
          reason := "Within time window: 17:00" |}.
Proof. repeat split; reflexivity. Qed.

(** ** The stable sort *)

Section StableSortFacts.
Context {A : Type} (ltb : A -> A -> bool).

Lemma insert_desc_perm (m : A) (l : list A) :
  Permutation (m :: l) (insert_desc ltb m l).
Proof.
  induction l as [|x xs IH]; simpl; [reflexivity|].
  destruct (ltb m x); [|reflexivity].
  rewrite perm_swap. constructor. exact IH.
Qed.

Lemma stable_sort_desc_perm (l : list A) :
  Permutation l (stable_sort_desc ltb l).
Proof.
  induction l as [|m rest IH]; simpl; [constructor|].
  rewrite <- insert_desc_perm. constructor. exact IH.
Qed.

(** The order is a strict weak order: nothing is below itself, and
    what is not below [b] while [b] is not below [c] is not below [c]. *)
Hypothesis ltb_irrefl : forall a, ltb a a = false.
Hypothesis geb_trans : forall a b c, ltb a b = false -> ltb b c = false -> ltb a c = false.
Hypothesis ltb_asym : forall a b, ltb a b = true -> ltb b a = false.

Local Abbreviation geb := (fun a b : A => ltb a b = false).

Lemma insert_desc_hd_rel (m x : A) (l : list A) :
  HdRel geb x l -> ltb x m = false -> HdRel geb x (insert_desc ltb m l).
Proof.
  intros Hhd Hxm. destruct l as [|y ys]; simpl.
  - constructor. exact Hxm.
  - destruct (ltb m y); constructor.
    + inversion Hhd; assumption.
    + exact Hxm.
Qed.

Lemma insert_desc_sorted (m : A) (l : list A) :
  Sorted geb l -> Sorted geb (insert_desc ltb m l).
Proof.
  induction l as [|x xs IH]; simpl; intros Hs.
  - repeat constructor.
  - inversion Hs as [|? ? Hxs Hhd]; subst.
    destruct (ltb m x) eqn:E.
    + constructor; [apply IH; exact Hxs|].
      apply insert_desc_hd_rel; [exact Hhd | apply ltb_asym; exact E].
    + constructor; [exact Hs|]. constructor. exact E.
Qed.

Lemma stable_sort_desc_sorted (l : list A) : Sorted geb (stable_sort_desc ltb l).
Proof.
  induction l as [|m rest IH]; simpl; [constructor|].
  apply insert_desc_sorted. exact IH.
Qed.

Lemma geb_transitive : Relations_1.Transitive geb.
Proof. intros a b c. apply geb_trans. Qed.

(** The head of the sorted list is not below any entry. *)
Lemma stable_sort_desc_head (l : list A) (best : A) (tl : list A) :
  stable_sort_desc ltb l = best :: tl ->
  In best l /\ forall m, In m l -> ltb best m = false.
Proof.
  intros Hs.
  pose proof (stable_sort_desc_perm l) as Hp. rewrite Hs in Hp.
  pose proof (stable_sort_desc_sorted l) as Hsorted. rewrite Hs in Hsorted.
  apply (Sorted_StronglySorted geb_transitive) in Hsorted.
  inversion Hsorted as [|? ? _ Hall]; subst.
  split.
  - apply (Permutation_in best (Permutation_sym Hp)). left. reflexivity.
  - intros m Hm. apply (Permutation_in m Hp) in Hm. destruct Hm as [<- | Hm].
    + apply ltb_irrefl.
    + rewrite List.Forall_forall in Hall. apply Hall. exact Hm.
Qed.

(** Stability at the head: an entry the head does not beat strictly
    does not come before the head in the input. *)
Lemma stable_sort_desc_first (l : list A) (best : A) (tl : list A) :
  stable_sort_desc ltb l = best :: tl ->
  exists pre post, l = (pre ++ best :: post)%list /\
                   forall m, In m pre -> ltb m best = true.
Proof.
  revert best tl. induction l as [|m rest IH]; simpl; intros best tl Hs.
  - discriminate.
  - destruct (stable_sort_desc ltb rest) as [|b tl'] eqn:E; simpl in Hs.
    + injection Hs as <- <-. exists [], rest. split; [reflexivity|].
      intros x [].
    + destruct (ltb m b) eqn:Hmb.
      * injection Hs as <- <-.
        destruct (IH b tl' eq_refl) as (pre & post & -> & Hpre).
        exists (m :: pre), post. split; [reflexivity|].
        intros x [<- | Hx]; [exact Hmb | apply Hpre; exact Hx].
      * injection Hs as <- <-. exists [], rest. split; [reflexivity|].
        intros x [].
Qed.

End StableSortFacts.

(** ** The resolver *)

Lemma Qltb_false_iff (a b : Q) : Qltb a b = false <-> (b <= a)%Q.
Proof.
  unfold Qltb. rewrite negb_false_iff. apply Qle_bool_iff.
Qed.

Lemma match_ltb_false_iff (a b : Match) :
  match_ltb a b = false <-> ranks_above a b.
Proof.
  unfold match_ltb, key_ltb, ranks_above, sort_key. simpl.
  destruct (Z.eqb_spec (Rule.priority (m_rule a)) (Rule.priority (m_rule b))) as [E|E].
  - rewrite Qltb_false_iff. split; [intros H; right; split; assumption|].
    intros [H | [_ H]]; [lia | exact H].
  - rewrite Z.ltb_ge. split; [intros H; left; lia|].
    intros [H | [H _]]; [lia | contradiction].
Qed.

Lemma ranks_above_refl (a : Match) : ranks_above a a.
Proof. right. split; [reflexivity | apply Qle_refl]. Qed.

Lemma ranks_above_trans (a b c : Match) :
  ranks_above a b -> ranks_above b c -> ranks_above a c.
Proof.
  unfold ranks_above. intros [H1 | [E1 Q1]] [H2 | [E2 Q2]].
  - left. lia.
  - left. lia.
  - left. lia.
  - right. split; [congruence | eapply Qle_trans; eassumption].
Qed.

Lemma ranks_above_total (a b : Match) : ranks_above a b \/ ranks_above b a.
Proof.
  unfold ranks_above.
  destruct (Z.lt_trichotomy (Rule.priority (m_rule a)) (Rule.priority (m_rule b)))
    as [H | [H | H]]; [right; left; exact H | | left; left; exact H].
  destruct (Qlt_le_dec (m_confidence a) (m_confidence b)) as [Hq | Hq].
  - right. right. split; [symmetry; exact H | apply Qlt_le_weak; exact Hq].
  - left. right. split; [exact H | exact Hq].
Qed.

Lemma match_ltb_irrefl (a : Match) : match_ltb a a = false.
Proof. apply match_ltb_false_iff, ranks_above_refl. Qed.

Lemma match_geb_trans (a b c : Match) :
  match_ltb a b = false -> match_ltb b c = false -> match_ltb a c = false.
Proof.
  rewrite !match_ltb_false_iff. apply ranks_above_trans.
Qed.

Lemma match_ltb_asym (a b : Match) : match_ltb a b = true -> match_ltb b a = false.
Proof.
  intros H. apply match_ltb_false_iff.
  destruct (ranks_above_total a b) as [Hab | Hba]; [|exact Hba].
  apply match_ltb_false_iff in Hab. congruence.
Qed.

(** The sorted list is the ranking: a rearrangement of the matches in
    which every entry ranks above its successor. *)
Lemma sort_desc_ranking (ms : list Match) :
  Permutation ms (sort_desc ms) /\ Sorted ranks_above (sort_desc ms).
Proof.
  split; [apply stable_sort_desc_perm|].
  pose proof (stable_sort_desc_sorted match_ltb match_ltb_asym ms) as Hs.
  unfold sort_desc. induction Hs as [|x l _ IH Hhd]; constructor; [exact IH|].
  destruct Hhd; constructor. apply match_ltb_false_iff. assumption.
Qed.

Section ResolverFacts.

Variable polarity_of : string -> result Q.
Variable re_search : string -> string -> result bool.
Variable fromisoformat : string -> result pytime.
Variable fmt_2f : Q -> string.
Variable py_str : pyval -> string.
Variable py : interpreter.

Local Abbreviation collect :=
  (collect_matches polarity_of re_search fromisoformat fmt_2f py_str py).
Local Abbreviation trigger :=
  (eval_trigger polarity_of re_search fromisoformat fmt_2f py_str py).

(** The entries of [matches] are the eligible rules whose trigger
    matched, each with the confidence and reason of its evaluation. *)
Lemma collect_matches_In (now : pytime) (context : MessageContext)
      (rules : list Rule.t) (n : nat) (ms : list Match) :
  collect now context rules = (n, Ok ms) ->
  forall m, In m ms <->
    exists rule r,
      In rule rules /\ eligible context rule = true /\
      trigger now context (Rule.trigger_type rule) (Rule.trigger_value rule) = Ok r /\
      matches r = true /\
      m = {| m_rule := rule; m_confidence := confidence r; m_reason := reason r |}.
Proof.
  revert n ms. induction rules as [|rule rest IH]; intros n ms Hc m.
  - simpl in Hc. injection Hc as <- <-. split; [intros [] | intros (? & ? & [] & _)].
  - simpl in Hc. unfold eligible.
    assert (Hskip : eligible context rule = false ->
                    collect now context rest = (n, Ok ms) ->
                    In m ms <->
                    exists rule0 r,
                      In rule0 (rule :: rest) /\ eligible context rule0 = true /\
                      trigger now context (Rule.trigger_type rule0)
                              (Rule.trigger_value rule0) = Ok r /\
                      matches r = true /\
                      m = {| m_rule := rule0; m_confidence := confidence r;
                             m_reason := reason r |}).
    { intros Hadm Hrest. rewrite (IH n ms Hrest m). split.
      - intros (r0 & r & Hin & H). exists r0, r. split; [right; exact Hin | exact H].
      - intros (r0 & r & [<- | Hin] & Ha & H); [congruence|].
        exists r0, r. split; [exact Hin | split; [exact Ha | exact H]]. }
    fold (eligible context).
    destruct (Rule.enabled rule) eqn:He; simpl in Hc;
      [|apply Hskip; [unfold eligible; rewrite He; reflexivity | exact Hc]].
    destruct (platform_excluded context rule) eqn:Hp;
      [apply Hskip; [unfold eligible; rewrite He, Hp; reflexivity | exact Hc]|].
    destruct (channel_excluded context rule) eqn:Hch;
      [apply Hskip; [unfold eligible; rewrite He, Hp, Hch; reflexivity | exact Hc]|].
    assert (Hadm : eligible context rule = true)
      by (unfold eligible; rewrite He, Hp, Hch; reflexivity).
    destruct (eval_trigger _ _ _ _ _ _ now context _ _) as [mr|e] eqn:Ht;
      [|discriminate].
    destruct (collect now context rest) as [n' [ms'|e]] eqn:Hrest;
      simpl in Hc; [|discriminate].
    specialize (IH n' ms' eq_refl m).
    injection Hc as <- <-.
    destruct (matches mr) eqn:Hm.
    + split.
      * intros [<- | Hin].
        -- exists rule, mr. repeat split; auto. left. reflexivity.
        -- apply IH in Hin. destruct Hin as (r0 & r & Hin & H).
           exists r0, r. split; [right; exact Hin | exact H].
      * intros (r0 & r & [<- | Hin] & Ha & Hr & Hmr & ->).
        -- left. rewrite Ht in Hr. injection Hr as <-. reflexivity.
        -- right. apply IH. exists r0, r. repeat split; auto.
    + rewrite IH. split.
      * intros (r0 & r & Hin & H). exists r0, r. split; [right; exact Hin | exact H].
      * intros (r0 & r & [<- | Hin] & Ha & Hr & Hmr & ->).
        -- rewrite Ht in Hr. injection Hr as <-. congruence.
        -- exists r0, r. repeat split; auto.
Qed.

(** C1: when the matches are not empty (in particular when two or
    more rules match), the resolver ranks them by priority descending
    and then confidence descending and answers with the first entry of
    that ranking: no match has a strictly higher priority than the
    selected one, and none of equal priority has a higher confidence.
    The answer carries the id, the name and the transformation of the
    selected rule with the confidence and the reason of its match.  Of
    two matching rules the one of higher priority is selected whatever
    the confidences, and at equal priority the one of higher
    confidence. *)
Theorem evaluate_rules_selects_top_ranked
        (now : pytime) (context : MessageContext) (rules : list Rule.t)
        (n : nat) (ms : list Match) :
  collect now context rules = (n, Ok ms) ->
  ms <> [] ->
  exists best tl,
    sort_desc ms = best :: tl /\
    Permutation ms (best :: tl) /\
    Sorted ranks_above (best :: tl) /\
    evaluate_rules polarity_of re_search fromisoformat fmt_2f py_str py now context rules
    = (n, Ok (Some {| should_transform := true;
                      rule_id := Some (Rule.id (m_rule best));
                      res_rule_name := Some (Rule.rule_name (m_rule best));
                      res_transformation_type := Rule.transformation_type (m_rule best);
                      res_transformation_intensity :=
                        Rule.transformation_intensity (m_rule best);
                      res_transformation_options :=
                        Rule.transformation_options (m_rule best);
                      res_confidence := m_confidence best;
                      res_reason := Some (m_reason best) |})) /\
    In best ms /\
    (forall m, In m ms -> ranks_above best m) /\
    (forall m, In m ms ->
       (Rule.priority (m_rule m) <= Rule.priority (m_rule best))%Z /\
       (Rule.priority (m_rule m) = Rule.priority (m_rule best) ->
        (m_confidence m <= m_confidence best)%Q)) /\
    (forall a b, Permutation ms [a; b] ->
       (Rule.priority (m_rule b) < Rule.priority (m_rule a))%Z -> best = a) /\
    (forall a b, Permutation ms [a; b] ->
       Rule.priority (m_rule a) = Rule.priority (m_rule b) ->
       (m_confidence b < m_confidence a)%Q -> best = a).
Proof.
  intros Hc Hne.
  destruct (sort_desc ms) as [|best tl] eqn:Hs.
  { destruct (sort_desc_ranking ms) as [Hp _]. rewrite Hs in Hp.
    apply Permutation_sym, Permutation_nil in Hp. contradiction. }
  destruct (sort_desc_ranking ms) as [Hp Hsorted]. rewrite Hs in Hp, Hsorted.
  destruct (stable_sort_desc_head match_ltb match_ltb_irrefl match_geb_trans
              match_ltb_asym ms best tl Hs) as [Hin Hmax].
  assert (Hrank : forall m, In m ms -> ranks_above best m).
  { intros m Hm. apply match_ltb_false_iff, Hmax, Hm. }
  assert (Htwo : forall a b, Permutation ms [a; b] ->
                             ~ ranks_above b a -> best = a).
  { intros a b Hab Hnot.
    pose proof (Permutation_in best Hab Hin) as [<- | [<- | []]]; [reflexivity|].
    exfalso. apply Hnot, Hrank.
    apply (Permutation_in a (Permutation_sym Hab)). left. reflexivity. }
  exists best, tl. repeat split; try assumption.
  - unfold evaluate_rules. rewrite Hc. cbn [rbind]. rewrite Hs. reflexivity.
  - destruct (Hrank m H) as [Hlt | [Heq _]]; lia.
  - intros Heq. destruct (Hrank m H) as [Hlt | [_ Hq]]; [lia | exact Hq].
  - intros a b Hab Hlt. apply (Htwo a b Hab).
    intros [H | [H _]]; lia.
  - intros a b Hab Heq Hlt. apply (Htwo a b Hab).
    intros [H | [_ H]]; [lia|].
    apply (Qlt_not_le _ _ Hlt). exact H.
Qed.

End ResolverFacts.

Lemma evaluate_rules_selects_top_ranked_witness :
  exists answer,
    evaluate_rules neutral_polarity no_regex fromisoformat_hhmm fmt_blank str_blank plain_python
      noon sample_context
      [keyword_rule "polite" 5 ["unacceptable"; "now"];
       keyword_rule "urgent" 10 ["unacceptable"; "later"]]
    = (2%nat, Ok (Some answer)) /\
    should_transform answer = true /\
    rule_id answer = Some "urgent" /\
    res_rule_name answer = Some "urgent" /\
    res_confidence answer == 1 # 2 /\
    res_reason answer = Some "Contains keywords: unacceptable".
Proof.
  destruct (evaluate_rules_selects_top_ranked
              neutral_polarity no_regex fromisoformat_hhmm fmt_blank str_blank plain_python
              noon sample_context
              [keyword_rule "polite" 5 ["unacceptable"; "now"];
               keyword_rule "urgent" 10 ["unacceptable"; "later"]]
              2%nat
              [ {| m_rule := keyword_rule "polite" 5 ["unacceptable"; "now"];
                   m_confidence := 1;
                   m_reason := "Contains keywords: unacceptable, now" |};
                {| m_rule := keyword_rule "urgent" 10 ["unacceptable"; "later"];
                   m_confidence := 1 # 2;
                   m_reason := "Contains keywords: unacceptable" |} ])
    as (best & tl & _ & _ & _ & He & _ & _ & _ & Hprio & _).
  - vm_compute. reflexivity.
  - discriminate.
  - eexists. split; [exact He|].
    rewrite (Hprio _ _ (perm_swap _ _ [])); [repeat split; reflexivity | simpl; lia].
Defined.

(** ** The cache *)

Lemma config_key_inj (a b : string) : config_key a = config_key b -> a = b.
Proof. unfold config_key. simpl. intros H. injection H as H. exact H. Qed.


Lemma redis_get_cached_at (r : Redis) (now : Z) (key : string) :
  available r = true -> redis_get r now key = Ok (cached_at r now key).
Proof. intros H. unfold redis_get. rewrite H. reflexivity. Qed.

Lemma redis_get_down (r : Redis) (now : Z) (key : string) :
  available r = false -> redis_get r now key = Raise unreachable.
Proof. intros H. unfold redis_get. rewrite H. reflexivity. Qed.

(** ** Evaluation of a message *)


Section HandlerFacts.

Variable polarity_of : string -> result Q.
Variable re_search : string -> string -> result bool.
Variable fromisoformat : string -> result pytime.
Variable fmt_2f : Q -> string.
Variable py_str : pyval -> string.
Variable py : interpreter.
Variable sql : store_api.

Local Abbreviation resolve :=
  (evaluate_rules polarity_of re_search fromisoformat fmt_2f py_str py).
Local Abbreviation evaluate :=
  (evaluate_message polarity_of re_search fromisoformat fmt_2f py_str py sql).




End HandlerFacts.


(** C9, as the code has it: the handler has no fallback for the cache.
    When the cache cannot be reached, the first cache read raises, the
    persistent store is not consulted, and the evaluation ends in an
    HTTP 500 that carries the cache error; the state is left as it was. *)
Theorem evaluate_message_cache_unreachable
        (polarity_of : string -> result Q)
        (re_search : string -> string -> result bool)
        (fromisoformat : string -> result pytime)
        (fmt_2f : Q -> string) (py_str : pyval -> string)
        (py : interpreter) (sql : store_api)
        (now : Instant) (context : MessageContext) (s : State) :
  available (redis s) = false ->
  evaluate_message polarity_of re_search fromisoformat fmt_2f py_str py sql now context s
  = (HTTPException 500 (str_of_exn unreachable), s).
Proof.
  intros Hdown.
  unfold evaluate_message, evaluate_body, load_config, mbind, cache_get.
  rewrite (redis_get_down _ _ _ Hdown). reflexivity.
Qed.

Lemma evaluate_message_cache_unreachable_witness :
  evaluate_message neutral_polarity no_regex fromisoformat_hhmm fmt_blank str_blank
    plain_python constant_where at_noon sample_context
    (sample_state false (sample_config true 10)
                  [keyword_rule "polite" 5 ["unacceptable"; "now"]] [])
  = (HTTPException 500 "Error connecting to redis",
     sample_state false (sample_config true 10)
                  [keyword_rule "polite" 5 ["unacceptable"; "now"]] []).
Proof.
  apply (evaluate_message_cache_unreachable
           neutral_polarity no_regex fromisoformat_hhmm fmt_blank str_blank
           plain_python constant_where at_noon sample_context
           (sample_state false (sample_config true 10)
                         [keyword_rule "polite" 5 ["unacceptable"; "now"]] [])).
  reflexivity.
Defined.

(** C9, the claim as written fails: a tenant whose configuration and
    rules the cache holds gets a positive decision while the cache can
    be reached; in the same state with the cache out of reach the caller
    gets an HTTP 500 that carries the error of the cache, and no
    decision. *)
Lemma evaluate_message_no_cache_fallback :
  fst (evaluate_message neutral_polarity no_regex fromisoformat_hhmm fmt_blank str_blank
         plain_python constant_where at_noon sample_context
         (hot_state (sample_config true 10)
                    [keyword_rule "polite" 5 ["unacceptable"; "now"]] (seconds 4600)))
  = Return (Proceed {| should_transform := true;
                       rule_id := Some "polite";
                       res_rule_name := Some "polite";
                       res_transformation_type := "tone";
                       res_transformation_intensity := 2;
                       res_transformation_options := [];
                       res_confidence := 1;
                       res_reason := Some "Contains keywords: unacceptable, now" |})
  /\ fst (evaluate_message neutral_polarity no_regex fromisoformat_hhmm fmt_blank str_blank
            plain_python constant_where at_noon sample_context
            (cache_down
               (hot_state (sample_config true 10)
                          [keyword_rule "polite" 5 ["unacceptable"; "now"]]
                          (seconds 4600))))
     = HTTPException 500 "Error connecting to redis".
Proof. split; vm_compute; reflexivity. Qed.

(** ** Configuration updates *)

(** The statements of [update_config] before the deletion of the cache
    entry: they end in an exception with nothing written, or they leave
    the tenant's row, if the store then has one, with the fields of the
    body, and touch neither the other tenants nor the cache. *)
Lemma write_config_spec (sql : store_api) (tenant : string)
      (config : AutoTransformConfig) (s : State) :
  (exists e, write_config sql tenant config s = (Raise e, s)) \/
  (exists d,
      write_config sql tenant config s = (Ok tt, set_db s d) /\
      (forall row, configs d !! tenant = Some row ->
                   row = config_row (Config.id row) tenant config) /\
      (first_config_id sql (String.eqb "tenant_id" tenant) (db s) = Ok None ->
       exists row, configs d !! tenant = Some row) /\
      (forall t, t <> tenant -> configs d !! t = configs (db s) !! t)).
Proof.
  unfold write_config, mbind, query.
  destruct (first_config_id sql _ (db s)) as [[existing|]|e];
    [| |left; eexists; reflexivity].
  - right. unfold update_config_row. eexists. split; [reflexivity|].
    cbn [configs].
    destruct (configs (db s) !! tenant) as [old|] eqn:Hold.
    + split; [|split].
      * intros row. rewrite lookup_insert_eq. intros H. injection H as <-. reflexivity.
      * discriminate.
      * intros t Ht. apply lookup_insert_ne. congruence.
    + split; [|split].
      * intros row. rewrite Hold. discriminate.
      * discriminate.
      * reflexivity.
  - unfold insert_config_row.
    destruct (configs (db s) !! tenant) as [old|] eqn:Hold;
      [left; eexists; reflexivity|].
    right. eexists. split; [reflexivity|]. cbn [configs].
    split; [|split].
    + intros row. rewrite lookup_insert_eq. intros H. injection H as <-. reflexivity.
    + intros _. eexists. apply lookup_insert_eq.
    + intros t Ht. apply lookup_insert_ne. congruence.
Qed.

(** C8, as the code has it: when an update of a tenant's configuration
    returns, the tenant's cache entry has been deleted after the write,
    whatever was left of its 300 seconds, and the entries of the other
    keys are as they were; the row the store then holds for the tenant
    carries the fields of the body.  So the next read of that tenant's
    configuration finds nothing cached and is answered by the store,
    never by the value cached before the update. *)
Theorem update_config_invalidates_cache
        (sql : store_api) (tenant : string) (config : AutoTransformConfig)
        (s s' : State) (body : string) :
  update_config sql tenant config s = (Return body, s') ->
  body = "Configuration updated" /\
  store (redis s') !! config_key tenant = None /\
  (forall key, key <> config_key tenant ->
               store (redis s') !! key = store (redis s) !! key) /\
  (forall row, configs (db s') !! tenant = Some row ->
     row = {| Config.id := Config.id row;
              Config.tenant_id := tenant;
              Config.enabled := atc_enabled config;
              Config.default_transformation_type := atc_default_transformation_type config;
              Config.default_intensity := atc_default_intensity config;
              Config.min_message_length := atc_min_message_length config;
              Config.max_processing_delay_ms := atc_max_processing_delay_ms config;
              Config.require_confirmation := atc_require_confirmation config;
              Config.show_preview := atc_show_preview config;
              Config.preserve_original := atc_preserve_original config |}) /\
  (first_config_id sql (String.eqb "tenant_id" tenant) (db s) = Ok None ->
   exists row, configs (db s') !! tenant = Some row) /\
  (forall now context, tenant_id context = tenant ->
     cached_at (redis s') (wall now) (config_key tenant) = None /\
     config_in_effect sql now context s'
     = match first_config sql (String.eqb "tenant_id" tenant) (db s') with
       | Ok (Some row) => Ok (if Config.enabled row then Some row else None)
       | Ok None => Ok None
       | Raise e => Raise e
       end /\
     exists s'', load_config sql now context s'
                 = (config_in_effect sql now context s', s'')).
Proof.
  unfold update_config, mbind at 1.
  destruct (write_config_spec sql tenant config s) as [[e Hw] | (d & Hw & Hrow & Hnew & _)];
    rewrite Hw; [discriminate|].
  unfold mbind, cache_delete, redis_delete. cbn [redis set_db].
  destruct (available (redis s)) eqn:Hup; [|discriminate].
  simpl. intros H. injection H as <- <-.
  split; [reflexivity|]. cbn [redis db set_redis set_db store].
  split; [apply lookup_delete_eq|].
  split; [intros key Hk; apply lookup_delete_ne; congruence|].
  split; [exact Hrow|]. split; [exact Hnew|].
  intros now context <-.
  assert (Hmiss : cached_at
                    {| available := true;
                       store := delete (config_key (tenant_id context)) (store (redis s)) |}
                    (wall now) (config_key (tenant_id context)) = None).
  { unfold cached_at. cbn [store]. rewrite lookup_delete_eq. reflexivity. }
  split; [exact Hmiss|]. split.
  - unfold config_in_effect, set_redis, set_db. cbn [redis db]. rewrite Hmiss.
    reflexivity.
  - unfold load_config, config_in_effect, mbind at 1, cache_get, redis_get,
      set_redis, set_db.
    cbn [redis db available]. fold (cached_at
                    {| available := true;
                       store := delete (config_key (tenant_id context)) (store (redis s)) |}
                    (wall now) (config_key (tenant_id context))).
    rewrite Hmiss. unfold mbind, query. cbn [db].
    destruct (first_config sql _ d) as [[row|]|e]; [|eexists; reflexivity ..].
    destruct (Config.enabled row); simpl; [|eexists; reflexivity].
    unfold cache_setex, redis_setex. simpl. eexists. reflexivity.
Qed.

(** The configuration of T1 is cached, enabled, for another hour; the
    update disables the tenant and returns, and nothing is cached for
    T1 any more. *)
Lemma update_config_invalidates_cache_witness :
  cached_at (redis (hot_state (sample_config true 10) [] (seconds 4600)))
            (wall at_noon) (config_key "T1")
  = Some (CachedConfig (sample_config true 10)) /\
  fst (update_config constant_where "T1" (sample_update false 10)
         (hot_state (sample_config true 10) [] (seconds 4600)))
  = Return "Configuration updated" /\
  cached_at (redis (snd (update_config constant_where "T1" (sample_update false 10)
                           (hot_state (sample_config true 10) [] (seconds 4600)))))
            (wall at_noon) (config_key "T1")
  = None /\
  config_in_effect constant_where at_noon sample_context
    (snd (update_config constant_where "T1" (sample_update false 10)
            (hot_state (sample_config true 10) [] (seconds 4600))))
  = Ok None.
Proof.
  split; [reflexivity|]. split; [reflexivity|].
  destruct (update_config_invalidates_cache constant_where "T1" (sample_update false 10)
              (hot_state (sample_config true 10) [] (seconds 4600))
              (snd (update_config constant_where "T1" (sample_update false 10)
                      (hot_state (sample_config true 10) [] (seconds 4600))))
              "Configuration updated" eq_refl)
    as (_ & _ & _ & _ & _ & Hnext).
  destruct (Hnext at_noon sample_context eq_refl) as (Hmiss & Heff & _).
  split; [exact Hmiss|]. rewrite Heff. reflexivity.
Defined.

(** C8, the claim as written fails: the deletion comes after the commit
    and has no handler of its own.  With the cache out of reach the
    update writes the row, here one that disables T1, and then answers
    HTTP 500 with the entry of T1 still in the cache; once the cache
    can be reached again the next read of the configuration is served
    the value cached before the update, which is enabled. *)
Lemma update_config_stale_after_failed_delete :
  fst (update_config constant_where "T1" (sample_update false 10)
         (cache_down (hot_state (sample_config true 10) [] (seconds 4600))))
  = HTTPException 500 "Error connecting to redis"
  /\ configs (db (snd (update_config constant_where "T1" (sample_update false 10)
                         (cache_down (hot_state (sample_config true 10) []
                                                (seconds 4600)))))) !! "T1"
     = Some {| Config.id := 1;
               Config.tenant_id := "T1";
               Config.enabled := false;
               Config.default_transformation_type := "soften";
               Config.default_intensity := 2;
               Config.min_message_length := 10;
               Config.max_processing_delay_ms := 500;
               Config.require_confirmation := true;
               Config.show_preview := true;
               Config.preserve_original := true |}
  /\ fst (load_config constant_where at_noon sample_context
            (cache_up (snd (update_config constant_where "T1" (sample_update false 10)
                              (cache_down (hot_state (sample_config true 10) []
                                                     (seconds 4600)))))))
     = Ok (Some {| Config.id := 1;
                   Config.tenant_id := "T1";
                   Config.enabled := true;
                   Config.default_transformation_type := "soften";
                   Config.default_intensity := 2;
                   Config.min_message_length := 10;
                   Config.max_processing_delay_ms := 500;
                   Config.require_confirmation := true;
                   Config.show_preview := true;
                   Config.preserve_original := true |}).
Proof. repeat split; vm_compute; reflexivity. Qed.

(** ** The transform handler *)

Lemma call_transform_failure (llm_service : LLMRequest -> Upstream)
      (context : MessageContext) (transformation : TransformationResult)
      (e : exn) :
  upstream_failure (llm_service (request_of context transformation)) e ->
  call_transform llm_service context transformation = Raise e.
Proof.
  unfold call_transform. fold (request_of context transformation).
  intros H. inversion H as [e' Heq | st json Hst Heq | st e' Hst Heq | st body Hst Hs Heq];
    subst; simpl.
  - reflexivity.
  - unfold raise_for_status.
    destruct (Z.leb_spec 200 st); destruct (Z.ltb_spec st 300); simpl;
      try reflexivity. lia.
  - unfold raise_for_status.
    destruct (Z.leb_spec 200 st); destruct (Z.ltb_spec st 300); simpl;
      try reflexivity; lia.
  - unfold raise_for_status.
    destruct (Z.leb_spec 200 st); destruct (Z.ltb_spec st 300); simpl; try lia.
    rewrite Hs. reflexivity.
Qed.

(** C3: when the call of the transform service fails (the client raises
    on a timeout or a transport error, the status is not 2xx, or the
    response carries no success), the handler sets every correlated log
    row (same tenant and user, status triggered, triggered within the
    last 60 seconds) to failed with the error text, leaves every other
    row as it is, and ends in an HTTP 500 with that text; it does not
    return a success. *)
Theorem auto_transform_upstream_failure
        (llm_service : LLMRequest -> Upstream)
        (now : Instant) (context : MessageContext)
        (transformation : TransformationResult) (s : State) (e : exn) :
  upstream_failure (llm_service (request_of context transformation)) e ->
  exists s',
    auto_transform llm_service now context transformation s
    = (HTTPException 500 (str_of_exn e), s') /\
    logs (db s')
    = logs_marked (wall now) context (mark_failed (wall now) (str_of_exn e))
                  (logs (db s)) /\
    (forall row, In row (logs (db s)) -> correlated (wall now) context row = true ->
       exists row', In row' (logs (db s')) /\
                    row' = mark_failed (wall now) (str_of_exn e) row /\
                    Log.status row' = Failed /\
                    Log.error_message row' = Some (str_of_exn e)) /\
    (forall row, In row (logs (db s)) -> correlated (wall now) context row = false ->
       In row (logs (db s'))) /\
    configs (db s') = configs (db s) /\
    rules (db s') = rules (db s) /\
    redis s' = redis s /\
    background s' = background s.
Proof.
  intros Hfail. unfold auto_transform.
  rewrite (call_transform_failure _ _ _ _ Hfail).
  eexists. split; [reflexivity|]. simpl.
  split; [reflexivity|].
  split; [|split; [|repeat split]].
  - intros row Hin Hc. eexists. split; [|repeat split].
    apply in_map_iff. exists row. rewrite Hc. split; [reflexivity | exact Hin].
  - intros row Hin Hc. apply in_map_iff. exists row. rewrite Hc.
    split; [reflexivity | exact Hin].
Qed.

Lemma auto_transform_upstream_failure_witness :
  exists s',
    auto_transform llm_timeout at_noon sample_context sample_decision
      (sample_state true (sample_config true 10) [] [sample_log Triggered (seconds 990)])
    = (HTTPException 500 "timed out", s') /\
    logs (db s')
    = [mark_failed (seconds 1000) "timed out" (sample_log Triggered (seconds 990))].
Proof.
  destruct (auto_transform_upstream_failure llm_timeout at_noon sample_context
              sample_decision
              (sample_state true (sample_config true 10) []
                            [sample_log Triggered (seconds 990)])
              (Exn TransportError "timed out"))
    as (s' & Ha & Hl & _).
  - apply failure_client.
  - exists s'. split; [exact Ha | exact Hl].
Defined.

(** A server error of the transform service ends the same way. *)
Example auto_transform_server_error :
  fst (auto_transform llm_server_error at_noon sample_context sample_decision
         (sample_state true (sample_config true 10) []
                       [sample_log Triggered (seconds 990)]))
  = HTTPException 500 "error response from the transform service".
Proof. reflexivity. Qed.

(** C4, as the code has it: on success the update has no ordering and no
    limit; every log row that is correlated (same tenant and user,
    status triggered, triggered within the last 60 seconds) is set to
    transformed with the output text, and every row that is not
    correlated is left unchanged. *)
Theorem auto_transform_success_marks_all_correlated
        (llm_service : LLMRequest -> Upstream)
        (now : Instant) (context : MessageContext)
        (transformation : TransformationResult) (s : State)
        (transformed_text : pyval) :
  call_transform llm_service context transformation = Ok transformed_text ->
  exists s',
    auto_transform llm_service now context transformation s
    = (Return {| success := true;
                 original := message context;
                 transformed := transformed_text;
                 rule_applied := res_rule_name transformation;
                 tr_confidence := res_confidence transformation |}, s') /\
    logs (db s')
    = logs_marked (wall now) context (mark_transformed (wall now) transformed_text)
                  (logs (db s)) /\
    (forall row, In row (logs (db s)) -> correlated (wall now) context row = true ->
       exists row', In row' (logs (db s')) /\
                    row' = mark_transformed (wall now) transformed_text row /\
                    Log.status row' = Transformed /\
                    Log.transformed_message row' = Some transformed_text) /\
    (forall row, In row (logs (db s)) -> correlated (wall now) context row = false ->
       In row (logs (db s'))) /\
    List.length (logs (db s')) = List.length (logs (db s)).
Proof.
  intros Hok. unfold auto_transform. rewrite Hok.
  eexists. split; [reflexivity|]. simpl.
  split; [reflexivity|].
  split; [|split].
  - intros row Hin Hc. eexists. split; [|repeat split].
    apply in_map_iff. exists row. rewrite Hc. split; [reflexivity | exact Hin].
  - intros row Hin Hc. apply in_map_iff. exists row. rewrite Hc.
    split; [reflexivity | exact Hin].
  - apply length_map.
Qed.

Lemma auto_transform_success_marks_all_correlated_witness :
  exists s',
    fst (auto_transform llm_ok at_noon sample_context sample_decision
           (sample_state true (sample_config true 10) []
                         [sample_log Triggered (seconds 900);
                          sample_log Triggered (seconds 990)]))
    = Return {| success := true;
                original := message sample_context;
                transformed := VStr "Could you please fix it soon?";
                rule_applied := Some "polite";
                tr_confidence := 1 |} /\
    snd (auto_transform llm_ok at_noon sample_context sample_decision
           (sample_state true (sample_config true 10) []
                         [sample_log Triggered (seconds 900);
                          sample_log Triggered (seconds 990)])) = s' /\
    logs (db s')
    = [sample_log Triggered (seconds 900);
       mark_transformed (seconds 1000) (VStr "Could you please fix it soon?")
                        (sample_log Triggered (seconds 990))].
Proof.
  destruct (auto_transform_success_marks_all_correlated llm_ok at_noon sample_context
              sample_decision
              (sample_state true (sample_config true 10) []
                            [sample_log Triggered (seconds 900);
                             sample_log Triggered (seconds 990)])
              (VStr "Could you please fix it soon?"))
    as (s' & Ha & Hl & _).
  - reflexivity.
  - exists s'. rewrite Ha. split; [reflexivity|]. split; [reflexivity | exact Hl].
Defined.

(** C4, the claim as written fails: with two triggered rows of the same
    tenant and user inside the window, a successful transform sets both
    to transformed, the older one as well as the most recent. *)
Lemma auto_transform_updates_older_row_too :
  logs (db (snd (auto_transform llm_ok at_noon sample_context sample_decision
                   (sample_state true (sample_config true 10) []
                                 [sample_log Triggered (seconds 980);
                                  sample_log Triggered (seconds 990)]))))
  = [mark_transformed (seconds 1000) (VStr "Could you please fix it soon?")
                      (sample_log Triggered (seconds 980));
     mark_transformed (seconds 1000) (VStr "Could you please fix it soon?")
                      (sample_log Triggered (seconds 990))]
  /\ Log.status (mark_transformed (seconds 1000) (VStr "Could you please fix it soon?")
                                  (sample_log Triggered (seconds 980)))
     = Transformed
  /\ sample_log Triggered (seconds 980)
     <> mark_transformed (seconds 1000) (VStr "Could you please fix it soon?")
                         (sample_log Triggered (seconds 980)).
Proof. repeat split; try reflexivity. discriminate. Qed.

(** ** Evaluators that raise *)

(** A bound of a time rule that [fromisoformat] rejects ends the
    evaluator with that exception. *)
Lemma check_time_unparsable_after (fromisoformat : string -> result pytime)
      (now : pytime) (config : pydict) (s : string) (e : exn) :
  dict_get config "after" = VStr s -> s <> EmptyString -> fromisoformat s = Raise e ->
  _check_time fromisoformat now config = Raise e.
Proof.
  intros Hget Hs Hp. unfold _check_time. rewrite Hget. simpl.
  destruct (String.eqb_spec s EmptyString); [contradiction|]. simpl.
  rewrite Hp. reflexivity.
Qed.

(** An exception of the evaluator of one rule ends the loop of the
    resolver: the rules after it are not evaluated. *)
Lemma collect_matches_aborts
      (polarity_of : string -> result Q)
      (re_search : string -> string -> result bool)
      (fromisoformat : string -> result pytime)
      (fmt_2f : Q -> string) (py_str : pyval -> string) (py : interpreter)
      (now : pytime) (context : MessageContext)
      (rule : Rule.t) (rest : list Rule.t) (e : exn) :
  eligible context rule = true ->
  eval_trigger polarity_of re_search fromisoformat fmt_2f py_str py now context
               (Rule.trigger_type rule) (Rule.trigger_value rule) = Raise e ->
  evaluate_rules polarity_of re_search fromisoformat fmt_2f py_str py now context
                 (rule :: rest) = (1%nat, Raise e).
Proof.
  unfold eligible. intros Hel Ht.
  apply andb_prop in Hel as [Hel Hch]. apply andb_prop in Hel as [Hen Hpl].
  apply negb_true_iff in Hch, Hpl.
  unfold evaluate_rules. simpl. rewrite Hen, Hpl, Hch. simpl.
  rewrite Ht. reflexivity.
Qed.

(** C6, where the code departs from it: the time evaluator and the
    keyword evaluator have no handler of their own.  A time rule whose
    bound does not parse raises [ValueError], a keyword list with a
    number in it raises [AttributeError]; the exception leaves
    [_evaluate_trigger], ends the resolver before the next rule (which
    would match) is evaluated, and the evaluation of a tenant whose
    cached rule list holds such a rule answers HTTP 500. *)
Theorem evaluate_trigger_raises_on_malformed_value :
  _evaluate_trigger neutral_polarity no_regex fromisoformat_hhmm fmt_blank str_blank plain_python
    noon sample_context "time" [("after", VStr "soon")]
  = Raise (Exn ValueError "Invalid isoformat string")
  /\ _evaluate_trigger neutral_polarity no_regex fromisoformat_hhmm fmt_blank str_blank plain_python
       noon sample_context "keyword" [("keywords", VList [VStr "now"; VInt 5])]
     = Raise (Exn AttributeError "object has no attribute 'lower'")
  /\ evaluate_rules neutral_polarity no_regex fromisoformat_hhmm fmt_blank str_blank plain_python
       noon sample_context
       [bad_time_rule; keyword_rule "polite" 5 ["unacceptable"; "now"]]
     = (1%nat, Raise (Exn ValueError "Invalid isoformat string"))
  /\ evaluate_rules neutral_polarity no_regex fromisoformat_hhmm fmt_blank str_blank plain_python
       noon sample_context
       [keyword_rule "polite" 5 ["unacceptable"; "now"]]
     = (1%nat, Ok (Some sample_decision))
  /\ fst (evaluate_message neutral_polarity no_regex fromisoformat_hhmm fmt_blank str_blank plain_python constant_where
            at_noon sample_context
            (hot_state (sample_config true 10)
               [bad_time_rule; keyword_rule "polite" 5 ["unacceptable"; "now"]]
               (seconds 4600)))
     = HTTPException 500 "Invalid isoformat string".
Proof. repeat split; vm_compute; reflexivity. Qed.


(** * Further properties of the evaluators *)

Lemma eq_str_spec (v : pyval) (s : string) : eq_str v s = true <-> v = VStr s.
Proof.
  destruct v; simpl; try (split; [discriminate | intros H; discriminate H]).
  rewrite String.eqb_eq. split; [intros -> | intros H; injection H as ->]; reflexivity.
Qed.

Lemma py_min_bounds (q : Q) : (0 <= q)%Q -> (0 <= py_min 1 q)%Q /\ (py_min 1 q <= 1)%Q.
Proof.
  intros Hq. unfold py_min. destruct (Qlt_le_dec q 1) as [H|H].
  - split; [exact Hq | apply Qlt_le_weak; exact H].
  - split; [discriminate | apply Qle_refl].
Qed.

Lemma half_abs_nonneg (x : Q) : (0 <= Qabs x / 2)%Q.
Proof.
  apply Qle_shift_div_l; [reflexivity|].
  rewrite Qmult_0_l. apply Qabs_nonneg.
Qed.

(** ** The sentiment evaluator *)

(** With the analyser answering [p] and a numeric threshold that a
    comparison reads as [t], the body of the [try] decides by the
    operator.  The difference it works with is the float [d] that
    [py_sub] gives; when that subtraction raises, a test that had
    succeeded ends in the exception. *)
Lemma sentiment_try_spec
      (polarity_of : string -> result Q) (fmt_2f : Q -> string)
      (py_str : pyval -> string) (py : interpreter)
      (message : string) (config : pydict) (p t : Q) :
  polarity_of message = Ok p ->
  as_number (dict_get_default config "threshold" (VInt 0)) = Ok t ->
  let operator := dict_get_default config "operator" (VStr "less_than") in
  match py_sub py p (dict_get_default config "threshold" (VInt 0)) with
  | Ok d =>
      (exists r, sentiment_try polarity_of fmt_2f py_str py message config = Ok (Some r) /\
                 matches r = true /\ confidence r = py_min 1 (Qabs d / 2) /\
                 ((operator = VStr "less_than" /\ p < t)
                  \/ (operator = VStr "greater_than" /\ t < p)
                  \/ (operator = VStr "equals" /\ Qabs d < float_tenth))%Q)
      \/ (sentiment_try polarity_of fmt_2f py_str py message config = Ok None /\
          ~ ((operator = VStr "less_than" /\ p < t)
             \/ (operator = VStr "greater_than" /\ t < p)
             \/ (operator = VStr "equals" /\ Qabs d < float_tenth))%Q)
  | Raise e =>
      sentiment_try polarity_of fmt_2f py_str py message config = Ok None
      \/ sentiment_try polarity_of fmt_2f py_str py message config = Raise e
  end.
Proof.
  intros Hp Ht operator. unfold sentiment_try. rewrite Hp. cbn [rbind].
  fold operator.
  destruct (py_sub py p (dict_get_default config "threshold" (VInt 0))) as [d|e].
  - destruct (eq_str operator "less_than") eqn:E1.
    { apply eq_str_spec in E1. rewrite Ht. cbn [rbind].
      destruct (Qlt_le_dec p t) as [H|H]; cbn [rbind].
      - left. eexists. split; [reflexivity|].
        repeat split. left. split; assumption.
      - right. split; [reflexivity|].
        intros [[_ H'] | [[H' _] | [H' _]]];
          [exact (Qlt_not_le _ _ H' H) | rewrite E1 in H'; discriminate H'
           | rewrite E1 in H'; discriminate H']. }
    destruct (eq_str operator "greater_than") eqn:E2.
    { apply eq_str_spec in E2. rewrite Ht. cbn [rbind].
      destruct (Qlt_le_dec t p) as [H|H]; cbn [rbind].
      - left. eexists. split; [reflexivity|].
        repeat split. right. left. split; assumption.
      - right. split; [reflexivity|].
        intros [[H' _] | [[_ H'] | [H' _]]];
          [rewrite E2 in H'; discriminate H' | exact (Qlt_not_le _ _ H' H)
           | rewrite E2 in H'; discriminate H']. }
    destruct (eq_str operator "equals") eqn:E3.
    { apply eq_str_spec in E3. cbn [rbind].
      destruct (Qlt_le_dec (Qabs d) float_tenth) as [H|H]; cbn [rbind].
      - left. eexists. split; [reflexivity|].
        repeat split. right. right. split; assumption.
      - right. split; [reflexivity|].
        intros [[H' _] | [[H' _] | [_ H']]];
          [rewrite E3 in H'; discriminate H' | rewrite E3 in H'; discriminate H'
           | exact (Qlt_not_le _ _ H' H)]. }
    right. cbn [rbind]. split; [reflexivity|].
    intros [[H' _] | [[H' _] | [H' _]]]; apply eq_str_spec in H'; congruence.
  - destruct (eq_str operator "less_than").
    { rewrite Ht. cbn [rbind].
      destruct (Qlt_le_dec p t); cbn [rbind]; [right | left]; reflexivity. }
    destruct (eq_str operator "greater_than").
    { rewrite Ht. cbn [rbind].
      destruct (Qlt_le_dec t p); cbn [rbind]; [right | left]; reflexivity. }
    destruct (eq_str operator "equals"); cbn [rbind]; [right | left]; reflexivity.
Qed.

(** With the analyser answering [p] and a numeric threshold, the
    comparisons of [less_than] (the default) and [greater_than] are
    those of the exact values, [equals] asks the float the subtraction
    gives to be less than the float 0.1 in absolute value, and any other
    operator never matches.  The confidence of a match is half the
    absolute value of that float, capped at 1.  When the subtraction
    raises (an int threshold beyond the range of a float), the
    evaluator does not match, whatever the comparison said. *)
Theorem check_sentiment_operators
        (polarity_of : string -> result Q) (fmt_2f : Q -> string)
        (py_str : pyval -> string) (py : interpreter)
        (message : string) (config : pydict) (p t : Q) :
  polarity_of message = Ok p ->
  as_number (dict_get_default config "threshold" (VInt 0)) = Ok t ->
  exists r,
    _check_sentiment polarity_of fmt_2f py_str py message config = Ok r /\
    match py_sub py p (dict_get_default config "threshold" (VInt 0)) with
    | Ok d =>
        (matches r = true <->
         (dict_get_default config "operator" (VStr "less_than") = VStr "less_than"
          /\ p < t)
         \/ (dict_get_default config "operator" (VStr "less_than") = VStr "greater_than"
             /\ t < p)
         \/ (dict_get_default config "operator" (VStr "less_than") = VStr "equals"
             /\ Qabs d < float_tenth))%Q /\
        (matches r = true ->
         confidence r == Qmin 1 (Qabs d / 2) /\ 0 <= confidence r <= 1)%Q
    | Raise _ => matches r = false
    end /\
    (matches r = false -> r = no_match "Sentiment check failed").
Proof.
  intros Hp Ht.
  pose proof (sentiment_try_spec polarity_of fmt_2f py_str py message config p t Hp Ht)
    as Hspec. cbv zeta in Hspec.
  unfold _check_sentiment.
  destruct (py_sub py p (dict_get_default config "threshold" (VInt 0))) as [d|e].
  - destruct Hspec as [(r & Htry & Hm & Hc & Hop) | (Htry & Hnot)]; rewrite Htry.
    + exists r. split; [reflexivity|]. split; [split|].
      * split; [intros _; exact Hop | intros _; exact Hm].
      * intros _. rewrite Hc. split; [apply py_min_Qmin|].
        apply py_min_bounds, half_abs_nonneg.
      * rewrite Hm. discriminate.
    + eexists. split; [reflexivity|]. simpl. split; [split|].
      * split; [discriminate | intros H; contradiction].
      * discriminate.
      * reflexivity.
  - destruct Hspec as [Htry | Htry]; rewrite Htry;
      eexists; (split; [reflexivity|]); split; reflexivity.
Qed.

Lemma check_sentiment_operators_witness :
  exists r,
    _check_sentiment gloomy_polarity fmt_blank str_blank plain_python "whatever, do it"
      [("threshold", VInt 0); ("operator", VStr "less_than")] = Ok r /\
    matches r = true /\ confidence r == 1 # 5.
Proof.
  destruct (check_sentiment_operators gloomy_polarity fmt_blank str_blank plain_python
              "whatever, do it"
              [("threshold", VInt 0); ("operator", VStr "less_than")]
              (-2 # 5) 0 eq_refl eq_refl)
    as (r & Hr & Hd & _).
  change (py_sub plain_python (-2 # 5)
            (dict_get_default [("threshold", VInt 0); ("operator", VStr "less_than")]
                              "threshold" (VInt 0)))
    with (@Ok Q (-2 # 5)) in Hd.
  destruct Hd as [Hm Hc].
  assert (Ht : matches r = true).
  { apply Hm. left. split; reflexivity. }
  exists r. split; [exact Hr|]. split; [exact Ht|].
  destruct (Hc Ht) as [Hq _]. rewrite Hq. reflexivity.
Defined.

(** The sentiment evaluator never raises: an analyser that fails, a
    threshold that is not a number, any error inside its [try], ends in
    the plain non-match "Sentiment check failed". *)
Theorem check_sentiment_never_raises
        (polarity_of : string -> result Q) (fmt_2f : Q -> string)
        (py_str : pyval -> string) (py : interpreter) (message : string) (config : pydict) :
  exists r,
    _check_sentiment polarity_of fmt_2f py_str py message config = Ok r /\
    (matches r = true \/ r = no_match "Sentiment check failed") /\
    match polarity_of message with
    | Raise _ => r = no_match "Sentiment check failed"
    | Ok _ => True
    end.
Proof.
  unfold _check_sentiment.
  destruct (sentiment_try polarity_of fmt_2f py_str py message config)
    as [[r|]|e] eqn:Htry.
  - exists r. split; [reflexivity|].
    assert (Hm : matches r = true).
    { revert Htry. unfold sentiment_try.
      destruct (polarity_of message) as [p|e]; cbn [rbind]; [|discriminate].
      match goal with
      | |- rbind ?c _ = _ -> _ => destruct c as [[|]|e]; cbn [rbind]; try discriminate
      end.
      destruct (py_sub _ _ _) as [d|e]; cbn [rbind]; [|discriminate].
      intros H. injection H as <-. reflexivity. }
    split; [left; exact Hm|].
    destruct (polarity_of message) as [p|e] eqn:Hp; [exact I|].
    unfold sentiment_try in Htry. rewrite Hp in Htry. discriminate Htry.
  - eexists. split; [reflexivity|]. split; [right; reflexivity|].
    destruct (polarity_of message); [exact I | reflexivity].
  - eexists. split; [reflexivity|]. split; [right; reflexivity|].
    destruct (polarity_of message); [exact I | reflexivity].
Qed.

(** ** The pattern evaluator *)

Lemma patterns_loop_passed_over (re_search : string -> string -> result bool)
      (message : string) (pre rest : list string) :
  Forall (passed_over re_search message) pre ->
  patterns_loop re_search message (map VStr (pre ++ rest))
  = patterns_loop re_search message (map VStr rest).
Proof.
  induction 1 as [|p pre Hp _ IH]; [reflexivity|].
  cbn [app map patterns_loop].
  destruct Hp as [Hp | (e & Hp & Hcls)]; rewrite Hp; [exact IH|].
  rewrite Hcls. exact IH.
Qed.

(** On a list of pattern strings the pattern evaluator is decided by
    the first pattern that is not passed over, a pattern being passed
    over when it finds nothing in the message or raises [re.error].
    When every pattern is passed over the result is the non-match; when
    the first other pattern finds something the result is a match that
    names it; when the first other pattern raises an exception that is
    not [re.error], the evaluator ends in that exception, whatever the
    patterns after it would find. *)
Theorem check_patterns_first_match
        (re_search : string -> string -> result bool)
        (message : string) (ps : list string) :
  (Forall (passed_over re_search message) ps ->
   _check_patterns re_search message (VList (map VStr ps))
   = Ok {| matches := false; confidence := 0; reason := "No pattern match" |}) /\
  (forall pre p post,
      ps = (pre ++ p :: post)%list ->
      Forall (passed_over re_search message) pre ->
      re_search p message = Ok true ->
      _check_patterns re_search message (VList (map VStr ps))
      = Ok {| matches := true; confidence := 9 # 10;
              reason := "Pattern match: " ++ p |}) /\
  (forall pre p post e,
      ps = (pre ++ p :: post)%list ->
      Forall (passed_over re_search message) pre ->
      re_search p message = Raise e ->
      exn_cls e <> ReError ->
      _check_patterns re_search message (VList (map VStr ps)) = Raise e).
Proof.
  unfold _check_patterns. cbn [py_iter rbind]. split; [|split].
  - intros Hall. rewrite <- (app_nil_r ps).
    rewrite (patterns_loop_passed_over re_search message ps [] Hall). reflexivity.
  - intros pre p post -> Hpre Hp.
    rewrite (patterns_loop_passed_over re_search message pre (p :: post) Hpre).
    cbn [map patterns_loop]. rewrite Hp. reflexivity.
  - intros pre p post e -> Hpre Hp Hcls.
    rewrite (patterns_loop_passed_over re_search message pre (p :: post) Hpre).
    cbn [map patterns_loop]. rewrite Hp.
    destruct (exn_cls e); try reflexivity. contradiction.
Qed.

(** A pattern that is a [re.error] is passed over and the next one
    matches; a pattern that overflows the compiler ends the evaluator,
    although the pattern after it would match. *)
Lemma check_patterns_first_match_witness :
  _check_patterns literal_regex "Fix it NOW" (VList (map VStr ["[oops"; "now"; "fix"]))
  = Ok {| matches := true; confidence := 9 # 10; reason := "Pattern match: now" |}
  /\ _check_patterns literal_regex "Fix it NOW" (VList (map VStr ["{99999999999}"; "now"]))
     = Raise (Exn OverflowError "the repetition number is too large").
Proof.
  split.
  - apply (proj1 (proj2 (check_patterns_first_match literal_regex "Fix it NOW"
                           ["[oops"; "now"; "fix"]))
             ["[oops"] "now" ["fix"]); [reflexivity | | reflexivity].
    constructor; [|constructor]. right. eexists. split; reflexivity.
  - apply (proj2 (proj2 (check_patterns_first_match literal_regex "Fix it NOW"
                           ["{99999999999}"; "now"]))
             [] "{99999999999}" ["now"]); [reflexivity | constructor | reflexivity|].
    discriminate.
Defined.

(** ** The recipient evaluator *)

Lemma existsb_eq_str (l : list string) (s : string) :
  existsb (fun t => eq_str t s) (map VStr l) = true <-> In s l.
Proof.
  rewrite existsb_exists. split.
  - intros (v & Hv & He). apply in_map_iff in Hv as (x & <- & Hx).
    simpl in He. apply String.eqb_eq in He. subst. exact Hx.
  - intros H. exists (VStr s). split; [apply in_map; exact H|].
    simpl. apply String.eqb_refl.
Qed.

Lemma py_set_strs (l : list string) : py_set (VList (map VStr l)) = Ok (map VStr l).
Proof.
  unfold py_set. cbn [py_iter rbind].
  replace (forallb hashable (map VStr l)) with true; [reflexivity|].
  symmetry. apply forallb_forall. intros v Hv.
  apply in_map_iff in Hv as (x & <- & _). reflexivity.
Qed.

Lemma all_strs_strs (l : list string) : all_strs (map VStr l) = Ok l.
Proof.
  induction l as [|x l IH]; simpl; [reflexivity|]. rewrite IH. reflexivity.
Qed.

Lemma truthy_strs (l : list string) :
  truthy (VList (map VStr l)) = match l with [] => false | _ => true end.
Proof. destruct l; reflexivity. Qed.

(** With [ids] and [roles] lists of strings, the recipient evaluator
    matches exactly when a recipient is among the ids or the list of
    roles is not empty: the roles are not looked up, so a rule with
    roles matches whoever the recipients are, with confidence 0.8; a
    match by id has confidence 0.9. *)
Theorem check_recipients_ids_or_roles
        (py : interpreter)
        (recipients : list string) (config : pydict) (ids roles : list string) :
  dict_get_default config "ids" (VList []) = VList (map VStr ids) ->
  dict_get_default config "roles" (VList []) = VList (map VStr roles) ->
  exists r,
    _check_recipients py recipients config = Ok r /\
    (matches r = true <-> (exists x, In x recipients /\ In x ids) \/ roles <> []) /\
    ((exists x, In x recipients /\ In x ids) -> confidence r == 9 # 10) /\
    (~ (exists x, In x recipients /\ In x ids) -> roles <> [] ->
     r = {| matches := true; confidence := 8 # 10;
            reason := "Recipient role match: " ++ join ", " roles |}) /\
    (~ (exists x, In x recipients /\ In x ids) -> roles = [] ->
     r = no_match "No recipient match").
Proof.
  intros Hids Hroles. unfold _check_recipients. rewrite Hids, Hroles.
  set (matching := List.filter (fun r => existsb (fun t => eq_str t r) (map VStr ids))
                               (nodup string_dec recipients)).
  assert (Hmatching : forall x, In x matching <-> In x recipients /\ In x ids).
  { intros x. unfold matching. rewrite filter_In, nodup_In, existsb_eq_str.
    reflexivity. }
  assert (Hby : (if truthy (VList (map VStr ids))
                 then do targets <- py_set (VList (map VStr ids)) ;
                      match List.filter
                              (fun r => existsb (fun t => eq_str t r) targets)
                              (nodup string_dec recipients) with
                      | _ :: _ =>
                          Ok (Some {| matches := true; confidence := 9 # 10;
                                      reason := "Recipient match: " ++
                                                join ", "
                                                  (set_iter py
                                                     (List.filter
                                                        (fun r =>
                                                           existsb (fun t => eq_str t r)
                                                                   targets)
                                                        (nodup string_dec recipients))) |})
                      | [] => Ok None
                      end
                 else Ok None)
                = Ok match matching with
                     | _ :: _ => Some {| matches := true; confidence := 9 # 10;
                                         reason := "Recipient match: " ++
                                                   join ", " (set_iter py matching) |}
                     | [] => None
                     end).
  { rewrite truthy_strs. destruct ids as [|i ids'].
    - assert (matching = []) as ->; [|reflexivity].
      destruct matching as [|x l] eqn:E; [reflexivity|].
      destruct (proj1 (Hmatching x) (or_introl eq_refl)) as [_ []].
    - rewrite py_set_strs. cbn [rbind]. fold matching.
      destruct matching; reflexivity. }
  rewrite Hby. cbn [rbind].
  destruct matching as [|x l] eqn:E.
  - assert (Hnone : ~ (exists x, In x recipients /\ In x ids)).
    { intros (x & Hx). apply Hmatching in Hx. exact Hx. }
    rewrite truthy_strs. destruct roles as [|ro roles'].
    + eexists. split; [reflexivity|]. simpl. split; [|split; [|split]].
      * split; [discriminate | intros [H | H]; [contradiction | congruence]].
      * intros H. contradiction.
      * intros _ H. congruence.
      * reflexivity.
    + unfold py_join. cbn [py_iter rbind]. rewrite all_strs_strs. cbn [rbind].
      eexists. split; [reflexivity|]. simpl. split; [|split; [|split]].
      * split; [intros _; right; discriminate | reflexivity].
      * intros H. contradiction.
      * reflexivity.
      * intros _ H. discriminate H.
  - assert (Hsome : exists x, In x recipients /\ In x ids).
    { exists x. apply Hmatching. left. reflexivity. }
    eexists. split; [reflexivity|]. simpl. split; [|split; [|split]].
    + split; [intros _; left; exact Hsome | reflexivity].
    + reflexivity.
    + intros H. contradiction.
    + intros H. contradiction.
Qed.

Lemma check_recipients_ids_or_roles_witness :
  _check_recipients plain_python [] [("roles", VList (map VStr ["manager"; "executive"]))]
  = Ok {| matches := true; confidence := 8 # 10;
          reason := "Recipient role match: manager, executive" |}.
Proof.
  destruct (check_recipients_ids_or_roles plain_python []
              [("roles", VList (map VStr ["manager"; "executive"]))]
              [] ["manager"; "executive"] eq_refl eq_refl)
    as (r & Hr & _ & _ & Hrole & _).
  rewrite Hr. f_equal. apply Hrole.
  - intros (x & [] & _).
  - discriminate.
Defined.

(** ** The channel evaluator *)

(** Without a channel the channel evaluator never matches, whatever the
    configuration.  With a channel and [ids] a list of strings it
    matches exactly when the channel is one of the ids (confidence 1.0)
    or, failing that, the configured type is "support" and the lowered
    channel id contains "support" (confidence 0.8); no other channel
    type ever matches. *)
Theorem check_channel_ids_or_support
        (channel : option string) (config : pydict) (ids : list string) :
  dict_get_default config "ids" (VList []) = VList (map VStr ids) ->
  exists r,
    _check_channel channel config = Ok r /\
    (matches r = true <->
     exists cid, channel = Some cid /\ cid <> EmptyString /\
                 (In cid ids
                  \/ (dict_get config "type" = VStr "support"
                      /\ str_contains "support" (str_lower cid) = true))) /\
    (forall cid, channel = Some cid -> cid <> EmptyString -> In cid ids ->
       r = {| matches := true; confidence := 1; reason := "Channel match: " ++ cid |}) /\
    (forall cid, channel = Some cid -> ~ In cid ids -> matches r = true ->
       confidence r == 8 # 10) /\
    ((channel = None \/ channel = Some EmptyString) ->
     r = no_match "No channel specified").
Proof.
  intros Hids. unfold _check_channel.
  destruct channel as [cid|].
  2:{ eexists. split; [reflexivity|]. split; [|split; [|split]].
      - split; [discriminate | intros (c & H & _); discriminate H].
      - intros c H. discriminate H.
      - intros c H. discriminate H.
      - reflexivity. }
  destruct (String.eqb_spec cid EmptyString) as [-> | Hne].
  { eexists. split; [reflexivity|]. split; [|split; [|split]].
    - split; [discriminate | intros (c & H & Hc & _); injection H as <-; congruence].
    - intros c H Hc. injection H as <-. congruence.
    - intros c _ _ H. discriminate H.
    - reflexivity. }
  rewrite Hids, truthy_strs.
  assert (Hlisted : (if match ids with [] => false | _ => true end
                     then py_contains cid (VList (map VStr ids)) else Ok false)
                    = Ok (existsb (fun x => eq_str x cid) (map VStr ids))).
  { destruct ids; reflexivity. }
  rewrite Hlisted. cbn [rbind].
  destruct (existsb (fun x => eq_str x cid) (map VStr ids)) eqn:Hex.
  - apply existsb_eq_str in Hex.
    eexists. split; [reflexivity|]. simpl. split; [|split; [|split]].
    + split; [|reflexivity]. intros _. exists cid. repeat split; auto.
    + intros c H _ _. injection H as <-. reflexivity.
    + intros c H Hn. injection H as <-. contradiction.
    + intros [H | H]; [discriminate H | injection H as H; congruence].
  - assert (Hnin : ~ In cid ids).
    { intros H. apply existsb_eq_str in H. congruence. }
    destruct (truthy (dict_get config "type") && eq_str (dict_get config "type") "support"
              && str_contains "support" (str_lower cid)) eqn:Hty.
    + apply andb_prop in Hty as [Hty Hsup]. apply andb_prop in Hty as [_ Hty].
      apply eq_str_spec in Hty.
      eexists. split; [reflexivity|]. simpl. split; [|split; [|split]].
      * split; [|reflexivity]. intros _. exists cid. repeat split; auto.
      * intros c H _ Hin. injection H as <-. contradiction.
      * reflexivity.
      * intros [H | H]; [discriminate H | injection H as H; congruence].
    + eexists. split; [reflexivity|]. simpl. split; [|split; [|split]].
      * split; [discriminate|].
        intros (c & H & _ & [Hin | [Htype Hsup]]); injection H as <-;
          [contradiction|].
        rewrite Htype, Hsup in Hty. discriminate Hty.
      * intros c H _ Hin. injection H as <-. contradiction.
      * discriminate.
      * intros [H | H]; [discriminate H | injection H as H; congruence].
Qed.

Lemma check_channel_ids_or_support_witness :
  exists r,
    _check_channel (Some "Customer-SUPPORT-7")
                   [("type", VStr "support"); ("ids", VList (map VStr ["C1"; "C2"]))]
    = Ok r /\ matches r = true /\ confidence r == 8 # 10.
Proof.
  destruct (check_channel_ids_or_support (Some "Customer-SUPPORT-7")
              [("type", VStr "support"); ("ids", VList (map VStr ["C1"; "C2"]))]
              ["C1"; "C2"] eq_refl)
    as (r & Hr & Hm & _ & Hc & _).
  assert (Ht : matches r = true).
  { apply Hm. exists "Customer-SUPPORT-7". split; [reflexivity|].
    split; [discriminate|]. right. split; reflexivity. }
  exists r. split; [exact Hr|]. split; [exact Ht|].
  apply (Hc "Customer-SUPPORT-7" eq_refl); [|exact Ht].
  intros [H | [H | []]]; discriminate H.
Defined.

(** ** Confidence of every result *)

Lemma well_scored_no_match (why : string) : well_scored (no_match why).
Proof. left. split; reflexivity. Qed.

Lemma well_scored_const (q : Q) (why : string) :
  (0 <= q)%Q -> (q <= 1)%Q ->
  well_scored {| matches := true; confidence := q; reason := why |}.
Proof. intros H0 H1. right. repeat split; assumption. Qed.

Ltac close_scored H :=
  injection H as <-;
  first [ apply well_scored_no_match
        | apply well_scored_const; discriminate ].

Lemma check_keywords_scored (message : string) (keywords : pyval) (r : TriggerMatch) :
  _check_keywords message keywords = Ok r -> well_scored r.
Proof.
  unfold _check_keywords. intros H.
  destruct (py_iter keywords) as [kws|e]; cbn [rbind] in H; [|discriminate].
  destruct (found_in (str_lower message) kws) as [found|e] eqn:Hf;
    cbn [rbind] in H; [|discriminate].
  destruct found as [|k found]; [close_scored H|].
  apply found_in_length in Hf.
  destruct (py_div_value (Z.of_nat (List.length (k :: found)))
                         (Z.of_nat (List.length kws))) as [q [Hq Hv]].
  { simpl in Hf. lia. }
  rewrite Hq in H. cbn [rbind] in H. injection H as <-.
  right. split; [reflexivity|]. cbn [confidence].
  apply py_min_bounds. rewrite Hv.
  apply Qle_shift_div_l.
  - change 0%Q with (inject_Z 0). rewrite <- Zlt_Qlt. simpl in Hf. lia.
  - rewrite Qmult_0_l. change 0%Q with (inject_Z 0). rewrite <- Zle_Qle. lia.
Qed.

Lemma check_sentiment_scored
      (polarity_of : string -> result Q) (fmt_2f : Q -> string)
      (py_str : pyval -> string) (py : interpreter) (message : string) (config : pydict)
      (r : TriggerMatch) :
  _check_sentiment polarity_of fmt_2f py_str py message config = Ok r -> well_scored r.
Proof.
  unfold _check_sentiment. intros H.
  destruct (sentiment_try polarity_of fmt_2f py_str py message config)
    as [[r'|]|e] eqn:Htry; try (close_scored H).
  injection H as <-. revert Htry. unfold sentiment_try.
  destruct (polarity_of message) as [p|e]; cbn [rbind]; [|discriminate].
  match goal with
  | |- rbind ?c _ = _ -> _ => destruct c as [[|]|e]; cbn [rbind]; try discriminate
  end.
  destruct (py_sub _ _ _) as [d|e]; cbn [rbind]; [|discriminate].
  intros H. injection H as <-. right. split; [reflexivity|].
  exact (py_min_bounds _ (half_abs_nonneg d)).
Qed.

Lemma check_recipients_scored (py : interpreter)
      (recipients : list string) (config : pydict) (r : TriggerMatch) :
  _check_recipients py recipients config = Ok r -> well_scored r.
Proof.
  unfold _check_recipients.
  assert (Hroles : forall r',
             (if truthy (dict_get_default config "roles" (VList []))
              then do roles <- py_join ", " (dict_get_default config "roles" (VList [])) ;
                   Ok {| matches := true; confidence := 8 # 10;
                         reason := "Recipient role match: " ++ roles |}
              else Ok (no_match "No recipient match")) = Ok r' ->
             well_scored r').
  { intros r'. destruct (truthy _); [|intros Hr; close_scored Hr].
    destruct (py_join _ _) as [roles|e]; cbn [rbind]; [|discriminate].
    intros Hr. close_scored Hr. }
  destruct (truthy (dict_get_default config "ids" (VList []))).
  - destruct (py_set _) as [targets|e]; cbn [rbind]; [|discriminate].
    destruct (List.filter _ _) as [|x l]; cbn [rbind];
      [apply Hroles | intros H; close_scored H].
  - cbn [rbind]. apply Hroles.
Qed.

Lemma check_channel_scored (channel : option string) (config : pydict)
      (r : TriggerMatch) :
  _check_channel channel config = Ok r -> well_scored r.
Proof.
  unfold _check_channel.
  destruct channel as [cid|]; [|intros H; close_scored H].
  destruct (String.eqb cid EmptyString); [intros H; close_scored H|].
  assert (Hrest : forall listed : bool,
             (if listed
              then Ok {| matches := true; confidence := 1;
                         reason := "Channel match: " ++ cid |}
              else if truthy (dict_get config "type")
                      && eq_str (dict_get config "type") "support"
                      && str_contains "support" (str_lower cid)
                   then Ok {| matches := true; confidence := 8 # 10;
                              reason := "Channel type match: " ++ "support" |}
                   else Ok (no_match "No channel match")) = Ok r ->
             well_scored r).
  { intros [|]; [intros Hr; close_scored Hr|].
    destruct (_ && _); intros Hr; close_scored Hr. }
  destruct (truthy (dict_get_default config "ids" (VList []))).
  - destruct (py_contains _ _) as [listed|e]; cbn [rbind]; [|discriminate].
    apply (Hrest listed).
  - cbn [rbind]. apply (Hrest false).
Qed.

Lemma check_time_scored (fromisoformat : string -> result pytime)
      (now : pytime) (config : pydict) (r : TriggerMatch) :
  _check_time fromisoformat now config = Ok r -> well_scored r.
Proof.
  unfold _check_time.
  match goal with
  | |- rbind ?c _ = _ -> _ => destruct c as [[|]|e]; cbn [rbind]; try discriminate
  end; [intros H; close_scored H|].
  match goal with
  | |- rbind ?c _ = _ -> _ => destruct c as [[|]|e]; cbn [rbind]; try discriminate
  end; intros H; close_scored H.
Qed.

Lemma patterns_loop_scored (re_search : string -> string -> result bool)
      (message : string) (ps : list pyval) (r : TriggerMatch) :
  patterns_loop re_search message ps = Ok r -> well_scored r.
Proof.
  induction ps as [|p ps IH]; simpl; intros H; [close_scored H|].
  destruct p; try discriminate H.
  destruct (re_search s message) as [[|]|e]; [close_scored H | auto |].
  destruct (exn_cls e); try discriminate H; auto.
Qed.

(** Whatever the trigger type and the trigger value, a result that an
    evaluator returns is well scored: confidence 0 on a non-match, and a
    confidence between 0 and 1 on a match. *)
Theorem evaluate_trigger_confidence_bounds
        (polarity_of : string -> result Q)
        (re_search : string -> string -> result bool)
        (fromisoformat : string -> result pytime)
        (fmt_2f : Q -> string) (py_str : pyval -> string) (py : interpreter)
        (now : pytime) (context : MessageContext)
        (trigger_type : string) (trigger_value : pydict) (r : TriggerMatch) :
  _evaluate_trigger polarity_of re_search fromisoformat fmt_2f py_str py
                    now context trigger_type trigger_value = Ok r ->
  (0 <= confidence r)%Q /\ (confidence r <= 1)%Q /\
  (matches r = false -> confidence r = 0%Q).
Proof.
  intros H.
  assert (Hs : well_scored r).
  { revert H. unfold _evaluate_trigger.
    destruct (String.eqb trigger_type "keyword"); [apply check_keywords_scored|].
    destruct (String.eqb trigger_type "sentiment"); [apply check_sentiment_scored|].
    destruct (String.eqb trigger_type "recipient"); [apply check_recipients_scored|].
    destruct (String.eqb trigger_type "channel"); [apply check_channel_scored|].
    destruct (String.eqb trigger_type "time"); [apply check_time_scored|].
    destruct (String.eqb trigger_type "pattern").
    - unfold _check_patterns.
      destruct (py_iter _) as [ps|e]; cbn [rbind]; [|discriminate].
      apply patterns_loop_scored.
    - intros H. close_scored H. }
  destruct Hs as [[Hm Hc] | [Hm [H0 H1]]].
  - rewrite Hc. repeat split; try discriminate.
  - repeat split; try assumption. rewrite Hm. discriminate.
Qed.

Lemma evaluate_trigger_confidence_bounds_witness :
  exists r,
    _evaluate_trigger gloomy_polarity no_regex fromisoformat_hhmm fmt_blank str_blank plain_python
      noon sample_context "sentiment"
      [("threshold", VFloat (5 # 1)); ("operator", VStr "less_than")] = Ok r /\
    matches r = true /\ confidence r = 1%Q.
Proof.
  eexists. split; [reflexivity|]. split; [reflexivity|].
  destruct (evaluate_trigger_confidence_bounds
              gloomy_polarity no_regex fromisoformat_hhmm fmt_blank str_blank plain_python
              noon sample_context "sentiment"
              [("threshold", VFloat (5 # 1)); ("operator", VStr "less_than")]
              _ eq_refl) as (_ & _ & _).
  reflexivity.
Defined.

(** ** The time window on the clock *)

(** With both bounds set to valid naive times, the time evaluator
    matches exactly when the instant of the day lies between the two
    bounds, both included.  The window does not wrap around midnight: a
    rule whose [before] lies earlier than its [after] never matches. *)
Theorem check_time_no_wraparound
        (fromisoformat : string -> result pytime)
        (now : pytime) (config : pydict) (a b : pytime) :
  valid_time now -> valid_time a -> valid_time b ->
  time_bound fromisoformat (dict_get config "after") (Some a) ->
  time_bound fromisoformat (dict_get config "before") (Some b) ->
  exists r,
    _check_time fromisoformat now config = Ok r /\
    (matches r = true <-> (micros a <= micros now <= micros b)%Z) /\
    ((micros b < micros a)%Z -> matches r = false).
Proof.
  intros Hnow Hva Hvb Ha Hb.
  assert (Hr : exists r, _check_time fromisoformat now config = Ok r /\
                         matches r = time_leb a now && time_leb now b).
  { unfold _check_time.
    rewrite (after_check fromisoformat now _ (Some a) Ha). cbn [rbind].
    destruct (time_leb a now); simpl; [|eexists; split; reflexivity].
    rewrite (before_check fromisoformat now _ (Some b) Hb). cbn [rbind].
    destruct (time_leb now b); simpl; eexists; split; reflexivity. }
  destruct Hr as (r & Hr & Hm). exists r. split; [exact Hr|].
  rewrite Hm, !time_leb_micros by assumption.
  rewrite andb_true_iff, !Z.leb_le. split; [reflexivity|].
  intros Hlt. apply andb_false_iff.
  destruct (Z.leb_spec (micros a) (micros now)); [right | left; reflexivity].
  apply Z.leb_gt. lia.
Qed.

Lemma check_time_no_wraparound_witness :
  exists r,
    _check_time fromisoformat_hhmm (naive_time 23 0 0)
                [("after", VStr "22:00"); ("before", VStr "06:00")] = Ok r /\
    matches r = false.
Proof.
  destruct (check_time_no_wraparound fromisoformat_hhmm (naive_time 23 0 0)
              [("after", VStr "22:00"); ("before", VStr "06:00")]
              (naive_time 22 0 0) (naive_time 6 0 0))
    as (r & Hr & _ & Hno).
  - unfold valid_time. simpl. lia.
  - unfold valid_time. simpl. lia.
  - unfold valid_time. simpl. lia.
  - apply bound_set; [discriminate | reflexivity | reflexivity].
  - apply bound_set; [discriminate | reflexivity | reflexivity].
  - exists r. split; [exact Hr|]. apply Hno. reflexivity.
Defined.

(** * Further properties of the resolver *)

Section ResolverMore.

Variable polarity_of : string -> result Q.
Variable re_search : string -> string -> result bool.
Variable fromisoformat : string -> result pytime.
Variable fmt_2f : Q -> string.
Variable py_str : pyval -> string.
Variable py : interpreter.

Local Abbreviation collect :=
  (collect_matches polarity_of re_search fromisoformat fmt_2f py_str py).
Local Abbreviation resolve :=
  (evaluate_rules polarity_of re_search fromisoformat fmt_2f py_str py).
Local Abbreviation trigger :=
  (eval_trigger polarity_of re_search fromisoformat fmt_2f py_str py).

Lemma collect_matches_skip (now : pytime) (context : MessageContext)
      (rule : Rule.t) (rest : list Rule.t) :
  eligible context rule = false ->
  collect now context (rule :: rest) = collect now context rest.
Proof.
  unfold eligible. intros H. cbn [collect_matches].
  destruct (Rule.enabled rule); [|reflexivity].
  destruct (platform_excluded context rule); [reflexivity|].
  destruct (channel_excluded context rule); [reflexivity | discriminate H].
Qed.

Lemma collect_matches_eligible (now : pytime) (context : MessageContext)
      (rule : Rule.t) (rest : list Rule.t) :
  eligible context rule = true ->
  collect now context (rule :: rest)
  = match trigger now context (Rule.trigger_type rule) (Rule.trigger_value rule) with
    | Raise e => (1%nat, Raise e)
    | Ok match_result =>
        let '(n, r) := collect now context rest in
        (S n,
         do ms <- r ;
         Ok (if matches match_result
             then {| m_rule := rule;
                     m_confidence := confidence match_result;
                     m_reason := reason match_result |} :: ms
             else ms))
    end.
Proof.
  unfold eligible. intros H. cbn [collect_matches].
  apply andb_prop in H as [H Hc]. apply andb_prop in H as [He Hp].
  apply negb_true_iff in Hc, Hp. rewrite He, Hp, Hc. reflexivity.
Qed.

(** Rules that are disabled, or whose platform or channel list excludes
    the context, have no influence on the resolution: the resolver
    answers, and counts, as it does on the eligible rules alone. *)
Theorem evaluate_rules_ignores_ineligible
        (now : pytime) (context : MessageContext) (rules : list Rule.t) :
  resolve now context rules
  = resolve now context (List.filter (eligible context) rules).
Proof.
  unfold evaluate_rules. f_equal.
  assert (H : collect now context rules
              = collect now context (List.filter (eligible context) rules)).
  { induction rules as [|rule rest IH]; [reflexivity|].
    cbn [List.filter]. destruct (eligible context rule) eqn:He.
    - rewrite !(collect_matches_eligible _ _ _ _ He), IH. reflexivity.
    - rewrite (collect_matches_skip _ _ _ _ He). exact IH. }
  rewrite H. reflexivity.
Qed.

(** When no rule is eligible for the context, the resolver finds no
    match without evaluating a single trigger, also when a trigger value
    is such that its evaluator would raise. *)
Theorem evaluate_rules_none_eligible
        (now : pytime) (context : MessageContext) (rules : list Rule.t) :
  Forall (fun rule => eligible context rule = false) rules ->
  resolve now context rules = (0%nat, Ok None).
Proof.
  intros Hall. unfold evaluate_rules.
  assert (H : collect now context rules = (0%nat, Ok [])).
  { induction Hall as [|rule rest Hr _ IH]; [reflexivity|].
    rewrite (collect_matches_skip _ _ _ _ Hr). exact IH. }
  rewrite H. reflexivity.
Qed.

(** When no evaluator raises, the resolver evaluates exactly one trigger
    per eligible rule, and the matches come in rule order. *)
Lemma collect_matches_count (now : pytime) (context : MessageContext)
      (rules : list Rule.t) (n : nat) (ms : list Match) :
  collect now context rules = (n, Ok ms) ->
  n = List.length (List.filter (eligible context) rules) /\
  (List.length ms <= n)%nat /\
  exists picked, map m_rule ms = picked /\ sublist picked rules.
Proof.
  revert n ms. induction rules as [|rule rest IH]; intros n ms H.
  - injection H as <- <-. repeat split; auto. exists []. split; [reflexivity|].
    constructor.
  - cbn [List.filter]. destruct (eligible context rule) eqn:He.
    + rewrite (collect_matches_eligible _ _ _ _ He) in H.
      destruct (trigger now context _ _) as [mr|e]; [|discriminate H].
      destruct (collect now context rest) as [n' [ms'|e]]; cbn [rbind] in H;
        [|discriminate H].
      destruct (IH n' ms' eq_refl) as (Hn & Hlen & picked & Hp & Hsub).
      injection H as <- <-. split; [simpl; congruence|].
      destruct (matches mr); simpl.
      * split; [lia|]. eexists. split; [reflexivity|].
        rewrite Hp. apply sublist_skip. exact Hsub.
      * split; [lia|]. exists picked. split; [exact Hp|].
        apply sublist_cons. exact Hsub.
    + rewrite (collect_matches_skip _ _ _ _ He) in H.
      destruct (IH n ms H) as (Hn & Hlen & picked & Hp & Hsub).
      repeat split; auto. exists picked. split; [exact Hp|].
      apply sublist_cons. exact Hsub.
Qed.

End ResolverMore.

Lemma match_ltb_true_iff (a b : Match) : match_ltb a b = true <-> ranks_below a b.
Proof.
  unfold match_ltb, key_ltb, ranks_below, sort_key. simpl.
  destruct (Z.eqb_spec (Rule.priority (m_rule a)) (Rule.priority (m_rule b))) as [E|E].
  - unfold Qltb. rewrite negb_true_iff. split.
    + intros H. right. split; [exact E|].
      apply Qnot_le_lt. intros Hle. apply Qle_bool_iff in Hle. congruence.
    + intros [H | [_ H]]; [lia|].
      destruct (Qle_bool (m_confidence b) (m_confidence a)) eqn:Hb; [|reflexivity].
      apply Qle_bool_iff in Hb. exfalso. exact (Qlt_not_le _ _ H Hb).
  - rewrite Z.ltb_lt. split; [intros H; left; exact H|].
    intros [H | [H _]]; [exact H | contradiction].
Qed.

Section ResolverSelection.

Variable polarity_of : string -> result Q.
Variable re_search : string -> string -> result bool.
Variable fromisoformat : string -> result pytime.
Variable fmt_2f : Q -> string.
Variable py_str : pyval -> string.
Variable py : interpreter.

Local Abbreviation collect :=
  (collect_matches polarity_of re_search fromisoformat fmt_2f py_str py).
Local Abbreviation resolve :=
  (evaluate_rules polarity_of re_search fromisoformat fmt_2f py_str py).
Local Abbreviation trigger :=
  (eval_trigger polarity_of re_search fromisoformat fmt_2f py_str py).

(** A positive answer of the resolver names a rule of the list that is
    enabled, is let through by its platform and channel lists, and whose
    trigger matched; confidence and reason are those of that rule's
    evaluation.  The resolver has then evaluated one trigger per
    eligible rule. *)
Theorem evaluate_rules_selects_eligible_match
        (now : pytime) (context : MessageContext) (rules : list Rule.t)
        (n : nat) (res : TransformationResult) :
  resolve now context rules = (n, Ok (Some res)) ->
  exists rule r,
    In rule rules /\
    Rule.enabled rule = true /\
    eligible context rule = true /\
    trigger now context (Rule.trigger_type rule) (Rule.trigger_value rule) = Ok r /\
    matches r = true /\
    res = {| should_transform := true;
             rule_id := Some (Rule.id rule);
             res_rule_name := Some (Rule.rule_name rule);
             res_transformation_type := Rule.transformation_type rule;
             res_transformation_intensity := Rule.transformation_intensity rule;
             res_transformation_options := Rule.transformation_options rule;
             res_confidence := confidence r;
             res_reason := Some (reason r) |} /\
    n = List.length (List.filter (eligible context) rules).
Proof.
  unfold evaluate_rules.
  destruct (collect now context rules) as [n' [ms|e]] eqn:Hc; cbn [rbind];
    [|discriminate].
  destruct (sort_desc ms) as [|best tl] eqn:Hs; [discriminate|].
  intros H. injection H as <- <-.
  assert (Hin : In best ms).
  { apply (Permutation_in best (Permutation_sym (stable_sort_desc_perm match_ltb ms))).
    unfold sort_desc in Hs. rewrite Hs. left. reflexivity. }
  apply (collect_matches_In _ _ _ _ _ _ _ _ _ _ _ Hc) in Hin
    as (rule & r & Hrule & Hel & Ht & Hm & ->).
  exists rule, r. split; [exact Hrule|]. split.
  { unfold eligible in Hel. apply andb_prop in Hel as [Hel _].
    apply andb_prop in Hel as [He _]. exact He. }
  repeat split; try assumption.
  apply (collect_matches_count _ _ _ _ _ _ _ _ _ _ _ Hc).
Qed.

(** Ties go to the earlier rule: in the list of matches, which is in
    rule order, every match before the selected one ranks strictly
    below it, and every match after it ranks at most as high.  Two
    matching rules of equal priority and equal confidence are therefore
    resolved in favour of the one that comes first, and the answer
    carries the id, the name and the transformation of that rule. *)
Theorem evaluate_rules_first_among_ties
        (now : pytime) (context : MessageContext) (rules : list Rule.t)
        (n : nat) (ms : list Match) :
  collect now context rules = (n, Ok ms) ->
  ms <> [] ->
  exists pre best post,
    ms = (pre ++ best :: post)%list /\
    resolve now context rules
    = (n, Ok (Some {| should_transform := true;
                      rule_id := Some (Rule.id (m_rule best));
                      res_rule_name := Some (Rule.rule_name (m_rule best));
                      res_transformation_type := Rule.transformation_type (m_rule best);
                      res_transformation_intensity :=
                        Rule.transformation_intensity (m_rule best);
                      res_transformation_options :=
                        Rule.transformation_options (m_rule best);
                      res_confidence := m_confidence best;
                      res_reason := Some (m_reason best) |})) /\
    Forall (fun m => ranks_below m best) pre /\
    Forall (fun m => ranks_above best m) post.
Proof.
  intros Hc Hne.
  destruct (sort_desc ms) as [|best tl] eqn:Hs.
  { pose proof (stable_sort_desc_perm match_ltb ms) as Hp.
    unfold sort_desc in Hs. rewrite Hs in Hp.
    apply Permutation_sym, Permutation_nil in Hp. contradiction. }
  destruct (stable_sort_desc_first match_ltb ms best tl Hs)
    as (pre & post & Hms & Hpre).
  destruct (stable_sort_desc_head match_ltb match_ltb_irrefl match_geb_trans
              match_ltb_asym ms best tl Hs) as [_ Hmax].
  exists pre, best, post. split; [exact Hms|]. split.
  - unfold evaluate_rules. rewrite Hc. cbn [rbind]. rewrite Hs. reflexivity.
  - split; apply List.Forall_forall; intros m Hm.
    + apply match_ltb_true_iff, Hpre, Hm.
    + apply match_ltb_false_iff, Hmax. rewrite Hms.
      apply in_or_app. right. right. exact Hm.
Qed.

End ResolverSelection.

Lemma evaluate_rules_selects_eligible_match_witness :
  exists rule,
    In rule [teams_only_rule; keyword_rule "polite" 5 ["unacceptable"; "now"]] /\
    eligible sample_context rule = true /\
    Rule.id rule = "polite".
Proof.
  destruct (evaluate_rules_selects_eligible_match
              neutral_polarity no_regex fromisoformat_hhmm fmt_blank str_blank plain_python
              noon sample_context
              [teams_only_rule; keyword_rule "polite" 5 ["unacceptable"; "now"]]
              1%nat sample_decision eq_refl)
    as (rule & r & Hin & _ & Hel & _ & _ & Hres & _).
  exists rule. split; [exact Hin|]. split; [exact Hel|].
  injection Hres as Hid _. symmetry. exact Hid.
Defined.

Lemma evaluate_rules_first_among_ties_witness :
  exists answer,
    evaluate_rules neutral_polarity no_regex fromisoformat_hhmm fmt_blank str_blank
      plain_python noon sample_context
      [keyword_rule "first" 5 ["now"]; keyword_rule "second" 5 ["unacceptable"]]
    = (2%nat, Ok (Some answer)) /\
    rule_id answer = Some "first" /\
    res_rule_name answer = Some "first" /\
    res_reason answer = Some "Contains keywords: now".
Proof.
  destruct (evaluate_rules_first_among_ties
              neutral_polarity no_regex fromisoformat_hhmm fmt_blank str_blank
              plain_python noon sample_context
              [keyword_rule "first" 5 ["now"]; keyword_rule "second" 5 ["unacceptable"]]
              2%nat
              [ {| m_rule := keyword_rule "first" 5 ["now"];
                   m_confidence := 1;
                   m_reason := "Contains keywords: now" |};
                {| m_rule := keyword_rule "second" 5 ["unacceptable"];
                   m_confidence := 1;
                   m_reason := "Contains keywords: unacceptable" |} ])
    as (pre & best & post & Hms & Hres & Hpre & _).
  - vm_compute. reflexivity.
  - discriminate.
  - assert (Hb : best = {| m_rule := keyword_rule "first" 5 ["now"];
                           m_confidence := 1;
                           m_reason := "Contains keywords: now" |}).
    { destruct pre as [|m pre].
      + injection Hms as Hb _. symmetry. exact Hb.
      + exfalso. injection Hms as <- Hrest.
        inversion Hpre as [|? ? Hm _]; subst.
        destruct pre as [|m' pre].
        * injection Hrest as <- _.
          destruct Hm as [Hm | [_ Hm]]; [simpl in Hm; lia | discriminate Hm].
        * injection Hrest as _ Hrest. destruct pre; discriminate Hrest. }
    subst best. eexists. split; [exact Hres|]. repeat split.
Defined.


Lemma evaluate_rules_none_eligible_witness :
  evaluate_rules neutral_polarity no_regex fromisoformat_hhmm fmt_blank str_blank plain_python
    noon sample_context [teams_only_rule; disabled_rule]
  = (0%nat, Ok None).
Proof.
  apply (evaluate_rules_none_eligible
           neutral_polarity no_regex fromisoformat_hhmm fmt_blank str_blank plain_python
           noon sample_context [teams_only_rule; disabled_rule]).
  repeat constructor.
Defined.

(** * Further properties of the handlers *)

(** ** What an evaluation writes *)

Lemma load_config_frame (sql : store_api)
      (now : Instant) (context : MessageContext) (s : State) :
  db (snd (load_config sql now context s)) = db s /\
  background (snd (load_config sql now context s)) = background s.
Proof.
  unfold load_config, mbind, cache_get, query.
  destruct (redis_get _ _ _) as [[[c|rs]|]|e]; simpl; auto.
  destruct (first_config sql _ (db s)) as [[row|]|e]; simpl; auto.
  destruct (negb (Config.enabled row)); simpl; auto.
  unfold cache_setex. destruct (redis_setex _ _ _ _ _); simpl; auto.
Qed.

Lemma load_rules_frame (sql : store_api) (now : Instant) (context : MessageContext)
      (config : Config.t) (s : State) :
  db (snd (load_rules sql now context config s)) = db s /\
  background (snd (load_rules sql now context config s)) = background s.
Proof.
  unfold load_rules, mbind, cache_get, query.
  destruct (redis_get _ _ _) as [[[c|rs]|]|e]; simpl; auto.
  destruct (all_rules sql false false (db s)) as [rs|e]; simpl; auto.
  unfold cache_setex. destruct (redis_setex _ _ _ _ _); simpl; auto.
Qed.

Section EvaluationEffects.

Variable polarity_of : string -> result Q.
Variable re_search : string -> string -> result bool.
Variable fromisoformat : string -> result pytime.
Variable fmt_2f : Q -> string.
Variable py_str : pyval -> string.
Variable py : interpreter.
Variable sql : store_api.

Local Abbreviation evaluate :=
  (evaluate_message polarity_of re_search fromisoformat fmt_2f py_str py sql).

Lemma evaluation_effects
        (now : Instant) (context : MessageContext) (s : State) :
  configs (db (snd (evaluate now context s))) = configs (db s) /\
  rules (db (snd (evaluate now context s))) = rules (db s) /\
  background (snd (evaluate now context s)) = background s /\
  match fst (evaluate now context s) with
  | Return (Proceed r) =>
      should_transform r = true /\
      logs (db (snd (evaluate now context s)))
      = (logs (db s) ++ [triggered_row now context r])%list
  | _ => logs (db (snd (evaluate now context s))) = logs (db s)
  end.
Proof.
  unfold evaluate_message, evaluate_body, mbind.
  pose proof (load_config_frame sql now context s) as [Hdb1 Hbg1].
  destruct (load_config sql now context s) as [[[config|]|e] s1]; simpl in Hdb1, Hbg1;
    simpl; try (rewrite Hdb1, Hbg1; auto).
  destruct (len (message context) <? Config.min_message_length config)%Z; simpl;
    [rewrite Hdb1, Hbg1; auto|].
  pose proof (load_rules_frame sql now context config s1) as [Hdb2 Hbg2].
  destruct (load_rules sql now context config s1) as [[rs|e] s2]; simpl in Hdb2, Hbg2;
    simpl; try (rewrite Hdb2, Hbg2, Hdb1, Hbg1; auto).
  destruct rs as [|rule rest]; simpl; [rewrite Hdb2, Hbg2, Hdb1, Hbg1; auto|].
  unfold run_rules.
  destruct (evaluate_rules _ _ _ _ _ _ _ _ _) as [n [[r|]|e]] eqn:Hres; simpl;
    try (rewrite Hdb2, Hbg2, Hdb1, Hbg1; auto).
  repeat split.
  unfold evaluate_rules in Hres.
  destruct (collect_matches _ _ _ _ _ _ _ _ _) as [n' [ms|e]]; cbn [rbind] in Hres;
    [|discriminate Hres].
  destruct (sort_desc ms); [discriminate Hres|].
  injection Hres as _ <-. reflexivity.
Qed.


(** An evaluation never changes a configuration or a rule and hands
    nothing to the background.  It writes the log only on a positive
    decision, and then appends exactly one row: status triggered, the
    tenant, user, message, platform and channel of the context, the id
    of the selected rule, the instant of the evaluation, and neither a
    transformed text nor an error nor a processing time.  Every other
    answer, a failure included, leaves the log as it was. *)
Theorem evaluate_message_log_effect
        (now : Instant) (context : MessageContext) (s : State) :
  configs (db (snd (evaluate now context s))) = configs (db s) /\
  rules (db (snd (evaluate now context s))) = rules (db s) /\
  background (snd (evaluate now context s)) = background s /\
  match fst (evaluate now context s) with
  | Return (Proceed r) =>
      should_transform r = true /\
      rule_id r <> None /\
      logs (db (snd (evaluate now context s)))
      = (logs (db s)
         ++ [ {| Log.tenant_id := tenant_id context;
                 Log.rule_id := rule_id r;
                 Log.user_id := user_id context;
                 Log.original_message := message context;
                 Log.transformed_message := None;
                 Log.platform := platform context;
                 Log.channel_id := channel_id context;
                 Log.status := Triggered;
                 Log.error_message := None;
                 Log.triggered_at := wall now;
                 Log.processed_at := None |} ])%list
  | _ => logs (db (snd (evaluate now context s))) = logs (db s)
  end.
Proof.
  unfold evaluate_message, evaluate_body, mbind.
  pose proof (load_config_frame sql now context s) as [Hdb1 Hbg1].
  destruct (load_config sql now context s) as [[[config|]|e] s1]; simpl in Hdb1, Hbg1;
    simpl; try (rewrite Hdb1, Hbg1; auto).
  destruct (len (message context) <? Config.min_message_length config)%Z; simpl;
    [rewrite Hdb1, Hbg1; auto|].
  pose proof (load_rules_frame sql now context config s1) as [Hdb2 Hbg2].
  destruct (load_rules sql now context config s1) as [[rs|e] s2]; simpl in Hdb2, Hbg2;
    simpl; try (rewrite Hdb2, Hbg2, Hdb1, Hbg1; auto).
  destruct rs as [|rule rest]; simpl; [rewrite Hdb2, Hbg2, Hdb1, Hbg1; auto|].
  unfold run_rules.
  destruct (evaluate_rules _ _ _ _ _ _ _ _ _) as [n [[r|]|e]] eqn:Hres; simpl;
    try (rewrite Hdb2, Hbg2, Hdb1, Hbg1; auto).
  unfold evaluate_rules in Hres.
  destruct (collect_matches _ _ _ _ _ _ _ _ _) as [n' [ms|e]]; cbn [rbind] in Hres;
    [|discriminate Hres].
  destruct (sort_desc ms); [discriminate Hres|].
  injection Hres as _ <-. repeat split. discriminate.
Qed.

End EvaluationEffects.

(** The cached rule of T1 matches: one row is appended, triggered at
    the instant of the evaluation under the id of that rule. *)
Lemma evaluate_message_log_effect_witness :
  logs (db (snd (evaluate_message neutral_polarity no_regex fromisoformat_hhmm
                   fmt_blank str_blank plain_python constant_where at_noon sample_context
                   (hot_state (sample_config true 10)
                              [keyword_rule "polite" 5 ["unacceptable"; "now"]]
                              (seconds 4600)))))
  = [ {| Log.tenant_id := "T1";
         Log.rule_id := Some "polite";
         Log.user_id := "U1";
         Log.original_message := "This is absolutely unacceptable, fix it now!!!";
         Log.transformed_message := None;
         Log.platform := "slack";
         Log.channel_id := Some "C1";
         Log.status := Triggered;
         Log.error_message := None;
         Log.triggered_at := seconds 1000;
         Log.processed_at := None |} ].
Proof.
  pose proof (evaluate_message_log_effect
                neutral_polarity no_regex fromisoformat_hhmm fmt_blank str_blank
                plain_python constant_where at_noon sample_context
                (hot_state (sample_config true 10)
                           [keyword_rule "polite" 5 ["unacceptable"; "now"]]
                           (seconds 4600))) as (_ & _ & _ & Hlog).
  change (fst (evaluate_message neutral_polarity no_regex fromisoformat_hhmm
                 fmt_blank str_blank plain_python constant_where at_noon sample_context
                 (hot_state (sample_config true 10)
                            [keyword_rule "polite" 5 ["unacceptable"; "now"]]
                            (seconds 4600))))
    with (Return (Proceed sample_decision)) in Hlog.
  destruct Hlog as (_ & _ & Hlog). rewrite Hlog. reflexivity.
Defined.

(** ** Evaluation followed by transformation *)

Lemma correlated_triggered_row (now0 : Instant) (now1 : Z) (context : MessageContext)
      (r : TransformationResult) :
  correlated now1 context (triggered_row now0 context r)
  = (now1 - seconds 60 <? wall now0)%Z.
Proof.
  unfold correlated, triggered_row. simpl.
  rewrite !String.eqb_refl. reflexivity.
Qed.

Lemma auto_transform_logs (llm_service : LLMRequest -> Upstream)
      (now : Instant) (context : MessageContext)
      (transformation : TransformationResult) (s : State) :
  logs (db (snd (auto_transform llm_service now context transformation s)))
  = logs_marked (wall now) context
      (match call_transform llm_service context transformation with
       | Ok transformed_text => mark_transformed (wall now) transformed_text
       | Raise e => mark_failed (wall now) (str_of_exn e)
       end)
      (logs (db s)).
Proof.
  unfold auto_transform.
  destruct (call_transform llm_service context transformation); reflexivity.
Qed.

(** The row that a positive evaluation logs is the row a transform of
    the same context settles, as long as the transform runs less than 60
    seconds after the evaluation: on success the row ends with status
    transformed, the output text and the instant of the transform as its
    processing time, and keeps everything else.  A transform that runs
    60 seconds or more after the evaluation leaves the row triggered,
    without text and without processing time.  The rows that were in
    the log before the evaluation are treated as the transform treats
    any log. *)
Theorem evaluate_then_transform
        (polarity_of : string -> result Q)
        (re_search : string -> string -> result bool)
        (fromisoformat : string -> result pytime)
        (fmt_2f : Q -> string) (py_str : pyval -> string)
        (py : interpreter) (sql : store_api)
        (llm_service : LLMRequest -> Upstream)
        (now0 now1 : Instant) (context : MessageContext) (s s1 : State)
        (r : TransformationResult) (transformed_text : pyval) :
  evaluate_message polarity_of re_search fromisoformat fmt_2f py_str py sql
                   now0 context s
  = (Return (Proceed r), s1) ->
  call_transform llm_service context r = Ok transformed_text ->
  logs (db (snd (auto_transform llm_service now1 context r s1)))
  = (logs_marked (wall now1) context (mark_transformed (wall now1) transformed_text)
                 (logs (db s))
     ++ [ {| Log.tenant_id := tenant_id context;
             Log.rule_id := rule_id r;
             Log.user_id := user_id context;
             Log.original_message := message context;
             Log.transformed_message :=
               if (wall now1 - seconds 60 <? wall now0)%Z
               then Some transformed_text else None;
             Log.platform := platform context;
             Log.channel_id := channel_id context;
             Log.status :=
               if (wall now1 - seconds 60 <? wall now0)%Z
               then Transformed else Triggered;
             Log.error_message := None;
             Log.triggered_at := wall now0;
             Log.processed_at :=
               if (wall now1 - seconds 60 <? wall now0)%Z
               then Some (wall now1) else None |} ])%list.
Proof.
  intros Heval Hcall.
  pose proof (evaluation_effects polarity_of re_search fromisoformat
                fmt_2f py_str py sql now0 context s) as (_ & _ & _ & Hlog).
  rewrite Heval in Hlog. simpl in Hlog. destruct Hlog as [_ Hlog].
  rewrite auto_transform_logs, Hcall, Hlog.
  unfold logs_marked. rewrite map_app. simpl.
  rewrite correlated_triggered_row.
  destruct (wall now1 - seconds 60 <? wall now0)%Z; reflexivity.
Qed.

Lemma evaluate_then_transform_witness :
  logs (db (snd (auto_transform llm_ok half_a_minute_later sample_context sample_decision
                   (snd (evaluate_message neutral_polarity no_regex fromisoformat_hhmm
                           fmt_blank str_blank plain_python constant_where
                           at_noon sample_context
                           (hot_state (sample_config true 10)
                              [keyword_rule "polite" 5 ["unacceptable"; "now"]]
                              (seconds 4600)))))))
  = [ {| Log.tenant_id := "T1";
         Log.rule_id := Some "polite";
         Log.user_id := "U1";
         Log.original_message := "This is absolutely unacceptable, fix it now!!!";
         Log.transformed_message := Some (VStr "Could you please fix it soon?");
         Log.platform := "slack";
         Log.channel_id := Some "C1";
         Log.status := Transformed;
         Log.error_message := None;
         Log.triggered_at := seconds 1000;
         Log.processed_at := Some (seconds 1030) |} ].
Proof.
  apply (evaluate_then_transform
           neutral_polarity no_regex fromisoformat_hhmm fmt_blank str_blank
           plain_python constant_where llm_ok
           at_noon half_a_minute_later sample_context
           (hot_state (sample_config true 10)
                      [keyword_rule "polite" 5 ["unacceptable"; "now"]] (seconds 4600))
           _ sample_decision (VStr "Could you please fix it soon?")).
  - vm_compute. reflexivity.
  - reflexivity.
Defined.

(** ** A recorded outcome is final *)

Lemma correlated_needs_triggered (now : Z) (context : MessageContext) (row : Log.t) :
  Log.status row <> Triggered -> correlated now context row = false.
Proof.
  intros H. unfold correlated.
  destruct (Log.status row); [contradiction| |]; simpl;
    rewrite andb_false_r; reflexivity.
Qed.

Lemma correlated_later (now now' : Z) (context : MessageContext) (row : Log.t) :
  (now <= now')%Z ->
  correlated now context row = false -> correlated now' context row = false.
Proof.
  unfold correlated. intros Hle H.
  apply andb_false_iff in H as [H | H]; [rewrite H; reflexivity|].
  apply andb_false_iff. right. apply Z.ltb_ge in H. apply Z.ltb_ge. lia.
Qed.

Lemma logs_marked_settled (now now' : Z) (context : MessageContext)
      (f g : Log.t -> Log.t) (ls : list Log.t) :
  (now <= now')%Z ->
  (forall row, Log.status (f row) <> Triggered) ->
  logs_marked now' context g (logs_marked now context f ls)
  = logs_marked now context f ls.
Proof.
  intros Hle Hf. unfold logs_marked. rewrite map_map.
  apply map_ext. intros row.
  destruct (correlated now context row) eqn:Hc.
  - rewrite (correlated_needs_triggered now' context (f row) (Hf row)). reflexivity.
  - rewrite (correlated_later now now' context row Hle Hc). reflexivity.
Qed.

(** Once a transform has run for a context, no row of the log is open
    for that context any more: a second transform of the same context at
    the same or a later instant, whatever the transform service answers
    this time, changes no row.  A recorded outcome, transformed or
    failed, is not overwritten. *)
Theorem auto_transform_outcome_is_final
        (llm_service llm_service' : LLMRequest -> Upstream)
        (now now' : Instant) (context : MessageContext)
        (transformation transformation' : TransformationResult) (s : State) :
  (wall now <= wall now')%Z ->
  logs (db (snd (auto_transform llm_service' now' context transformation'
                   (snd (auto_transform llm_service now context transformation s)))))
  = logs (db (snd (auto_transform llm_service now context transformation s))).
Proof.
  intros Hle. rewrite (auto_transform_logs llm_service').
  rewrite (auto_transform_logs llm_service).
  apply logs_marked_settled; [exact Hle|].
  intros row. destruct (call_transform llm_service context transformation);
    simpl; discriminate.
Qed.

Lemma auto_transform_outcome_is_final_witness :
  logs (db (snd (auto_transform llm_ok half_a_minute_later sample_context sample_decision
                   (snd (auto_transform llm_timeout at_noon sample_context sample_decision
                           (sample_state true (sample_config true 10) []
                              [sample_log Triggered (seconds 990)]))))))
  = [mark_failed (seconds 1000) "timed out" (sample_log Triggered (seconds 990))].
Proof.
  rewrite (auto_transform_outcome_is_final llm_timeout llm_ok at_noon half_a_minute_later
             sample_context sample_decision sample_decision
             (sample_state true (sample_config true 10) []
                           [sample_log Triggered (seconds 990)])).
  - reflexivity.
  - simpl. unfold seconds. lia.
Defined.

(** ** Metrics are scheduled for successes only *)

(** A transform that returns a success hands exactly one metrics task to
    the background, with the tenant, the rule of the decision and the
    status "success"; a transform that fails hands over none, so failed
    transforms are not counted.  The cache, the configurations and the
    rules are never touched by a transform. *)
Theorem auto_transform_schedules_metrics
        (llm_service : LLMRequest -> Upstream)
        (now : Instant) (context : MessageContext)
        (transformation : TransformationResult) (s : State) :
  redis (snd (auto_transform llm_service now context transformation s)) = redis s /\
  configs (db (snd (auto_transform llm_service now context transformation s)))
  = configs (db s) /\
  rules (db (snd (auto_transform llm_service now context transformation s)))
  = rules (db s) /\
  match fst (auto_transform llm_service now context transformation s) with
  | Return resp =>
      success resp = true /\
      original resp = message context /\
      call_transform llm_service context transformation = Ok (transformed resp) /\
      background (snd (auto_transform llm_service now context transformation s))
      = (background s ++ [success_task context transformation])%list
  | HTTPException status_code detail =>
      status_code = 500%Z /\
      (exists e, call_transform llm_service context transformation = Raise e
                 /\ detail = str_of_exn e) /\
      background (snd (auto_transform llm_service now context transformation s))
      = background s
  end.
Proof.
  unfold auto_transform.
  destruct (call_transform llm_service context transformation) as [text|e]; simpl.
  - repeat split.
  - repeat split. exists e. split; reflexivity.
Qed.

(** ** When a transform succeeds *)

(** A transform returns a success exactly when the transform service
    answered with a 2xx status and a JSON object whose [success] is true
    and whose [data] is an object with a [transformed_text]; the text
    returned is that one. *)
Theorem auto_transform_succeeds_iff
        (llm_service : LLMRequest -> Upstream)
        (now : Instant) (context : MessageContext)
        (transformation : TransformationResult) (s : State) (transformed_text : pyval) :
  (exists resp,
      fst (auto_transform llm_service now context transformation s) = Return resp /\
      transformed resp = transformed_text)
  <->
  (exists status_code body data,
      llm_service (request_of context transformation)
      = Response status_code (Ok (VDict body)) /\
      (200 <= status_code < 300)%Z /\
      truthy (dict_get body "success") = true /\
      dict_lookup "data" body = Some (VDict data) /\
      dict_lookup "transformed_text" data = Some transformed_text).
Proof.
  assert (Hcall : call_transform llm_service context transformation = Ok transformed_text
                  <-> (exists status_code body data,
                          llm_service (request_of context transformation)
                          = Response status_code (Ok (VDict body)) /\
                          (200 <= status_code < 300)%Z /\
                          truthy (dict_get body "success") = true /\
                          dict_lookup "data" body = Some (VDict data) /\
                          dict_lookup "transformed_text" data = Some transformed_text)).
  { unfold call_transform. fold (request_of context transformation).
    destruct (llm_service (request_of context transformation)) as [e|st json].
    { split; [discriminate | intros (? & ? & ? & H & _); discriminate H]. }
    unfold raise_for_status.
    destruct (Z.leb_spec 200 st) as [Hlo|Hlo];
      destruct (Z.ltb_spec st 300) as [Hhi|Hhi]; cbn [andb rbind];
      try (split; [discriminate
                  | intros (? & ? & ? & H & ? & _); injection H as -> _; lia]).
    destruct json as [v|e]; cbn [rbind];
      [|split; [discriminate | intros (? & ? & ? & H & _); discriminate H]].
    destruct v; cbn [py_get rbind];
      try (split; [discriminate | intros (? & ? & ? & H & _); discriminate H]).
    destruct (truthy (dict_get d "success")) eqn:Hs; cbn [negb];
      [|split; [discriminate
               | intros (? & ? & ? & H & _ & H' & _); injection H as <-; congruence]].
    cbn [py_getitem].
    destruct (dict_lookup "data" d) as [data|] eqn:Hd; cbn [rbind];
      [|split; [discriminate
               | intros (? & ? & ? & H & _ & _ & H' & _); injection H as <-; congruence]].
    destruct data;
      try (split; [discriminate
                  | intros (? & ? & ? & H & _ & _ & H' & _); injection H as <-;
                    congruence]).
    cbn [py_getitem].
    destruct (dict_lookup "transformed_text" d0) as [x|] eqn:Hx.
    - split.
      + intros H. injection H as ->. exists st, d, d0. repeat split; auto.
      + intros (? & ? & ? & H & _ & _ & H' & H''). injection H as <- <-.
        rewrite Hd in H'. injection H' as <-. congruence.
    - split; [discriminate|].
      intros (? & ? & ? & H & _ & _ & H' & H''). injection H as <- <-.
      rewrite Hd in H'. injection H' as <-. congruence. }
  rewrite <- Hcall. unfold auto_transform.
  destruct (call_transform llm_service context transformation) as [text|e]; simpl.
  - split; [intros (resp & H & <-); injection H as <-; reflexivity|].
    intros H. injection H as ->. eexists. split; reflexivity.
  - split; [intros (resp & H & _); discriminate H | discriminate].
Qed.

(** ** A cache hit does not read the store *)

(** While the cache holds a configuration and a rule list for the
    tenant, the answer of an evaluation is computed from these alone: it
    is the same whatever the store contains, and the cache is left as it
    is.  A change made to the store behind the cache is not seen until
    the entries expire or are deleted. *)
Theorem evaluate_message_cache_hit_ignores_store
        (polarity_of : string -> result Q)
        (re_search : string -> string -> result bool)
        (fromisoformat : string -> result pytime)
        (fmt_2f : Q -> string) (py_str : pyval -> string) (py : interpreter) (sql : store_api)
        (now : Instant) (context : MessageContext) (s : State) (d' : DB)
        (config : Config.t) (rs : list Rule.t) :
  available (redis s) = true ->
  cached_at (redis s) (wall now) (config_key (tenant_id context))
  = Some (CachedConfig config) ->
  cached_at (redis s) (wall now) (rules_key (tenant_id context))
  = Some (CachedRules rs) ->
  fst (evaluate_message polarity_of re_search fromisoformat fmt_2f py_str py sql
         now context (set_db s d'))
  = fst (evaluate_message polarity_of re_search fromisoformat fmt_2f py_str py sql
           now context s)
  /\ redis (snd (evaluate_message polarity_of re_search fromisoformat fmt_2f py_str py sql
                   now context s)) = redis s.
Proof.
  intros Hup Hc Hr.
  assert (Hbody : forall s0, redis s0 = redis s ->
             fst (evaluate_body polarity_of re_search fromisoformat fmt_2f py_str py sql
                    now context s0)
             = fst (evaluate_body polarity_of re_search fromisoformat fmt_2f py_str py sql
                      now context s)
             /\ redis (snd (evaluate_body polarity_of re_search fromisoformat fmt_2f
                              py_str py sql now context s0)) = redis s).
  { intros s0 Hs0.
    unfold evaluate_body, load_config, load_rules, mbind, cache_get.
    rewrite Hs0, !(redis_get_cached_at _ _ _ Hup), Hc. unfold mret.
    destruct (len (message context) <? Config.min_message_length config)%Z;
      [split; [reflexivity | exact Hs0]|].
    rewrite Hs0, !(redis_get_cached_at _ _ _ Hup), Hr.
    destruct rs as [|rule rest]; [split; [reflexivity | exact Hs0]|].
    unfold run_rules.
    destruct (evaluate_rules _ _ _ _ _ _ _ _ _) as [n [[r|]|e]]; simpl;
      split; try reflexivity; exact Hs0. }
  unfold evaluate_message.
  destruct (Hbody (set_db s d') eq_refl) as [H1 _].
  destruct (Hbody s eq_refl) as [_ H2].
  split.
  - destruct (evaluate_body _ _ _ _ _ _ _ now context (set_db s d')) as [[a|e] s1];
      destruct (evaluate_body _ _ _ _ _ _ _ now context s) as [[a'|e'] s2];
      simpl in *; congruence.
  - destruct (evaluate_body _ _ _ _ _ _ _ now context s) as [[a'|e'] s2]; simpl in *;
      exact H2.
Qed.

Lemma evaluate_message_cache_hit_ignores_store_witness :
  fst (evaluate_message neutral_polarity no_regex fromisoformat_hhmm fmt_blank str_blank plain_python constant_where
         at_noon sample_context
         (set_db (hot_state (sample_config true 10)
                            [keyword_rule "polite" 5 ["unacceptable"; "now"]]
                            (seconds 1200))
                 (db (sample_state true (sample_config false 10) [] []))))
  = Return (Proceed sample_decision).
Proof.
  destruct (evaluate_message_cache_hit_ignores_store
              neutral_polarity no_regex fromisoformat_hhmm fmt_blank str_blank plain_python
              constant_where at_noon sample_context
              (hot_state (sample_config true 10)
                         [keyword_rule "polite" 5 ["unacceptable"; "now"]]
                         (seconds 1200))
              (db (sample_state true (sample_config false 10) [] []))
              (sample_config true 10)
              [keyword_rule "polite" 5 ["unacceptable"; "now"]]) as [H _].
  - reflexivity.
  - vm_compute. reflexivity.
  - vm_compute. reflexivity.
  - rewrite H. vm_compute. reflexivity.
Defined.

(** ** What the store is asked *)

(** The statement that asks the store for a configuration names no
    tenant: its condition is the bool ['tenant_id' == context.tenant_id],
    which is [False] for every tenant that is not called "tenant_id".
    With nothing cached for either, two such tenants therefore get the
    same configuration, or the same refusal, from the block that loads
    it, whatever rows the store holds for them. *)
Theorem load_config_miss_ignores_tenant
        (sql : store_api) (now : Instant) (a b : MessageContext) (s : State) :
  available (redis s) = true ->
  cached_at (redis s) (wall now) (config_key (tenant_id a)) = None ->
  cached_at (redis s) (wall now) (config_key (tenant_id b)) = None ->
  tenant_id a <> "tenant_id" ->
  tenant_id b <> "tenant_id" ->
  fst (load_config sql now a s) = fst (load_config sql now b s) /\
  fst (load_config sql now a s)
  = match first_config sql false (db s) with
    | Ok (Some row) => Ok (if Config.enabled row then Some row else None)
    | Ok None => Ok None
    | Raise e => Raise e
    end.
Proof.
  intros Hup Ha Hb Hna Hnb.
  assert (Hmiss : forall c,
             cached_at (redis s) (wall now) (config_key (tenant_id c)) = None ->
             tenant_id c <> "tenant_id" ->
             fst (load_config sql now c s)
             = match first_config sql false (db s) with
               | Ok (Some row) => Ok (if Config.enabled row then Some row else None)
               | Ok None => Ok None
               | Raise e => Raise e
               end).
  { intros c Hc Hn. unfold load_config, mbind at 1, cache_get.
    rewrite (redis_get_cached_at _ _ _ Hup), Hc.
    destruct (String.eqb_spec "tenant_id" (tenant_id c)) as [E|_];
      [symmetry in E; contradiction|].
    unfold mbind, query.
    destruct (first_config sql false (db s)) as [[row|]|e]; try reflexivity.
    destruct (Config.enabled row); simpl; [|reflexivity].
    unfold cache_setex, redis_setex. rewrite Hup. reflexivity. }
  rewrite (Hmiss a Ha Hna), (Hmiss b Hb Hnb). split; reflexivity.
Qed.

(** The store holds an enabled configuration for T1 and none for T2;
    with an empty cache and a store that selects no row on a condition
    that is [False], both are told that they have none. *)
Lemma load_config_miss_ignores_tenant_witness :
  configs (db (sample_state true (sample_config true 10) [] [])) !! "T1"
  = Some (sample_config true 10) /\
  fst (load_config constant_where at_noon sample_context
         (sample_state true (sample_config true 10) [] []))
  = Ok None /\
  fst (evaluate_message neutral_polarity no_regex fromisoformat_hhmm fmt_blank str_blank
         plain_python constant_where at_noon sample_context
         (sample_state true (sample_config true 10)
                       [keyword_rule "polite" 5 ["unacceptable"; "now"]] []))
  = Return (Decline "Auto-transform disabled").
Proof.
  split; [reflexivity|]. split; [|reflexivity].
  rewrite (proj2 (load_config_miss_ignores_tenant constant_where at_noon sample_context
                    {| message := "hello"; user_id := "U2"; tenant_id := "T2";
                       platform := "slack"; channel_id := None; recipient_ids := [];
                       metadata := [] |}
                    (sample_state true (sample_config true 10) [] [])
                    eq_refl eq_refl eq_refl ltac:(discriminate) ltac:(discriminate))).
  reflexivity.
Defined.

(** An update for a tenant that has a row, when the store answers the
    existence check with no row (its condition is the bool
    ['tenant_id' == tenant_id]), takes the insert; the store refuses the
    second row of the tenant, and the update ends in an HTTP 500 with
    the row as it was and the cache entry of the tenant still in
    place. *)
Theorem update_config_existing_tenant
        (sql : store_api) (tenant : string) (config : AutoTransformConfig)
        (s : State) (row : Config.t) :
  configs (db s) !! tenant = Some row ->
  first_config_id sql (String.eqb "tenant_id" tenant) (db s) = Ok None ->
  update_config sql tenant config s
  = (HTTPException 500 "duplicate key value violates unique constraint", s).
Proof.
  intros Hrow Hnone.
  unfold update_config, write_config, mbind, query, insert_config_row.
  rewrite Hnone, Hrow. reflexivity.
Qed.

Lemma update_config_existing_tenant_witness :
  update_config constant_where "T1" (sample_update false 80)
    (sample_state true (sample_config true 10) [] [])
  = (HTTPException 500 "duplicate key value violates unique constraint",
     sample_state true (sample_config true 10) [] []).
Proof.
  apply (update_config_existing_tenant constant_where "T1" (sample_update false 80)
           (sample_state true (sample_config true 10) [] []) (sample_config true 10));
    reflexivity.
Defined.

(** ** Counting *)

Lemma metrics_key_not_rule_usage_key (t d t' d' : string) :
  metrics_key t d <> rule_usage_key t' d'.
Proof. unfold metrics_key, rule_usage_key. simpl. intros H. discriminate H. Qed.

Lemma hget_hincrby (c : Counters) (key field : string) (amount : Z) :
  counters_up c = true ->
  exists c',
    hincrby c key field amount = Ok c' /\
    counters_up c' = true /\
    forall key' field',
      hget c' key' field'
      = (hget c key' field'
         + if String.eqb key' key && String.eqb field' field then amount else 0)%Z.
Proof.
  intros Hup. unfold hincrby. rewrite Hup.
  eexists. split; [reflexivity|]. split; [reflexivity|].
  intros key' field'. unfold hget at 1. simpl.
  destruct (String.eqb_spec key' key) as [-> | Hk].
  - rewrite lookup_insert_eq.
    destruct (String.eqb_spec field' field) as [-> | Hf]; simpl.
    + rewrite lookup_insert_eq. reflexivity.
    + rewrite lookup_insert_ne by congruence.
      unfold hget. destruct (hashes c !! key) as [h|];
        [|rewrite lookup_empty]; lia.
  - rewrite lookup_insert_ne by congruence. simpl. unfold hget. lia.
Qed.

(** One call of [track_metrics] adds one to the counter of its status in
    the day's metrics hash of the tenant and, when a rule id is given
    and is not empty, one to the counter of that rule in the day's usage
    hash; every other counter keeps its value.  When the cache cannot be
    reached nothing is counted and nothing is raised. *)
Theorem track_metrics_counts
        (today tenant : string) (rule : option string) (status : string)
        (c : Counters) (key field : string) :
  hget (track_metrics today tenant rule status c) key field
  = (hget c key field
     + (if counters_up c
           && String.eqb key (metrics_key tenant today) && String.eqb field status
        then 1 else 0)
     + (match rule with
        | Some rule_id =>
            if counters_up c
               && negb (String.eqb rule_id EmptyString)
               && String.eqb key (rule_usage_key tenant today)
               && String.eqb field rule_id
            then 1 else 0
        | None => 0
        end))%Z.
Proof.
  unfold track_metrics.
  destruct (counters_up c) eqn:Hup.
  2:{ unfold hincrby. rewrite Hup. simpl. destruct rule; lia. }
  destruct (hget_hincrby c (metrics_key tenant today) status 1 Hup)
    as (c1 & H1 & Hup1 & Hget1).
  rewrite H1. cbn [andb].
  destruct rule as [rule_id|]; [|rewrite Hget1; lia].
  destruct (String.eqb rule_id EmptyString); cbn [negb andb];
    [rewrite Hget1; lia|].
  destruct (hget_hincrby c1 (rule_usage_key tenant today) rule_id 1 Hup1)
    as (c2 & H2 & _ & Hget2).
  rewrite H2, Hget2, Hget1. reflexivity.
Qed.

(** * The client *)

Lemma truthy_VStr (s : string) : truthy (VStr s) = true <-> s <> EmptyString.
Proof.
  simpl. rewrite negb_true_iff. split.
  - intros H ->. discriminate H.
  - intros H. destruct (String.eqb_spec s EmptyString); [contradiction | reflexivity].
Qed.

(** A rule dict built by one of the client's rule builders passes the
    client's validation exactly when its name and its transformation
    type are not empty; the trigger value it carries is never a reason
    to reject it, whatever the keywords, the threshold or the time
    bounds (an empty keyword list included). *)
Theorem client_rule_validation
        (name trigger_type transformation_type : string) (trigger_value : pydict) :
  trigger_type <> EmptyString -> trigger_value <> [] ->
  (_validate_rule (client_rule name trigger_type trigger_value transformation_type) = None
   <-> name <> EmptyString /\ transformation_type <> EmptyString) /\
  (name = EmptyString ->
   _validate_rule (client_rule name trigger_type trigger_value transformation_type)
   = Some "Rule name is required") /\
  (name <> EmptyString -> transformation_type = EmptyString ->
   _validate_rule (client_rule name trigger_type trigger_value transformation_type)
   = Some "Transformation type is required").
Proof.
  intros Htt Htv. unfold _validate_rule.
  change (dict_get (client_rule name trigger_type trigger_value transformation_type)
                   "rule_name") with (VStr name).
  change (dict_get (client_rule name trigger_type trigger_value transformation_type)
                   "trigger_type") with (VStr trigger_type).
  change (dict_get (client_rule name trigger_type trigger_value transformation_type)
                   "trigger_value") with (VDict trigger_value).
  change (dict_get (client_rule name trigger_type trigger_value transformation_type)
                   "transformation_type") with (VStr transformation_type).
  assert (Ht : truthy (VStr trigger_type) = true) by (apply truthy_VStr; exact Htt).
  assert (Hv : truthy (VDict trigger_value) = true)
    by (destruct trigger_value; [contradiction | reflexivity]).
  rewrite Ht, Hv. cbn [negb].
  assert (Hfalse : forall x, truthy (VStr x) = false -> x = EmptyString).
  { intros x H. destruct (String.eqb_spec x EmptyString) as [E|E]; [exact E|].
    apply truthy_VStr in E. congruence. }
  destruct (truthy (VStr name)) eqn:Hn;
    destruct (truthy (VStr transformation_type)) eqn:Hx; cbn [negb].
  - apply truthy_VStr in Hn, Hx.
    split; [split; [intros _; split; assumption | reflexivity]|].
    split; intros; contradiction.
  - apply truthy_VStr in Hn. apply Hfalse in Hx.
    split; [split; [discriminate | intros [_ H]; contradiction]|].
    split; [intros; contradiction | reflexivity].
  - apply Hfalse in Hn.
    split; [split; [discriminate | intros [H _]; contradiction]|].
    split; [reflexivity | intros; contradiction].
  - apply Hfalse in Hn.
    split; [split; [discriminate | intros [H _]; contradiction]|].
    split; [reflexivity | intros; contradiction].
Qed.

Lemma client_rule_validation_witness :
  _validate_rule (create_keyword_rule "calm down" [] "soften") = None /\
  _validate_rule (create_time_rule "" "09:00" "17:00" "soften")
  = Some "Rule name is required".
Proof.
  split.
  - apply (client_rule_validation "calm down" "keyword" "soften"
             [("keywords", VList (map VStr []))]); [discriminate | discriminate|].
    split; discriminate.
  - apply (client_rule_validation "" "time" "soften"
             [("after", VStr "09:00"); ("before", VStr "17:00")]);
      [discriminate | discriminate | reflexivity].
Defined.

(** A keyword rule built by the client is evaluated by the service
    without an exception, whatever the keywords: the trigger value it
    carries makes the keyword evaluator match exactly when one of the
    keywords occurs in the message, case ignored. *)
Theorem client_keyword_rule_on_server
        (polarity_of : string -> result Q)
        (re_search : string -> string -> result bool)
        (fromisoformat : string -> result pytime)
        (fmt_2f : Q -> string) (py_str : pyval -> string) (py : interpreter)
        (now : pytime) (context : MessageContext)
        (name : string) (keywords : list string) (transformation_type : string) :
  exists trigger_value r,
    dict_get (create_keyword_rule name keywords transformation_type) "trigger_type"
    = VStr "keyword" /\
    dict_get (create_keyword_rule name keywords transformation_type) "trigger_value"
    = VDict trigger_value /\
    _evaluate_trigger polarity_of re_search fromisoformat fmt_2f py_str py
                      now context "keyword" trigger_value = Ok r /\
    (matches r = true <-> exists kw, In kw keywords /\ ci_occurs kw (message context)).
Proof.
  destruct (check_keywords_strs (message context) keywords) as (r & Hr & Hm & _).
  exists [("keywords", VList (map VStr keywords))], r.
  split; [reflexivity|]. split; [reflexivity|]. split; [exact Hr|].
  rewrite Hm. unfold matched_keywords. split.
  - intros H. destruct (List.filter _ keywords) as [|kw l] eqn:E; [discriminate H|].
    exists kw. rewrite <- ci_occursb_spec.
    apply (proj1 (filter_In (fun kw => ci_occursb kw (message context)) kw keywords)).
    rewrite E. left. reflexivity.
  - intros (kw & Hin & Hocc). apply ci_occursb_spec in Hocc.
    assert (Hf : In kw (List.filter (fun kw => ci_occursb kw (message context)) keywords))
      by (apply filter_In; split; assumption).
    destruct (List.filter _ keywords); [destruct Hf | reflexivity].
Qed.

(** * Keywords: case and the empty keyword *)

(** The keyword evaluator does not see the case of the message: a
    message and its lowered form get exactly the same result.  And the
    empty string is a keyword that occurs in every message, so a list of
    keywords that contains it matches everything. *)
Theorem check_keywords_case_and_empty
        (message : string) (keywords : pyval) (kws : list string) :
  _check_keywords (str_lower message) keywords = _check_keywords message keywords /\
  (In EmptyString kws ->
   exists r, _check_keywords message (VList (map VStr kws)) = Ok r /\ matches r = true).
Proof.
  split.
  - unfold _check_keywords. rewrite str_lower_idem. reflexivity.
  - intros Hin.
    destruct (check_keywords_strs message kws) as (r & Hr & Hm & _).
    exists r. split; [exact Hr|]. rewrite Hm.
    assert (Hf : In EmptyString (matched_keywords message kws)).
    { apply filter_In. split; [exact Hin|]. unfold ci_occursb. simpl.
      destruct (str_lower message); reflexivity. }
    destruct (matched_keywords message kws); [destruct Hf | reflexivity].
Qed.

Lemma check_keywords_case_and_empty_witness :
  exists r,
    _check_keywords "anything at all" (VList (map VStr ["urgent"; EmptyString])) = Ok r /\
    matches r = true.
Proof.
  apply (check_keywords_case_and_empty "anything at all" VNone ["urgent"; EmptyString]).
  right. left. reflexivity.
Defined.

